(** * DataScruber: the interactive Node.js wrapper around the wipe engine

    Shallow embedding of the two revisions of the command-line wrapper
    ([index.js], and the older revision kept next to it) and of the part of
    the engine contract the wrapper relies on.

    Conventions.
    - A JavaScript string is a [string]; every [ascii] stands for one code
      unit in the range U+0000 .. U+00FF.
    - A JavaScript number is a [number]: NaN, an infinity, or a finite
      value given as a rational (every finite double is one).
    - Functions of the Node.js runtime and of libraries ([JSON.parse],
      [path.normalize], [chalk], [toFixed], ...) are fields of the record
      [Node]; the functions of the wrapper itself are translated in full.
    - [console.log] output and screen redraws are not part of the model;
      the time of day in a log line is left out.
    - An exception is [None] in the monad of a [try] block; the operator is
      the record of what is picked or typed at each prompt. *)

From Stdlib Require Import ZArith QArith Qround List String Ascii Bool Lia.
From Stdlib Require Import DecimalString.
From Stdlib Require Import Lqa.
Import ListNotations.
Open Scope string_scope.
Open Scope Z_scope.

(* ------------------------------------------------------------------ *)
(** * JavaScript strings *)

Module JsString.

(** Code units that [String.prototype.trim] and the regular expression
    class [\s] treat as white space, within U+0000 .. U+00FF. *)
Definition is_space (c : ascii) : bool :=
  existsb (N.eqb (N_of_ascii c)) [9; 10; 11; 12; 13; 32; 160]%N.

Definition newline : ascii := "010"%char.
Definition backslash : ascii := "092"%char.

Fixpoint trimStart (s : string) : string :=
  match s with
  | EmptyString => EmptyString
  | String c r => if is_space c then trimStart r else s
  end.

Fixpoint trimEnd (s : string) : string :=
  match s with
  | EmptyString => EmptyString
  | String c r =>
      match trimEnd r with
      | EmptyString => if is_space c then EmptyString else String c EmptyString
      | r' => String c r'
      end
  end.

(** [s.trim()] *)
Definition trim (s : string) : string := trimEnd (trimStart s).

(** [s.split(sep)] for a one-character separator: never empty, the empty
    string gives one empty field. *)
Fixpoint split (sep : ascii) (s : string) : list string :=
  match s with
  | EmptyString => [EmptyString]
  | String c r =>
      if Ascii.eqb c sep then EmptyString :: split sep r
      else match split sep r with
           | h :: t => String c h :: t
           | [] => [String c EmptyString]
           end
  end.

(** [s.split(/\s{n,}/)]: the separators are the maximal runs of at least
    [n] white-space characters; a shorter run stays inside its field.
    [tok] is the field being read and [run] the white space seen since. *)
Fixpoint split_runs (n : nat) (s tok run : string) : list string :=
  match s with
  | EmptyString =>
      if (1 <=? length run)%nat && (n <=? length run)%nat
      then [tok; EmptyString] else [tok ++ run]
  | String c r =>
      if is_space c then split_runs n r tok (run ++ String c EmptyString)
      else if (1 <=? length run)%nat && (n <=? length run)%nat
           then tok :: split_runs n r (String c EmptyString) EmptyString
           else split_runs n r (tok ++ run ++ String c EmptyString) EmptyString
  end.

(** [s.split(/\s+/)] and [s.split(/\s{2,}/)] *)
Definition split_ws (s : string) : list string :=
  split_runs 1 s EmptyString EmptyString.
Definition split_ws2 (s : string) : list string :=
  split_runs 2 s EmptyString EmptyString.

(** [s.toLowerCase()] on U+0000 .. U+00FF. *)
Definition lower_char (c : ascii) : ascii :=
  let n := N_of_ascii c in
  if ((65 <=? n) && (n <=? 90))%N
     || ((192 <=? n) && (n <=? 222) && negb (n =? 215))%N
  then ascii_of_N (n + 32) else c.

Fixpoint toLowerCase (s : string) : string :=
  match s with
  | EmptyString => EmptyString
  | String c r => String (lower_char c) (toLowerCase r)
  end.

(** [s.startsWith(p)] *)
Definition startsWith (p s : string) : bool := String.prefix p s.

(** [s.replace(/\\$/, '')]: drops one backslash at the very end. *)
Fixpoint dropTrailingBackslash (s : string) : string :=
  match s with
  | EmptyString => EmptyString
  | String c EmptyString =>
      if Ascii.eqb c backslash then EmptyString else s
  | String c r => String c (dropTrailingBackslash r)
  end.

Definition digit_value (c : ascii) : option Z :=
  let n := N_of_ascii c in
  if ((48 <=? n) && (n <=? 57))%N then Some (Z.of_N n - 48) else None.

(** The longest prefix of decimal digits, read as a number; [None] when
    there is no digit. *)
Fixpoint digits (s : string) (acc : option Z) : option Z :=
  match s with
  | EmptyString => acc
  | String c r =>
      match digit_value c with
      | Some d => digits r (Some (10 * match acc with Some a => a | None => 0 end + d))
      | None => acc
      end
  end.

(** The decimal numeral of an integer, as [String(n)] prints an integral
    number below 1e21 in magnitude. *)
Definition decimal (z : Z) : string := NilZero.string_of_int (Z.to_int z).

End JsString.

(* ------------------------------------------------------------------ *)
(** * JavaScript values *)

Module Js.

Inductive number : Type :=
| NaN
| Inf (negative : bool)
| Fin (q : Q).

Definition ofZ (z : Z) : number := Fin (inject_Z z).

(** [isNaN(v)] for a number. *)
Definition isNaN (v : number) : bool :=
  match v with NaN => true | _ => false end.

(** The integer a finite number equals, if any. *)
Definition integral (v : number) : option Z :=
  match v with
  | Fin q => let r := Qred q in
             if Pos.eqb (Qden r) 1 then Some (Qnum r) else None
  | _ => None
  end.

(** [Number.isInteger(v)] *)
Definition isInteger (v : number) : bool :=
  match integral v with Some _ => true | None => false end.

(** [v >= 1 && v <= 10]; a comparison with NaN is false. *)
Definition between (lo hi : Z) (v : number) : bool :=
  match v with
  | NaN => false
  | Inf _ => false
  | Fin q => Qle_bool (inject_Z lo) q && Qle_bool q (inject_Z hi)
  end.

(** The double nearest to a natural number, as a natural number: below
    2^53 the number itself; above, the 53 leading bits, rounded to the
    nearest and to the even one of two that are as near. *)
Definition nearestDouble (z : Z) : Z :=
  let bits := Z.log2 z + 1 in
  if bits <=? 53 then z else
  let e := bits - 53 in
  let q := Z.shiftr z e in
  let r := z - Z.shiftl q e in
  let half := Z.shiftl 1 (e - 1) in
  let q' := if r <? half then q
            else if half <? r then q + 1
            else if Z.even q then q else q + 1 in
  Z.shiftl q' e.

(** The Number value of an integer: the nearest double, or an infinity
    from 2^1024 on. *)
Definition fromInteger (z : Z) : number :=
  let m := nearestDouble (Z.abs z) in
  if 2 ^ 1024 <=? m then Inf (z <? 0)
  else Fin (inject_Z (if z <? 0 then - m else m)).

(** [parseInt(s, 10)]; [None] is the argument [undefined], which reads
    as the text "undefined" and has no digits. The result is the Number
    value of the integer read: a double, exact up to 2^53 and rounded
    above. *)
Definition parseInt (s : option string) : number :=
  match s with
  | None => NaN
  | Some s =>
      let body := JsString.trimStart s in
      let '(neg, rest) :=
        match body with
        | String "-" r => (true, r)
        | String "+" r => (false, r)
        | _ => (false, body)
        end in
      match JsString.digits rest None with
      | Some z => fromInteger (if neg then - z else z)
      | None => NaN
      end
  end.

(** What [JSON.parse] returns, and [undefined], which reading a missing
    property gives. *)
#[warnings="-register-all"]
Inductive value : Type :=
| Undefined
| Null
| Boolean (b : bool)
| Num (n : number)
| Str (s : string)
| Arr (items : list value)
| Obj (fields : list (string * value)).

(** ToBoolean: what [!!v], [v || d] and [if (v)] test. *)
Definition truthy (v : value) : bool :=
  match v with
  | Undefined | Null => false
  | Boolean b => b
  | Num NaN => false
  | Num (Inf _) => true
  | Num (Fin q) => negb (Qeq_bool q 0)
  | Str s => negb (String.eqb s "")
  | Arr _ | Obj _ => true
  end.

Fixpoint lookup (k : string) (fields : list (string * value)) : value :=
  match fields with
  | [] => Undefined
  | (k', v) :: rest => if String.eqb k k' then v else lookup k rest
  end.

(** [v.k] for the property names the wrapper reads ([type], [phase],
    [message], [items], [is_system], ...): none of them is a member of a
    built-in prototype, so the result is the object's own property or
    [undefined]. Reading a property of [null] or [undefined] throws a
    TypeError, which is [None]. *)
Definition get (v : value) (k : string) : option value :=
  match v with
  | Undefined | Null => None
  | Obj fields => Some (lookup k fields)
  | _ => Some Undefined
  end.

(** [v === 'text'] *)
Definition is_str (v : value) (s : string) : bool :=
  match v with Str s' => String.eqb s' s | _ => false end.

(** [a || b] *)
Definition or_else (a b : value) : value := if truthy a then a else b.

End Js.

(* ------------------------------------------------------------------ *)
(** * The runtime the wrapper runs on *)

(** How a promise made with [new Promise((resolve) => ...)] ends: resolved
    with a value, or with an exception escaping one of its callbacks. *)
Inductive settled (A : Type) : Type :=
| Resolved (a : A)
| Raised.
Arguments Resolved {A} a.
Arguments Raised {A}.

(** What [child_process.exec] hands to its callback. *)
Inductive exec_result : Type :=
| ExecError                  (* [err] is set *)
| ExecOutput (stdout : string).

Record Node : Type := {
  (** [process.platform] *)
  platform : string;
  (** the user id the process runs under, 0 for root *)
  uid : Z;
  (** [typeof process.getuid === 'function']; where it holds,
      [process.getuid()] is [uid] *)
  getuid_defined : bool;
  (** [child_process.exec(cmd, ...)] *)
  exec : string -> exec_result;
  (** [JSON.parse]; [None] is a SyntaxError *)
  JSON_parse : string -> option Js.value;
  (** [path.normalize], [path.resolve] *)
  path_normalize : string -> string;
  path_resolve : string -> string;
  (** [path.join(__dirname, 'main.py')] *)
  main_py : string;
  (** [chalk.<style>(text)] *)
  chalk : string -> string -> string;
  (** the number a value is taken for by [/]; [None]: the conversion
      throws a TypeError *)
  to_number : Js.value -> option Js.number;
  (** [(bytes / 1073741824).toFixed(1)] *)
  gigabytes : Js.number -> string;
  (** the text of an array or object inside a template literal, as a
      property key or as the argument of a [chalk] style; [None]: the
      conversion throws a TypeError *)
  object_text : Js.value -> option string;
  (** [String(v)] for a number that is not an integer below 1e21 *)
  number_text : Js.number -> string
}.

(** [String(v)] for a number. *)
Definition numberString (n : Node) (v : Js.number) : string :=
  match Js.integral v with
  | Some z => if Z.abs z <? 10 ^ 21 then JsString.decimal z else number_text n v
  | None => number_text n v
  end.

Definition isWindows (n : Node) : bool := String.eqb (platform n) "win32".

(** The text of a value inside a template literal, as a property key or as
    the argument of a [chalk] style. *)
Definition text (n : Node) (v : Js.value) : option string :=
  match v with
  | Js.Undefined => Some "undefined"
  | Js.Null => Some "null"
  | Js.Boolean b => Some (if b then "true" else "false")
  | Js.Num x => Some (numberString n x)
  | Js.Str s => Some s
  | Js.Arr _ | Js.Obj _ => object_text n v
  end.

(** [process.platform === 'win32' ? 'python' : 'python3'] *)
Definition pythonExecutable (n : Node) : string :=
  if isWindows n then "python" else "python3".

(** [code === k] for the exit code handed to a [close] listener, which is
    [null] when a signal ended the process. *)
Definition exited (code : option Z) (k : Z) : bool :=
  match code with
  | Some c => c =? k
  | None => false
  end.

Definition dquote : string := String "034"%char EmptyString.

(* ------------------------------------------------------------------ *)
(** * The prompts of the inquirer library *)

Module Inquirer.

Record choice (A : Type) : Type := {
  name : string;
  value : A;
  disabled : option string
}.
Arguments name {A} c.
Arguments value {A} c.
Arguments disabled {A} c.

Inductive entry (A : Type) : Type :=
| Choice (c : choice A)
| Separator.
Arguments Choice {A} c.
Arguments Separator {A}.

(** [{ name, value }] *)
Definition plain {A} (name : string) (value : A) : entry A :=
  Choice {| name := name; value := value; disabled := None |}.

(** The entries the pointer of a list prompt can rest on: separators and
    disabled choices are skipped. *)
Fixpoint realChoices {A} (es : list (entry A)) : list (choice A) :=
  match es with
  | [] => []
  | Separator :: rest => realChoices rest
  | Choice c :: rest =>
      match disabled c with
      | Some _ => realChoices rest
      | None => c :: realChoices rest
      end
  end.

(** A prompt of type [list]: the operator moves the pointer to the
    [pick]-th selectable entry and presses Enter; the answer is that
    entry's value. [None]: no such entry, the prompt is still open. *)
Definition list_prompt {A} (es : list (entry A)) (pick : nat) : option A :=
  option_map value (nth_error (realChoices es) pick).

(** A prompt of type [number] with a default and a [validate] function.
    Each submitted line is a number, or [None] for an empty or
    non-numeric line, which stands for the default; a line that fails
    [validate] is refused and the prompt asks again. *)
Fixpoint number_prompt (default : Js.number) (validate : Js.number -> bool)
         (lines : list (option Js.number)) : option Js.number :=
  match lines with
  | [] => None
  | l :: rest =>
      let v := match l with Some v => v | None => default end in
      if validate v then Some v else number_prompt default validate rest
  end.

End Inquirer.

(** What the operator does at each prompt of one pass through the menus. *)
Record Operator : Type := {
  pickMenu : nat;
  pickTarget : nat;
  pickMode : nat;
  pickFilesystem : nat;
  passesLines : list (option Js.number);
  confirmationLine : string
}.

(** How a pass through [startWipeSequence] ends. *)
Inductive outcome : Type :=
| BackToMain (delay : option Z)   (* [main()] or [setTimeout(main, ms)] *)
| SpawnEngine (exe : string) (args : list string)
| ExitProcess (code : Z)          (* [process.exit(code)] *)
| ScanShown (names : list string) (* the drive names were listed on screen *)
| Idle                            (* the function returned, nothing is scheduled *)
| PromptOpen                      (* a prompt never got an acceptable answer *)
| Thrown.                         (* an exception left the async function *)

(** Sequencing with early return. *)
Inductive flow (A : Type) : Type :=
| Next (a : A)
| Return (o : outcome).
Arguments Next {A} a.
Arguments Return {A} o.

Definition andThen {A} (m : flow A) (k : A -> outcome) : outcome :=
  match m with
  | Next a => k a
  | Return o => o
  end.

Notation "'let*' x ':=' m 'in' k" := (andThen m (fun x => k))
  (at level 10, x name, m at level 100, k at level 200).

(** [await inquirer.prompt(...)] followed by the test for Cancel, which
    ends the pass with [onCancel]. *)
Definition answered {A} (isCancel : A -> bool) (onCancel : outcome)
           (a : option A) : flow A :=
  match a with
  | None => Return PromptOpen
  | Some v => if isCancel v then Return onCancel else Next v
  end.

Definition cancelValue (v : Js.value) : bool := Js.is_str v "cancel".
Definition cancelText (s : string) : bool := String.eqb s "cancel".

(** The two output streams of the engine process. *)
Inductive stream : Type := Stdout | Stderr.

(** The exception monad of a [try] block: [None] is a thrown exception. *)
Definition bind {A B} (m : option A) (k : A -> option B) : option B :=
  match m with
  | Some a => k a
  | None => None
  end.

Notation "'try*' x ':=' m 'in' k" := (bind m (fun x => k))
  (at level 10, x name, m at level 100, k at level 200).

Fixpoint mapM {A B} (f : A -> option B) (l : list A) : option (list B) :=
  match l with
  | [] => Some []
  | a :: rest =>
      try* b := f a in
      try* bs := mapM f rest in
      Some (b :: bs)
  end.

(* ------------------------------------------------------------------ *)
(** * index.js, the current revision *)

Module Current.

Import Inquirer.

Section Wrapper.

Variable n : Node.

(** ** getDrives *)

Definition placeholderPath : string :=
  if isWindows n then String "C" (String ":" (String JsString.backslash ""))
  else "/dev/null".
Definition placeholderFs : string := if isWindows n then "NTFS" else "ext4".

(** The command of the primary enumeration. *)
Definition cmd : string :=
  dquote ++ pythonExecutable n ++ dquote ++ " " ++ dquote ++ main_py n ++ dquote
  ++ " -p " ++ placeholderPath ++ " -m secure -f " ++ placeholderFs
  ++ " --list-drives --dry-run".

Definition fallbackCmd : string :=
  if isWindows n then "wmic logicaldisk get caption,volumename,size"
  else "lsblk -o NAME,FSTYPE,SIZE,MOUNTPOINT -b -p -n".

(** The predicate given to [find]:
    [try { const j = JSON.parse(l); return j && j.type === 'drives'; }
     catch { return false; }] *)
Definition isDrivesLine (l : string) : bool :=
  match JSON_parse n l with
  | None => false
  | Some j =>
      if Js.truthy j then
        match Js.get j "type" with
        | Some t => Js.is_str t "drives"
        | None => false
        end
      else false
  end.

(** The body of [items.map(d => ...)]. The badge is
    [[a, b].filter(Boolean).join(' ')]; the styled text of a non-empty
    string is not empty. *)
Definition toChoice (d : Js.value) : option (choice Js.value) :=
  try* is_system := Js.get d "is_system" in
  let isSys := Js.truthy is_system in
  try* is_removable := Js.get d "is_removable" in
  let removable := Js.truthy is_removable in
  try* total := Js.get d "total" in
  try* totalGB := (if Js.truthy total
                    then option_map (fun b => gigabytes n b ++ "GB") (to_number n total)
                    else Some "N/A") in
  try* fstype := Js.get d "fstype" in
  let fs := Js.or_else fstype (Js.Str "Unknown") in
  try* dlabel := Js.get d "label" in
  try* label := (if Js.truthy dlabel
                  then option_map (fun t => " " ++ chalk n "white" t) (text n dlabel)
                  else Some "") in
  let badge :=
    (if removable then chalk n "green" "[REMOVABLE]" else chalk n "gray" "[INTERNAL]")
    ++ (if isSys then " " ++ chalk n "red" "[SYSTEM]" else "") in
  try* dpath := Js.get d (if isWindows n then "path" else "device") in
  try* shown := text n dpath in
  try* fsText := text n fs in
  let name := chalk n "cyan" shown ++ label ++ " "
              ++ chalk n "white" ("(" ++ fsText ++ ", " ++ totalGB ++ ")")
              ++ " " ++ badge in
  Some {| name := name;
          value := dpath;
          disabled := if isSys then Some "System volume (blocked)" else None |}.

(** The [try] block of the callback of the primary enumeration. *)
Definition primary (r : exec_result) : option (list (choice Js.value)) :=
  match r with
  | ExecError => None                                 (* [if (err) throw err] *)
  | ExecOutput stdout =>
      let lines := JsString.split JsString.newline (JsString.trim stdout) in
      match find isDrivesLine (rev lines) with
      | None => None                                  (* 'No drives JSON' *)
      | Some lastJsonLine =>
          if String.eqb lastJsonLine "" then None else
          try* payload := JSON_parse n lastJsonLine in
          try* found := Js.get payload "items" in
          match Js.or_else found (Js.Arr []) with
          | Js.Arr items =>
              try* choices := mapM toChoice items in
              match choices with
              | [] => None                            (* 'Empty drive list' *)
              | _ => Some choices
              end
          | _ => None                                 (* [items.map] is no function *)
          end
      end
  end.

(** One line of the [wmic] listing. *)
Definition windowsLine (line : string) : list (choice Js.value) :=
  let parts := JsString.split_ws2 (JsString.trim line) in
  if (List.length parts <? 2)%nat then [] else
  let caption := nth 0 parts "" in
  let size := Js.parseInt (nth_error parts 1) in
  let volumeName := if (2 <? List.length parts)%nat then nth 2 parts "" else "[No Name]" in
  if negb (String.eqb caption "") && negb (Js.isNaN size) then
    [ {| name := chalk n "cyan" caption ++ " " ++ chalk n "white" volumeName
                 ++ " (" ++ gigabytes n size ++ "GB)";
         value := Js.Str (caption ++ String JsString.backslash "");
         disabled := None |} ]
  else [].

(** One line of the [lsblk] listing. *)
Definition posixLine (line : string) : list (choice Js.value) :=
  let parts := JsString.split_ws (JsString.trim line) in
  let devName := nth 0 parts "" in
  let size := Js.parseInt (nth_error parts 2) in
  let mountPoint :=
    match nth_error parts 3 with
    | Some m => if String.eqb m "" then "[Not Mounted]" else m
    | None => "[Not Mounted]"
    end in
  if negb (String.eqb devName "") && negb (Js.isNaN size) then
    [ {| name := chalk n "cyan" devName ++ " @ " ++ chalk n "white" mountPoint
                 ++ " (" ++ gigabytes n size ++ "GB)";
         value := Js.Str devName;
         disabled := None |} ]
  else [].

(** The callback of the fallback enumeration. *)
Definition fallback (r : exec_result) : settled (list (choice Js.value)) :=
  match r with
  | ExecError => Resolved []
  | ExecOutput stdout2 =>
      let lines :=
        filter (fun l => negb (String.eqb l ""))
               (JsString.split JsString.newline (JsString.trim stdout2)) in
      Resolved (if isWindows n then flat_map windowsLine (tl lines)
                else flat_map posixLine lines)
  end.

(** [getDrives()]: the commands it runs, in order, and how its promise
    is settled. *)
Definition getDrives : list string * settled (list (choice Js.value)) :=
  match primary (exec n cmd) with
  | Some choices => ([cmd], Resolved choices)
  | None => ([cmd; fallbackCmd], fallback (exec n fallbackCmd))
  end.

(** ** startWipeProcess *)

(** The label [addLog] puts before a message:
    [{ error: ..., status: ... }[type] || 'LOG']. A key that names a
    member of [Object.prototype] finds that member. *)
Inductive prefix : Type :=
| ErrorPrefix
| InfoPrefix
| LogPrefix
| Inherited (key : string).

Definition objectPrototypeKeys : list string :=
  [ "constructor"; "hasOwnProperty"; "isPrototypeOf"; "propertyIsEnumerable";
    "toLocaleString"; "toString"; "valueOf"; "__proto__";
    "__defineGetter__"; "__defineSetter__"; "__lookupGetter__"; "__lookupSetter__" ].

Definition prefixOf (key : string) : prefix :=
  if String.eqb key "error" then ErrorPrefix
  else if String.eqb key "status" then InfoPrefix
  else if existsb (String.eqb key) objectPrototypeKeys then Inherited key
  else LogPrefix.

(** One line of the log box; the rendered line starts with the time of
    day, which is left out. *)
Record logEntry : Type := { label : prefix; message : string }.

(** The variables [currentPhase] and [logMessages] of
    [startWipeProcess]. *)
Record ui : Type := { currentPhase : Js.value; logMessages : list logEntry }.

Definition initial : ui :=
  {| currentPhase := Js.Str "Initializing..."; logMessages := [] |}.

Definition setPhase (phase : Js.value) (st : ui) : ui :=
  {| currentPhase := phase; logMessages := logMessages st |}.

Definition pushLog (e : logEntry) (st : ui) : ui :=
  {| currentPhase := currentPhase st; logMessages := logMessages st ++ [e] |}.

(** The entry [addLog(message, type = 'status')] pushes; [None]: a
    conversion to text threw before anything was pushed. *)
Definition entryOf (message type : Js.value) : option logEntry :=
  let type := match type with Js.Undefined => Js.Str "status" | t => t end in
  try* key := text n type in
  try* shown := text n message in
  Some {| label := prefixOf key; message := shown |}.

Definition addLog (message type : Js.value) (st : ui) : option ui :=
  try* e := entryOf message type in
  Some (pushLog e st).

(** The [try] block of [processOutput] for one line. *)
Definition tryLine (line : string) (st : ui) : option ui :=
  try* jsonData := JSON_parse n line in
  try* type := Js.get jsonData "type" in
  if Js.is_str type "progress" then
    try* phase := Js.get jsonData "phase" in
    Some (setPhase phase st)
  else
    try* message := Js.get jsonData "message" in
    addLog message type st.

(** The body of the [forEach] of [processOutput]; [None]: an exception
    left the [catch] block. *)
Definition processLine (line : string) (st : ui) : option ui :=
  match tryLine line st with
  | Some st' => Some st'
  | None => addLog (Js.Str line) (Js.Str "raw") st
  end.

Fixpoint forEach (lines : list string) (st : ui) : option ui :=
  match lines with
  | [] => Some st
  | line :: rest =>
      try* st' := processLine line st in
      forEach rest st'
  end.

(** [processOutput(data)], the listener of both [stdout] and [stderr]. *)
Definition processOutput (data : string) (st : ui) : option ui :=
  forEach (JsString.split JsString.newline (JsString.trim data)) st.

(** [pythonProcess.stdout.on('data', processOutput)] and
    [pythonProcess.stderr.on('data', processOutput)]: the listener of a
    stream of the engine. *)
Definition onData (from : stream) (data : string) (st : ui) : option ui :=
  match from with
  | Stdout => processOutput data st
  | Stderr => processOutput data st
  end.

(** What the [close] listener announces. *)
Inductive report : Type :=
| Success
| CancelledByUser
| Failure (code : option Z).

(** The [close] listener; [code] is [None] when the engine was ended by
    a signal and the exit code is [null]. *)
Definition onClose (code : option Z) : report :=
  if exited code 0 then Success
  else if exited code 130 then CancelledByUser
  else Failure code.

(** [startWipeProcess(args)]: the engine is spawned with
    [[main.py, ...args]]. *)
Definition startWipeProcess (args : list string) : outcome :=
  SpawnEngine (pythonExecutable n) (main_py n :: args).

(** ** startWipeSequence *)

Definition modeChoices : list (entry string) :=
  [ plain (chalk n "green" "Secure Wipe"
           ++ " - 4-step: full format, quick reformat, fill free space, final quick format.")
          "secure";
    plain (chalk n "red" "Paranoid Wipe"
           ++ " - Overwrites the entire partition multiple times, then formats.")
          "paranoid";
    plain (chalk n "yellow" "Legacy Fast Wipe"
           ++ " - Destroy metadata (first 512MB), then quick format.")
          "legacy-fast";
    Separator;
    plain "Cancel" "cancel" ].

Definition fsChoices : list (entry string) :=
  if isWindows n
  then [ plain "NTFS" "NTFS"; plain "exFAT" "exFAT" ]
  else [ plain "ext4" "ext4"; plain "exFAT" "exfat"; plain "VFAT (FAT32)" "vfat" ].

(** [[...drives, new inquirer.Separator(), { name: 'Cancel', value: 'cancel' }]] *)
Definition targetChoices (drives : list (choice Js.value)) : list (entry Js.value) :=
  map Choice drives ++ [Separator; plain "Cancel" (Js.Str "cancel")].

(** [[...fsChoices, new inquirer.Separator(), { name: 'Cancel', value: 'cancel' }]] *)
Definition filesystemChoices : list (entry string) :=
  fsChoices ++ [Separator; plain "Cancel" "cancel"].

(** [v => Number.isInteger(v) && v >= 1 && v <= 10] *)
Definition validate (v : Js.number) : bool :=
  Js.isInteger v && Js.between 1 10 v.

(** The test of the confirmation typed by the operator. *)
Definition confirmed (confirmation targetPath : string) : bool :=
  let normalizedConfirm := JsString.trim (path_normalize n confirmation) in
  let normalizedTarget := JsString.trim (path_normalize n targetPath) in
  String.eqb (JsString.toLowerCase normalizedConfirm)
             (JsString.toLowerCase normalizedTarget).

(** [process.platform !== 'win32' && typeof process.getuid === 'function'
     && process.getuid() !== 0] *)
Definition lacksRoot : bool :=
  negb (isWindows n) && getuid_defined n && negb (uid n =? 0).

Definition startWipeSequence (op : Operator) : outcome :=
  match snd getDrives with
  | Raised => Thrown
  | Resolved drives =>
      if (List.length drives =? 0)%nat then BackToMain (Some 3000) else
      let* targetPath :=
        answered cancelValue (BackToMain None)
          (list_prompt (targetChoices drives) (pickTarget op)) in
      let* wipeMode :=
        answered cancelText (BackToMain None)
          (list_prompt modeChoices (pickMode op)) in
      let* targetFs :=
        answered cancelText (BackToMain None)
          (list_prompt filesystemChoices (pickFilesystem op)) in
      let filesystem := targetFs in
      let* passesArg :=
        (if String.eqb wipeMode "paranoid" then
           match number_prompt (Js.ofZ 3) validate (passesLines op) with
           | Some passes => Next ["--passes"; numberString n passes]
           | None => Return PromptOpen
           end
         else Next []) in
      let confirmation := confirmationLine op in
      match targetPath with
      | Js.Str targetPath =>
          if confirmed confirmation targetPath then
            if lacksRoot then BackToMain (Some 3000)
            else startWipeProcess
                   (["--path"; targetPath; "--mode"; wipeMode;
                     "--filesystem"; filesystem] ++ passesArg)
          else BackToMain (Some 2000)
      | _ => Thrown                 (* [path.normalize] takes strings only *)
      end
  end.

(** ** main *)

Definition mainChoices : list (entry string) :=
  [ plain "Wipe a Drive / Partition" "wipe"; Separator; plain "Exit" "exit" ].

Definition main (op : Operator) : outcome :=
  match list_prompt mainChoices (pickMenu op) with
  | None => PromptOpen
  | Some choice =>
      if String.eqb choice "wipe" then startWipeSequence op
      else ExitProcess 0
  end.

End Wrapper.

End Current.

(* ------------------------------------------------------------------ *)
(** * The older revision of the wrapper *)

(** The signals [subprocess.kill] can send. *)
Inductive signal : Type := SIGTERM | SIGINT | SIGKILL.

(** What [subprocess.kill(signal)] does to the child process, as the
    documentation of Node has it: on Windows, where there are no POSIX
    signals, the child is always ended forcefully and abruptly, whatever
    the signal named; on the other platforms the signal is delivered, and
    SIGKILL, which cannot be handled, ends the child. *)
Inductive delivery : Type :=
| Delivered (s : signal)
| EndedAtOnce.

Definition kill (n : Node) (s : signal) : delivery :=
  if isWindows n then EndedAtOnce
  else match s with
       | SIGKILL => EndedAtOnce
       | _ => Delivered s
       end.

Module Legacy.

Import Inquirer.

Section Wrapper.

Variable n : Node.

(** ** getDrives *)

Definition command : string :=
  if isWindows n then "wmic logicaldisk get caption,volumename,size,freespace"
  else "df -h".

(** [`${parts[i]}`]: a missing part prints as "undefined". *)
Definition part (parts : list string) (i : nat) : string :=
  nth i parts "undefined".

(** One line of the [wmic] listing; dividing by 1024 three times is
    dividing by 1073741824. *)
Definition windowsLine (line : string) : list (choice string) :=
  let parts := JsString.split_ws (JsString.trim line) in
  if (List.length parts <? 2)%nat then [] else
  let caption := nth 0 parts "" in
  let freeSpace := Js.parseInt (nth_error parts 1) in
  let size := Js.parseInt (nth_error parts 2) in
  let joined := String.concat " " (skipn 3 parts) in
  let volumeName := if String.eqb joined "" then "[No Name]" else joined in
  if negb (String.eqb caption "") && negb (Js.isNaN size) then
    [ {| name := caption ++ " " ++ volumeName ++ " (" ++ gigabytes n freeSpace
                 ++ "GB free / " ++ gigabytes n size ++ "GB total)";
         value := caption ++ String JsString.backslash "";
         disabled := None |} ]
  else [].

Definition posixLine (line : string) : list (choice string) :=
  let parts := JsString.split_ws (JsString.trim line) in
  let mountPoint := nth (List.length parts - 1) parts "" in
  if negb (String.eqb mountPoint "") && JsString.startsWith "/" mountPoint then
    [ {| name := mountPoint ++ " (" ++ part parts 3 ++ " free / "
                 ++ part parts 1 ++ " total)";
         value := mountPoint;
         disabled := None |} ]
  else [].

Definition getDrives : list string * settled (list (choice string)) :=
  ([command],
   match exec n command with
   | ExecError => Resolved []
   | ExecOutput stdout =>
       let lines := tl (JsString.split JsString.newline (JsString.trim stdout)) in
       Resolved (if isWindows n then flat_map windowsLine lines
                 else flat_map posixLine lines)
   end).

(** ** startWipeProcess *)

(** What the listeners write to the terminal. *)
Inductive display : Type :=
| ShowProgress (filled empty : Z) (phase percentage speed eta : string)
| ShowEngine (message : string)          (* [console.log], tag ENGINE *)
| ShowEngineError (message : string)     (* [console.error], tag ENGINE_ERROR *)
| ShowCancelling.                        (* the two notices printed on Ctrl+C *)

(** The lengths of the two parts of the progress bar,
    [Math.floor(percentage / 2)] and [50 - Math.floor(percentage / 2)],
    as counts of [repeat]: NaN counts as 0, a negative or infinite
    count is a RangeError. *)
Definition barLengths (percentage : Js.number) : option (Z * Z) :=
  match percentage with
  | Js.NaN => Some (0, 0)
  | Js.Inf _ => None
  | Js.Fin q =>
      let k := Qfloor (q / 2) in
      if (k <? 0) || (50 <? k) then None else Some (k, 50 - k)
  end.

(** The [try] block of the [stdout] listener. *)
Definition tryMessage (message : string) : option (list display) :=
  try* jsonData := JSON_parse n message in
  try* type := Js.get jsonData "type" in
  if Js.is_str type "progress" then
    try* percentage := Js.get jsonData "percentage" in
    try* p := to_number n percentage in
    try* bar := barLengths p in
    try* phase := bind (Js.get jsonData "phase") (text n) in
    try* shown := text n percentage in
    try* speed := bind (Js.get jsonData "speed") (text n) in
    try* eta := bind (Js.get jsonData "eta") (text n) in
    Some [ShowProgress (fst bar) (snd bar) phase shown speed eta]
  else if Js.is_str type "status" then
    try* msg := bind (Js.get jsonData "message") (text n) in
    Some [ShowEngine msg]
  else if Js.is_str type "error" then
    try* msg := bind (Js.get jsonData "message") (text n) in
    Some [ShowEngineError msg]
  else Some [].

(** The [stdout] listener: the chunk is one message. *)
Definition onStdout (data : string) : list display :=
  let message := JsString.trim data in
  if String.eqb message "" then [] else
  match tryMessage message with
  | Some shown => shown
  | None => [ShowEngine message]
  end.

(** The [stderr] listener. *)
Definition onStderr (data : string) : list display :=
  let message := JsString.trim data in
  if String.eqb message "" then [] else [ShowEngineError message].

(** The key code of Ctrl+C, U+0003. *)
Definition ctrlC : string := String "003"%char EmptyString.

(** The [data] listener of [process.stdin] installed by
    [startWipeProcess]: what it prints and the signals it sends to the
    engine; [pythonProcess] tells whether the global of that name holds
    a process. *)
Definition onStdinData (pythonProcess : bool) (key : string)
  : list display * list signal :=
  if String.eqb key ctrlC then
    if pythonProcess then ([ShowCancelling], [SIGTERM]) else ([], [])
  else ([], []).

Inductive report : Type :=
| Success
| CancelledByUser
| Failure (code : option Z).

Definition onClose (code : option Z) : report :=
  if exited code 0 then Success
  else if exited code 130 then CancelledByUser
  else Failure code.

Definition startWipeProcess (targetPath mode : string) : outcome :=
  SpawnEngine (pythonExecutable n) [main_py n; "--path"; targetPath; "--mode"; mode].

(** ** startWipeSequence *)

Definition modeChoices : list (entry string) :=
  [ plain (chalk n "yellow" "Quick Wipe (Fast, Insecure)"
           ++ " - Deletes files without overwriting. Data IS recoverable.")
          "quick";
    plain (chalk n "green" "Secure Wipe (Slow, Recommended)"
           ++ " - Overwrites files once, then fills free space.")
          "secure";
    plain (chalk n "red" "Paranoid Wipe (Very Slow)"
           ++ " - Overwrites files 3 times, then fills free space.")
          "paranoid";
    Separator;
    plain "Cancel (Back to Main Menu)" "cancel" ].

(** [[...drives, new inquirer.Separator(), { name: 'Cancel', value: 'cancel' }]] *)
Definition targetChoices (drives : list (choice string)) : list (entry string) :=
  map Choice drives ++ [Separator; plain "Cancel" "cancel"].

Definition confirmed (confirmation resolvedPath : string) : bool :=
  let normalizedConfirmation :=
    JsString.dropTrailingBackslash (path_normalize n confirmation) in
  let normalizedTargetPath :=
    JsString.dropTrailingBackslash (path_normalize n resolvedPath) in
  String.eqb (JsString.toLowerCase normalizedConfirmation)
             (JsString.toLowerCase normalizedTargetPath).

Definition startWipeSequence (op : Operator) : outcome :=
  match snd getDrives with
  | Raised => Thrown
  | Resolved drives =>
      if (List.length drives =? 0)%nat then BackToMain (Some 2000) else
      let* targetPath :=
        answered cancelText (BackToMain (Some 1500))
          (list_prompt (targetChoices drives) (pickTarget op)) in
      let resolvedPath := path_resolve n targetPath in
      let* wipeMode :=
        answered cancelText (BackToMain (Some 1500))
          (list_prompt modeChoices (pickMode op)) in
      let confirmation := confirmationLine op in
      if confirmed confirmation resolvedPath
      then startWipeProcess resolvedPath wipeMode
      else BackToMain (Some 2000)
  end.

(** ** scanDrivesForDisplay and main *)

Definition scanDrivesForDisplay : outcome :=
  match snd getDrives with
  | Raised => Thrown
  | Resolved drives => ScanShown (map name drives)
  end.

Definition mainChoices : list (entry string) :=
  [ plain "Scan for Connected Drives" "scan"; plain "Wipe a Drive" "wipe";
    Separator; plain "Exit" "exit" ].

Definition main (op : Operator) : outcome :=
  match list_prompt mainChoices (pickMenu op) with
  | None => PromptOpen
  | Some choice =>
      if String.eqb choice "scan" then scanDrivesForDisplay
      else if String.eqb choice "wipe" then startWipeSequence op
      else if String.eqb choice "exit" then ExitProcess 0
      else Idle
  end.

End Wrapper.

End Legacy.

(* ------------------------------------------------------------------ *)
(** * The engine *)

Module Engine.

(** Modelled from the spec: the erasure engine ([main.py]), which the
    wrapper starts and which is not among the sources. Sections 3, 4.2,
    4.4, 4.5, 4.6 and 6 of the specification give its data model, its
    validator, its scheduler and its cancellation rule. The four modes of
    section 3. *)
Inductive Mode : Type := Quick | Secure | Paranoid | LegacyFast.

(** Modelled from the spec: the values of [mode] on the invocation surface,
    section 6. *)
Definition parseMode (s : string) : option Mode :=
  if String.eqb s "quick" then Some Quick
  else if String.eqb s "secure" then Some Secure
  else if String.eqb s "paranoid" then Some Paranoid
  else if String.eqb s "legacy-fast" then Some LegacyFast
  else None.

(** Modelled from the spec: the DriveRecord of section 3. *)
Record DriveRecord : Type := {
  devicePathOrMount : string;
  label : string;
  filesystemType : string;
  totalBytes : Z;
  isSystemVolume : bool;
  isRemovable : bool
}.

(** Modelled from the spec: the WipeRequest of section 3 as it comes in
    over the invocation surface of section 6. *)
Record WipeRequest : Type := {
  targetPath : string;
  mode : string;
  targetFilesystem : string;
  passes : Z;
  listDrives : bool;
  dryRun : bool
}.

(** Modelled from the spec: the reasons of a ValidationError, sections 4.2
    and 7. *)
Inductive ValidationError : Type :=
| TargetNotFound
| SystemVolumeRefused
| PassesOutOfRange
| UnknownMode.

(** Modelled from the spec: the text of the error event; section 8 gives
    the one for a system volume. *)
Definition reason (e : ValidationError) : string :=
  match e with
  | TargetNotFound => "refused: no such target"
  | SystemVolumeRefused => "refused: system volume"
  | PassesOutOfRange => "refused: passes out of range"
  | UnknownMode => "refused: unknown mode"
  end.

(** Modelled from the spec: section 4.2, the request's target resolves to
    exactly one record. *)
Definition resolve (req : WipeRequest) (records : list DriveRecord)
  : option DriveRecord :=
  match filter (fun r => String.eqb (devicePathOrMount r) (targetPath req)) records with
  | [r] => Some r
  | _ => None
  end.

(** Modelled from the spec: the Safety Guard of section 4.2, which
    enforces, in this order: the target exists, it is not a system
    volume, [passes] is within 1..10, the mode is recognized. *)
Definition validate (req : WipeRequest) (records : list DriveRecord)
  : ValidationError + (DriveRecord * Mode) :=
  match resolve req records with
  | None => inl TargetNotFound
  | Some r =>
      if isSystemVolume r then inl SystemVolumeRefused
      else if negb ((1 <=? passes req) && (passes req <=? 10)) then inl PassesOutOfRange
      else match parseMode (mode req) with
           | None => inl UnknownMode
           | Some m => inr (r, m)
           end
  end.

(** Modelled from the spec: the states of a WipeSession, section 4.4. *)
Inductive State : Type :=
| Idle
| Validating
| Wiping (i N : nat)
| Formatting
| Completed
| Cancelled
| Failed.

(** Modelled from the spec: the events of section 4.6. *)
Inductive Event : Type :=
| Progress (phase : string) (percentage : Z)
| Status (message : string)
| Error (message : string)
| Drives (items : list DriveRecord).

(** Modelled from the spec: one operation of the scheduler, which a
    cancellation never interrupts (sections 4.4 and 4.5): the release of a
    Quick wipe, the write of one chunk of a pass, a format. *)
Inductive Step : Type :=
| Release
| WriteChunk (pass N : nat) (bytes extent : Z)
| Format.

(** Modelled from the spec: what section 4.4 leaves to the storage: the
    chunk size, the metadata window of LegacyFast, the free space a Secure
    wipe fills after its first format, and which operations meet an I/O or
    format error. *)
Record Device : Type := {
  chunkSize : Z;
  metadataWindow : Z;
  freeSpace : Z;
  fails : nat -> bool
}.

(** Modelled from the spec: section 4.4, a pass proceeds in chunks of a
    fixed size over its extent. *)
Definition chunksOf (d : Device) (pass N : nat) (extent : Z) : list Step :=
  repeat (WriteChunk pass N (chunkSize d) extent) (Z.to_nat (extent / chunkSize d))
  ++ (if extent mod chunkSize d =? 0 then []
      else [WriteChunk pass N (extent mod chunkSize d) extent]).

(** Modelled from the spec: section 3, the passes of a Paranoid wipe come
    strictly in order. *)
Fixpoint rounds (d : Device) (i : nat) (left N : nat) (extent : Z) : list Step :=
  match left with
  | O => []
  | S left' => chunksOf d i N extent ++ rounds d (S i) left' N extent
  end.

(** Modelled from the spec: the pass sequence of each mode, section 4.4. *)
Definition plan (d : Device) (m : Mode) (capacity : Z) (passes : Z) : list Step :=
  match m with
  | Quick => [Release; Format]
  | Secure =>
      chunksOf d 1 2 capacity ++ [Format] ++ chunksOf d 2 2 (freeSpace d) ++ [Format]
  | Paranoid =>
      rounds d 1 (Z.to_nat passes) (Z.to_nat passes) capacity ++ [Format]
  | LegacyFast =>
      chunksOf d 1 1 (Z.min capacity (metadataWindow d)) ++ [Format]
  end.

(** Modelled from the spec: the WipeSession of section 3, with what it has
    emitted and written so far. *)
Record WipeSession : Type := {
  state : State;
  currentPass : nat;
  bytesWrittenInPass : Z;
  totalBytesForTarget : Z;
  cancellationRequested : bool;
  events : list Event;
  bytesWritten : Z;
  operations : nat
}.

(** Modelled from the spec: how a run of the engine ends, sections 4.5 and
    6. [interrupted] tells that an operation was cut short, which the
    scheduler of section 4.5 never does. *)
Record Report : Type := {
  final : State;
  exitCode : option Z;
  emitted : list Event;
  written : Z;
  completedOperations : nat;
  passAtEnd : nat;
  interrupted : bool
}.

(** Modelled from the spec: the exit codes of section 6: 0 when completed,
    130 when cancelled, and a code that is neither, here 1, when failed. *)
Definition exitOf (st : State) : option Z :=
  match st with
  | Completed => Some 0
  | Cancelled => Some 130
  | _ => Some 1
  end.

(** Modelled from the spec: the terminal event and the exit of a session,
    sections 4.4 and 4.6. *)
Definition close (s : WipeSession) (st : State) (ev : list Event) : Report :=
  {| final := st; exitCode := exitOf st; emitted := events s ++ ev;
     written := bytesWritten s; completedOperations := operations s;
     passAtEnd := currentPass s; interrupted := false |}.

(** Modelled from the spec: the session after one operation has completed,
    section 4.4: [bytesWrittenInPass] starts from zero in a new pass, and
    a progress event follows every chunk. *)
Definition perform (st : Step) (s : WipeSession) : WipeSession :=
  match st with
  | Release =>
      {| state := Formatting; currentPass := currentPass s;
         bytesWrittenInPass := bytesWrittenInPass s;
         totalBytesForTarget := totalBytesForTarget s;
         cancellationRequested := cancellationRequested s;
         events := events s ++ [Status "releasing allocation"];
         bytesWritten := bytesWritten s; operations := S (operations s) |}
  | WriteChunk pass N bytes extent =>
      let inPass := (if (pass =? currentPass s)%nat
                     then bytesWrittenInPass s else 0) + bytes in
      {| state := Wiping pass N; currentPass := pass;
         bytesWrittenInPass := inPass;
         totalBytesForTarget := extent;
         cancellationRequested := cancellationRequested s;
         events := events s ++ [Progress "overwrite" (inPass * 100 / extent)];
         bytesWritten := bytesWritten s + bytes; operations := S (operations s) |}
  | Format =>
      {| state := Formatting; currentPass := currentPass s;
         bytesWrittenInPass := bytesWrittenInPass s;
         totalBytesForTarget := totalBytesForTarget s;
         cancellationRequested := cancellationRequested s;
         events := events s ++ [Status "formatting"];
         bytesWritten := bytesWritten s; operations := S (operations s) |}
  end.

(** Modelled from the spec: [requestCancellation] of section 4.5 sets the
    flag of the session. *)
Definition request (s : WipeSession) (asked : bool) : WipeSession :=
  {| state := state s; currentPass := currentPass s;
     bytesWrittenInPass := bytesWrittenInPass s;
     totalBytesForTarget := totalBytesForTarget s;
     cancellationRequested := cancellationRequested s || asked;
     events := events s; bytesWritten := bytesWritten s;
     operations := operations s |}.

(** Modelled from the spec: the scheduler of sections 4.4 and 4.5.
    [requests k] tells whether [requestCancellation] is called, from
    outside the loop, while operation [k] is under way. The call sets the
    flag, the operation completes, and the flag is read only between
    operations. *)
Fixpoint schedule (d : Device) (requests : nat -> bool)
         (steps : list Step) (k : nat) (s : WipeSession) : Report :=
  if cancellationRequested s then close s Cancelled [Status "cancelled"] else
  match steps with
  | [] => close s Completed [Status "completed"]
  | st :: rest =>
      if fails d k then close s Failed [Error "I/O error"]
      else schedule d requests rest (S k) (request (perform st s) (requests k))
  end.

(** Modelled from the spec: the session right after validation, section
    4.4. *)
Definition start (capacity : Z) : WipeSession :=
  {| state := Validating; currentPass := 0; bytesWrittenInPass := 0;
     totalBytesForTarget := capacity; cancellationRequested := false;
     events := []; bytesWritten := 0; operations := 0 |}.

(** Modelled from the spec: the outcome of a refused request, sections 4.2
    and 7: one error event, no operation, a failure exit. *)
Definition refuse (e : ValidationError) : Report :=
  {| final := Failed; exitCode := exitOf Failed; emitted := [Error (reason e)];
     written := 0; completedOperations := 0; passAtEnd := 0; interrupted := false |}.

(** Modelled from the spec: one run of the engine, sections 4.4 and 6.
    In listing mode only the inventory is emitted; a request is
    validated before a session exists; a dry run validates and reports
    but performs no operation. *)
Definition run (d : Device) (records : list DriveRecord)
           (requests : nat -> bool) (req : WipeRequest) : Report :=
  if listDrives req then
    {| final := Completed; exitCode := Some 0; emitted := [Drives records];
       written := 0; completedOperations := 0; passAtEnd := 0; interrupted := false |}
  else
    match validate req records with
    | inl e => refuse e
    | inr (r, m) =>
        if dryRun req then close (start (totalBytes r)) Completed [Status "dry run"]
        else schedule d requests (plan d m (totalBytes r) (passes req)) 0
                      (start (totalBytes r))
    end.

End Engine.

(* ------------------------------------------------------------------ *)
(** * The vocabulary of the properties *)

(** What one line of output does to the state of [startWipeProcess]: it
    sets the phase or pushes one entry. *)
Inductive effect : Type :=
| SetsPhase (phase : Js.value)
| Pushes (e : Current.logEntry).

Definition apply (f : effect) (st : Current.ui) : Current.ui :=
  match f with
  | SetsPhase phase => Current.setPhase phase st
  | Pushes e => Current.pushLog e st
  end.

(** The number a line submitted to the prompt for the passes stands for:
    the number typed, or the default 3 for a line that is empty or is no
    number. *)
Definition passesTyped (line : option Js.number) : Js.number :=
  match line with
  | Some v => v
  | None => Js.ofZ 3
  end.

(** The [--passes] arguments that go with a mode in [index.js]: asked for
    and present for 'paranoid' only. *)
Definition passesFor (n : Node) (op : Operator) (mode : string)
           (passesArg : list string) : Prop :=
  (mode = "paranoid"
   /\ exists passes,
       Inquirer.number_prompt (Js.ofZ 3) Current.validate (passesLines op) = Some passes
       /\ passesArg = ["--passes"; numberString n passes])
  \/ (mode <> "paranoid" /\ passesArg = []).

(** In [index.js] the operator has picked a target, a mode and a
    filesystem, none of them Cancel, and has given the passes if the mode
    asks for them: the sequence stands at the final confirmation. *)
Definition atConfirmation (n : Node) (op : Operator) (target mode fs : string)
           (passesArg : list string) : Prop :=
  exists drives,
    snd (Current.getDrives n) = Resolved drives
    /\ drives <> []
    /\ Inquirer.list_prompt (Current.targetChoices drives) (pickTarget op)
       = Some (Js.Str target)
    /\ target <> "cancel"
    /\ Inquirer.list_prompt (Current.modeChoices n) (pickMode op) = Some mode
    /\ mode <> "cancel"
    /\ Inquirer.list_prompt (Current.filesystemChoices n) (pickFilesystem op) = Some fs
    /\ fs <> "cancel"
    /\ passesFor n op mode passesArg.

(** The [scriptArgs] of [index.js]. *)
Definition engineArgs (target mode fs : string) (passesArg : list string) : list string :=
  ["--path"; target; "--mode"; mode; "--filesystem"; fs] ++ passesArg.

(** In the older revision the operator has picked a target and a mode,
    neither of them Cancel. *)
Definition legacyAtConfirmation (n : Node) (op : Operator) (target mode : string) : Prop :=
  exists drives,
    snd (Legacy.getDrives n) = Resolved drives
    /\ drives <> []
    /\ Inquirer.list_prompt (Legacy.targetChoices drives) (pickTarget op) = Some target
    /\ target <> "cancel"
    /\ Inquirer.list_prompt (Legacy.modeChoices n) (pickMode op) = Some mode
    /\ mode <> "cancel".

(** The operator with other lines typed at the prompt for the passes. *)
Definition withPasses (op : Operator) (lines : list (option Js.number)) : Operator :=
  {| pickMenu := pickMenu op; pickTarget := pickTarget op; pickMode := pickMode op;
     pickFilesystem := pickFilesystem op; passesLines := lines;
     confirmationLine := confirmationLine op |}.

(** The operator with another entry picked in the list of modes. *)
Definition withMode (op : Operator) (pick : nat) : Operator :=
  {| pickMenu := pickMenu op; pickTarget := pickTarget op; pickMode := pick;
     pickFilesystem := pickFilesystem op; passesLines := passesLines op;
     confirmationLine := confirmationLine op |}.

(** The host with another user id. *)
Definition withUid (n : Node) (u : Z) : Node :=
  {| platform := platform n; uid := u; getuid_defined := getuid_defined n;
     exec := exec n; JSON_parse := JSON_parse n;
     path_normalize := path_normalize n; path_resolve := path_resolve n;
     main_py := main_py n; chalk := chalk n; to_number := to_number n;
     gigabytes := gigabytes n; object_text := object_text n;
     number_text := number_text n |}.

(* ------------------------------------------------------------------ *)
(** * Sample hosts *)

Module Sample.

(** A parser known by its graph on the lines of a sample. *)
Fixpoint parseBy (table : list (string * Js.value)) (s : string) : option Js.value :=
  match table with
  | [] => None
  | (k, v) :: rest => if String.eqb k s then Some v else parseBy rest s
  end.

Fixpoint execBy (table : list (string * string)) (c : string) : exec_result :=
  match table with
  | [] => ExecError
  | (k, v) :: rest => if String.eqb k c then ExecOutput v else execBy rest c
  end.

Definition host (platform : string) (uid : Z) (getuid_defined : bool)
           (outputs : list (string * string)) (json : list (string * Js.value)) : Node :=
  {| platform := platform;
     uid := uid;
     getuid_defined := getuid_defined;
     exec := execBy outputs;
     JSON_parse := parseBy json;
     path_normalize := fun p => p;
     path_resolve := fun p => p;
     main_py := "/opt/scrubber/main.py";
     chalk := fun _ t => t;
     to_number := fun v => match v with Js.Num x => Some x | _ => Some Js.NaN end;
     gigabytes := fun _ => "1.0";
     object_text := fun _ => Some "[object Object]";
     number_text := fun _ => "NaN" |}.

Definition lsblk : string :=
  "/dev/sda1 ext4 536870912000 /
/dev/sdb1 vfat 32000000000 /media/usb".

Definition lsblkCommand : string := "lsblk -o NAME,FSTYPE,SIZE,MOUNTPOINT -b -p -n".

(** A Linux host on which only [lsblk] works. *)
Definition linux (uid : Z) : Node :=
  host "linux" uid true [(lsblkCommand, lsblk)] [].

(** A Windows host. *)
Definition windows : Node :=
  host "win32" 0 false [] [].

(** An Android host: [process.getuid] is not defined there. *)
Definition android (uid : Z) : Node :=
  host "android" uid false [(lsblkCommand, lsblk)] [].

Definition listing : string :=
  dquote ++ "python3" ++ dquote ++ " " ++ dquote ++ "/opt/scrubber/main.py" ++ dquote
  ++ " -p /dev/null -m secure -f ext4 --list-drives --dry-run".

Definition drivesLine : string := "{drives}".

Definition drivesPayload : Js.value :=
  Js.Obj [ ("type", Js.Str "drives");
           ("items", Js.Arr [
              Js.Obj [ ("device", Js.Str "/dev/sda1"); ("is_system", Js.Boolean true);
                       ("fstype", Js.Str "ext4") ];
              Js.Obj [ ("device", Js.Str "/dev/sdb1"); ("is_system", Js.Boolean false);
                       ("is_removable", Js.Boolean true); ("label", Js.Str "USB") ] ]) ].

(** A Linux host whose engine lists a system volume and a USB stick. *)
Definition linuxEngine (uid : Z) : Node :=
  host "linux" uid true
       [(listing, "scanning
" ++ drivesLine ++ "
")]
       [(drivesLine, drivesPayload)].

Definition progressLine : string := "{progress 2/3}".
Definition statusLine : string := "{status}".

Definition progressRecord : Js.value :=
  Js.Obj [ ("type", Js.Str "progress"); ("phase", Js.Str "Pass 2/3");
           ("percentage", Js.Num (Js.ofZ 40)) ].

Definition statusRecord : Js.value :=
  Js.Obj [ ("type", Js.Str "status"); ("message", Js.Str "pass started") ].

(** A host whose engine reports progress and status. *)
Definition reporting : Node :=
  host "linux" 0 true [] [(progressLine, progressRecord); (statusLine, statusRecord)].

(** A device of 10 bytes written in chunks of 4, an inventory of two
    drives, and two requests. *)
Definition device : Engine.Device :=
  {| Engine.chunkSize := 4; Engine.metadataWindow := 8; Engine.freeSpace := 6;
     Engine.fails := fun _ => false |}.

Definition systemDisk : Engine.DriveRecord :=
  {| Engine.devicePathOrMount := "/dev/sda1"; Engine.label := "root";
     Engine.filesystemType := "ext4"; Engine.totalBytes := 10;
     Engine.isSystemVolume := true; Engine.isRemovable := false |}.

Definition stick : Engine.DriveRecord :=
  {| Engine.devicePathOrMount := "/dev/sdb1"; Engine.label := "USB";
     Engine.filesystemType := "vfat"; Engine.totalBytes := 10;
     Engine.isSystemVolume := false; Engine.isRemovable := true |}.

Definition inventory : list Engine.DriveRecord := [systemDisk; stick].

Definition requestFor (target mode : string) : Engine.WipeRequest :=
  {| Engine.targetPath := target; Engine.mode := mode;
     Engine.targetFilesystem := "ext4"; Engine.passes := 3;
     Engine.listDrives := false; Engine.dryRun := false |}.

Definition systemRequest : Engine.WipeRequest := requestFor "/dev/sda1" "paranoid".
Definition stickRequest : Engine.WipeRequest := requestFor "/dev/sdb1" "paranoid".

Definition operator (target mode fs : nat) (passes : list (option Js.number))
           (typed : string) : Operator :=
  {| pickMenu := 0; pickTarget := target; pickMode := mode; pickFilesystem := fs;
     passesLines := passes; confirmationLine := typed |}.

End Sample.

(* ------------------------------------------------------------------ *)
(** * Sample listings *)

Module Listing.

(** The two choices the fallback enumeration makes of [Sample.lsblk]. *)
Definition rootVolume : Inquirer.choice Js.value :=
  {| Inquirer.name := "/dev/sda1 @ / (1.0GB)";
     Inquirer.value := Js.Str "/dev/sda1"; Inquirer.disabled := None |}.

Definition usbStick : Inquirer.choice Js.value :=
  {| Inquirer.name := "/dev/sdb1 @ /media/usb (1.0GB)";
     Inquirer.value := Js.Str "/dev/sdb1"; Inquirer.disabled := None |}.

Definition lsblkDrives : list (Inquirer.choice Js.value) := [rootVolume; usbStick].

Definition staleLine : string := "{drives, first scan}".
Definition brokenLine : string := "{drives, one item null}".

Definition stalePayload : Js.value :=
  Js.Obj [ ("type", Js.Str "drives");
           ("items", Js.Arr [ Js.Obj [ ("device", Js.Str "/dev/sdz9") ] ]) ].

Definition brokenPayload : Js.value :=
  Js.Obj [ ("type", Js.Str "drives");
           ("items", Js.Arr [ Js.Obj [ ("device", Js.Str "/dev/sda1");
                                       ("is_system", Js.Boolean true) ];
                              Js.Null ]) ].

Definition json : list (string * Js.value) :=
  [ (staleLine, stalePayload); (Sample.drivesLine, Sample.drivesPayload);
    (brokenLine, brokenPayload) ].

(** What the engine prints when it scans twice, and when it scans once. *)
Definition twoScans : string :=
  staleLine ++ String JsString.newline
    (Sample.drivesLine ++ String JsString.newline "done").
Definition oneScan : string :=
  Sample.drivesLine ++ String JsString.newline "done".

(** A progress record that claims 150 percent, and a record of a type
    the older revision does not know. *)
Definition overfullLine : string := "{progress 150}".
Definition overfullRecord : Js.value :=
  Js.Obj [ ("type", Js.Str "progress"); ("phase", Js.Str "Pass 1/3");
           ("percentage", Js.Num (Js.ofZ 150)) ].
(** A progress record without percentage. *)
Definition bareLine : string := "{progress, no percentage}".
Definition bareRecord : Js.value :=
  Js.Obj [ ("type", Js.Str "progress"); ("phase", Js.Str "Pass 1/3") ].

Definition drivesRecordHost : Node :=
  Sample.host "linux" 0 true []
    [ (overfullLine, overfullRecord); (bareLine, bareRecord);
      (Sample.drivesLine, Sample.drivesPayload) ].

(** A Linux host whose engine prints [stdout] for the listing, and on which
    [lsblk] works too. *)
Definition printing (stdout : string) : Node :=
  Sample.host "linux" 0 true
    [ (Sample.listing, stdout); (Sample.lsblkCommand, Sample.lsblk) ] json.

(** A Linux host on which [lsblk] names a device by the word cancel. *)
Definition cancelDrive : Inquirer.choice Js.value :=
  {| Inquirer.name := "cancel @ / (1.0GB)";
     Inquirer.value := Js.Str "cancel";
     Inquirer.disabled := None |}.

Definition cancelHost : Node :=
  Sample.host "linux" 0 true [(Sample.lsblkCommand, "cancel ext4 100 /")] [].

(** A Linux host on which [df -h] lists the root volume and a memory
    file system. *)
Definition df : string :=
  "Filesystem      Size  Used Avail Use% Mounted on
/dev/sda1       458G  120G  315G  28% /
tmpfs           7.8G     0  7.8G   0% /dev/shm".

Definition dfHost : Node := Sample.host "linux" 0 true [("df -h", df)] [].

Definition rootMount : Inquirer.choice string :=
  {| Inquirer.name := "/ (315G free / 458G total)";
     Inquirer.value := "/";
     Inquirer.disabled := None |}.

Definition sharedMemory : Inquirer.choice string :=
  {| Inquirer.name := "/dev/shm (7.8G free / 7.8G total)";
     Inquirer.value := "/dev/shm";
     Inquirer.disabled := None |}.

Definition dfDrives : list (Inquirer.choice string) := [rootMount; sharedMemory].

(** A Linux host whose engine lists one volume under a number instead of
    a device name. *)
Definition numberedLine : string := "{drives, device 5}".
Definition numberedPayload : Js.value :=
  Js.Obj [ ("type", Js.Str "drives");
           ("items", Js.Arr [ Js.Obj [ ("device", Js.Num (Js.ofZ 5)) ] ]) ].
Definition numbered : Node :=
  Sample.host "linux" 0 true [(Sample.listing, numberedLine)]
              [(numberedLine, numberedPayload)].

End Listing.

(* ------------------------------------------------------------------ *)
(** * Kinds of output lines *)

(** The line is a record whose [type] is 'progress': the test of the first
    branch of [processOutput]. *)
Definition isProgress (n : Node) (line : string) : bool :=
  match JSON_parse n line with
  | Some jsonData =>
      match Js.get jsonData "type" with
      | Some type => Js.is_str type "progress"
      | None => false
      end
  | None => false
  end.

(* ------------------------------------------------------------------ *)
(** * What startWipeProcess of index.js shows *)

Module Screen.

(** [args.indexOf(x)]: the first place of [x], or -1. *)
Fixpoint indexOf (x : string) (args : list string) : Z :=
  match args with
  | [] => -1
  | a :: rest =>
      if String.eqb a x then 0
      else let i := indexOf x rest in if i <? 0 then -1 else i + 1
  end.

(** [args[i]]; [None] is [undefined]. *)
Definition item (args : list string) (i : Z) : option string :=
  if i <? 0 then None else nth_error args (Z.to_nat i).

(** [const targetPath = args[args.indexOf('--path') + 1]] and
    [const mode = args[args.indexOf('--mode') + 1]], the two values of the
    header. *)
Definition targetPath (args : list string) : option string :=
  item args (indexOf "--path" args + 1).

Definition mode (args : list string) : option string :=
  item args (indexOf "--mode" args + 1).

Definition logBoxHeight : nat := 10.

(** [s.padEnd(width)]: blanks are added up to [width]; a longer text is
    left as it is. *)
Definition padEnd (width : nat) (s : string) : string :=
  s ++ String.concat "" (repeat " " (width - String.length s)).

(** [logMessages.slice(-logBoxHeight)] *)
Definition displayedLogs (logMessages : list string) : list string :=
  skipn (List.length logMessages - logBoxHeight) logMessages.

(** [displayedLogs[i] || ''] *)
Definition logLine (displayed : list string) (i : nat) : string :=
  match nth_error displayed i with
  | Some l => l
  | None => ""
  end.

(** The rows [renderUI] draws between the two borders of the log box,
    [chalk.yellow('| ') + logLine.padEnd(70) + chalk.yellow(' |')] for
    [i] from 0 to [logBoxHeight - 1]; [logMessages] are the rendered
    lines. *)
Definition boxRows (n : Node) (logMessages : list string) : list string :=
  map (fun i => chalk n "yellow" "| "
                ++ padEnd 70 (logLine (displayedLogs logMessages) i)
                ++ chalk n "yellow" " |")
      (seq 0 logBoxHeight).

(** [const spinnerFrames = ['-', '\\', '|', '/']] *)
Definition spinnerFrames : list string :=
  ["-"; String JsString.backslash ""; "|"; "/"].

(** The assignment of the interval callback,
    [frameIndex = (frameIndex + 1) % spinnerFrames.length]. *)
Definition tick (frameIndex : nat) : nat :=
  ((frameIndex + 1) mod List.length spinnerFrames)%nat.

(** [spinnerFrames[frameIndex]] *)
Definition spinner (frameIndex : nat) : option string :=
  nth_error spinnerFrames frameIndex.

End Screen.

(* ------------------------------------------------------------------ *)
(** * The life of the engine process under the older revision *)

Module LegacyProcess.

(** Which [data] listener [process.stdin] has: the one for Ctrl+C from
    [startWipeProcess] on, the one that exits once the engine has closed;
    [Exited] when the wrapper has ended. *)
Inductive phase : Type := Running | AnyKey | Exited.

Inductive event : Type :=
| Key (key : string)                          (* [data] on [process.stdin] *)
| Output (from : stream) (data : string)      (* [data] on a stream of the engine *)
| Close (code : option Z).                    (* [close] of the engine *)

Inductive action : Type :=
| Send (s : signal)                           (* [pythonProcess.kill(s)] *)
| Show (d : Legacy.display)
| Announce (r : Legacy.report)
| Exit (code : Z)                             (* [process.exit(code)] *)
| Uncaught.                                   (* an exception no one catches *)

(** One event from [spawn] on; the global [pythonProcess] holds the engine
    all along. [tty] tells whether [process.stdin] is a terminal: only
    then does it have [setRawMode]. The [close] listener announces the
    result and calls [process.stdin.setRawMode(true)]: on a terminal it
    goes on to remove the listener for Ctrl+C and to install
    [process.exit.bind(process, 0)]; otherwise the call throws, nothing
    catches the exception, and Node ends the wrapper. *)
Definition step (n : Node) (tty : bool) (p : phase) (e : event)
  : phase * list action :=
  match p, e with
  | Exited, _ => (Exited, [])
  | Running, Key key =>
      (Running,
       (map Show (fst (Legacy.onStdinData true key))
        ++ map Send (snd (Legacy.onStdinData true key)))%list)
  | AnyKey, Key _ => (Exited, [Exit 0])
  | _, Output Stdout data => (p, map Show (Legacy.onStdout n data))
  | _, Output Stderr data => (p, map Show (Legacy.onStderr data))
  | _, Close code =>
      if tty then (AnyKey, [Announce (Legacy.onClose code)])
      else (Exited, [Announce (Legacy.onClose code); Uncaught])
  end.

Fixpoint run (n : Node) (tty : bool) (p : phase) (events : list event)
  : phase * list action :=
  match events with
  | [] => (p, [])
  | e :: rest =>
      let '(p', done) := step n tty p e in
      let '(p'', more) := run n tty p' rest in
      (p'', (done ++ more)%list)
  end.

(** The signals asked for with [kill] and the exit codes given to
    [process.exit] in a list of actions, in order, and whether an
    exception went uncaught. *)
Definition sends (actions : list action) : list signal :=
  flat_map (fun a => match a with Send s => [s] | _ => [] end) actions.

Definition exits (actions : list action) : list Z :=
  flat_map (fun a => match a with Exit code => [code] | _ => [] end) actions.

Definition uncaught (actions : list action) : bool :=
  existsb (fun a => match a with Uncaught => true | _ => false end) actions.

Definition isKey (e : event) : bool :=
  match e with Key _ => true | _ => false end.

Definition isClose (e : event) : bool :=
  match e with Close _ => true | _ => false end.

(** How many of the events are a chunk of input that is exactly the one
    character U+0003. *)
Definition ctrlCs (events : list event) : nat :=
  List.length
    (filter (fun e => match e with Key key => String.eqb key Legacy.ctrlC | _ => false end)
            events).

End LegacyProcess.

(* ------------------------------------------------------------------ *)
(** * Lines of fields *)

(** The lines that [lsblk], [df] and [wmic] print: words set apart by
    runs of white space. *)
Module Fields.

Fixpoint all (f : ascii -> bool) (s : string) : bool :=
  match s with
  | EmptyString => true
  | String c r => f c && all f r
  end.

Definition noSpace (s : string) : bool :=
  all (fun c => negb (JsString.is_space c)) s.

(** A word: not empty, no white space in it. *)
Definition isWord (s : string) : bool :=
  negb (String.eqb s "") && noSpace s.

(** A separator: white space, and not empty. *)
Definition isBlank (s : string) : bool :=
  negb (String.eqb s "") && all JsString.is_space s.

(** The rest of a line after its first word: each further word with the
    separator before it. *)
Fixpoint spaced (fields : list (string * string)) : string :=
  match fields with
  | [] => ""
  | (sp, w) :: rest => sp ++ w ++ spaced rest
  end.

Definition wellFormed (fields : list (string * string)) : bool :=
  forallb (fun f => isBlank (fst f) && isWord (snd f)) fields.

End Fields.

(* ------------------------------------------------------------------ *)
(** * Properties *)

(** ** The exit code of the engine *)

(** C2: both revisions of the [close] listener sort every way the engine
    can end into exactly one of three reports: exit code 0 is success, exit
    code 130 is a cancellation by the user, and everything else (any other
    code, or no code at all) is a failure carrying that code. *)
Theorem exit_code_three_outcomes (code : option Z) :
  (Current.onClose code = Current.Success <-> code = Some 0)
  /\ (Current.onClose code = Current.CancelledByUser <-> code = Some 130)
  /\ (Current.onClose code = Current.Failure code
      <-> code <> Some 0 /\ code <> Some 130)
  /\ (Legacy.onClose code = Legacy.Success <-> code = Some 0)
  /\ (Legacy.onClose code = Legacy.CancelledByUser <-> code = Some 130)
  /\ (Legacy.onClose code = Legacy.Failure code
      <-> code <> Some 0 /\ code <> Some 130).
Proof.
  unfold Current.onClose, Legacy.onClose, exited.
  destruct code as [c|].
  - destruct (Z.eqb_spec c 0) as [->|H0]; [cbn; intuition congruence|].
    destruct (Z.eqb_spec c 130) as [->|H130]; intuition congruence.
  - intuition congruence.
Qed.

(** ** The output of the engine, line by line *)

Section ProcessOutput.

Variable n : Node.

Lemma raw_entry (line : string) :
  Current.entryOf n (Js.Str line) (Js.Str "raw")
  = Some {| Current.label := Current.LogPrefix; Current.message := line |}.
Proof. reflexivity. Qed.

Lemma addLog_pushes (message type : Js.value) (st : Current.ui) :
  Current.addLog n message type st
  = option_map (fun e => Current.pushLog e st) (Current.entryOf n message type).
Proof.
  unfold Current.addLog, bind. now destruct (Current.entryOf n message type).
Qed.

Lemma tryLine_effect (line : string) :
  (exists f, (forall st, Current.tryLine n line st = Some (apply f st)))
  \/ (forall st, Current.tryLine n line st = None).
Proof.
  unfold Current.tryLine, bind.
  destruct (JSON_parse n line) as [j|]; [|now right].
  destruct (Js.get j "type") as [t|]; [|now right].
  destruct (Js.is_str t "progress").
  - destruct (Js.get j "phase") as [ph|]; [|now right].
    left. now exists (SetsPhase ph).
  - destruct (Js.get j "message") as [m|]; [|now right].
    destruct (Current.entryOf n m t) as [e|] eqn:He.
    + left. exists (Pushes e). intros st. rewrite addLog_pushes, He. reflexivity.
    + right. intros st. rewrite addLog_pushes, He. reflexivity.
Qed.

Lemma processLine_effect (line : string) :
  exists f, forall st, Current.processLine n line st = Some (apply f st).
Proof.
  unfold Current.processLine.
  destruct (tryLine_effect line) as [[f Hf]|Hnone].
  - exists f. intros st. now rewrite Hf.
  - exists (Pushes {| Current.label := Current.LogPrefix; Current.message := line |}).
    intros st. rewrite Hnone, addLog_pushes, raw_entry. reflexivity.
Qed.

Lemma forEach_app (before after : list string) (st : Current.ui) :
  Current.forEach n (before ++ after)%list st
  = bind (Current.forEach n before st) (Current.forEach n after).
Proof.
  revert st. induction before as [|l before IH]; intros st; cbn.
  - reflexivity.
  - unfold bind at 1 3. destruct (Current.processLine n l st) as [st'|]; [apply IH|reflexivity].
Qed.

Lemma forEach_total (lines : list string) (st : Current.ui) :
  exists st', Current.forEach n lines st = Some st'.
Proof.
  revert st. induction lines as [|l lines IH]; intros st; cbn.
  - now exists st.
  - destruct (processLine_effect l) as [f Hf]. rewrite Hf. cbn. apply IH.
Qed.

End ProcessOutput.

(** C3 as stated fails on the older revision: a chunk of [stdout] that
    holds two lines, each of them a status record, is shown as one raw
    message, not as two records; and a chunk of [stderr] that holds a
    status record is shown as an error text, without being parsed. *)
Lemma older_revision_takes_chunk_whole :
  JsString.split JsString.newline
    (JsString.trim (Sample.statusLine ++ String JsString.newline Sample.statusLine))
  = [Sample.statusLine; Sample.statusLine]
  /\ JSON_parse Sample.reporting Sample.statusLine = Some Sample.statusRecord
  /\ Legacy.onStdout Sample.reporting Sample.statusLine
     = [Legacy.ShowEngine "pass started"]
  /\ Legacy.onStdout Sample.reporting
       (Sample.statusLine ++ String JsString.newline Sample.statusLine)
     = [Legacy.ShowEngine
          (Sample.statusLine ++ String JsString.newline Sample.statusLine)]
  /\ Legacy.onStderr Sample.statusLine
     = [Legacy.ShowEngineError Sample.statusLine].
Proof. repeat split. Qed.

(** C3, amended: [processOutput] of [index.js], the listener of both
    streams of the engine, takes each chunk line by line. Every chunk of
    either stream is processed to the end (1); the lines are handled one
    after the other, whatever the lines before were (2); what a line does
    is fixed by the line alone: it sets the phase and leaves the log as it
    is, or appends one entry to the log and leaves the phase as it is (3);
    a record of type 'progress' sets the phase to its [phase] (4); a
    record of another type appends one entry, made of its [type] and
    [message] when these have a text (5); a line that is not JSON is
    appended as it is, as raw text (6). The older revision takes a chunk
    of [stdout] as one message: a chunk that is not JSON as a whole is
    shown whole as a plain message (7), a chunk that is one status record
    is shown by its message (8); it shows a chunk of [stderr] as an error
    text without parsing it (9); and it never shows more than one item
    for a chunk, however many lines the chunk has (10). *)
Theorem output_by_line_or_by_chunk (n : Node) :
  (forall from data st, exists st', Current.onData n from data st = Some st')
  /\ (forall from data before line after st,
        JsString.split JsString.newline (JsString.trim data) = (before ++ line :: after)%list ->
        Current.onData n from data st
        = bind (Current.forEach n before st)
               (fun s => bind (Current.processLine n line s) (Current.forEach n after)))
  /\ (forall line,
        (exists phase, forall st,
            Current.processLine n line st
            = Some {| Current.currentPhase := phase;
                      Current.logMessages := Current.logMessages st |})
        \/ (exists e, forall st,
            Current.processLine n line st
            = Some {| Current.currentPhase := Current.currentPhase st;
                      Current.logMessages := (Current.logMessages st ++ [e])%list |}))
  /\ (forall line record type phase st,
        JSON_parse n line = Some record ->
        Js.get record "type" = Some type ->
        Js.is_str type "progress" = true ->
        Js.get record "phase" = Some phase ->
        Current.processLine n line st
        = Some {| Current.currentPhase := phase;
                  Current.logMessages := Current.logMessages st |})
  /\ (forall line record type message st,
        JSON_parse n line = Some record ->
        Js.get record "type" = Some type ->
        Js.is_str type "progress" = false ->
        Js.get record "message" = Some message ->
        (exists e,
            Current.processLine n line st
            = Some {| Current.currentPhase := Current.currentPhase st;
                      Current.logMessages := (Current.logMessages st ++ [e])%list |})
        /\ (forall e,
              Current.entryOf n message type = Some e ->
              Current.processLine n line st
              = Some {| Current.currentPhase := Current.currentPhase st;
                        Current.logMessages := (Current.logMessages st ++ [e])%list |}))
  /\ (forall line st,
        JSON_parse n line = None ->
        Current.processLine n line st
        = Some {| Current.currentPhase := Current.currentPhase st;
                  Current.logMessages :=
                    (Current.logMessages st
                     ++ [ {| Current.label := Current.LogPrefix;
                             Current.message := line |} ])%list |})
  /\ (forall data,
        JsString.trim data <> "" ->
        JSON_parse n (JsString.trim data) = None ->
        Legacy.onStdout n data = [Legacy.ShowEngine (JsString.trim data)])
  /\ (forall data record type message shown,
        JsString.trim data <> "" ->
        JSON_parse n (JsString.trim data) = Some record ->
        Js.get record "type" = Some type ->
        Js.is_str type "status" = true ->
        Js.get record "message" = Some message ->
        text n message = Some shown ->
        Legacy.onStdout n data = [Legacy.ShowEngine shown])
  /\ (forall data,
        JsString.trim data <> "" ->
        Legacy.onStderr data = [Legacy.ShowEngineError (JsString.trim data)])
  /\ (forall data,
        (List.length (Legacy.onStdout n data) <= 1)%nat
        /\ (List.length (Legacy.onStderr data) <= 1)%nat).
Proof.
  assert (Hne : forall a, a <> "" -> String.eqb a "" = false).
  { intros a H. destruct (String.eqb_spec a ""); [contradiction|reflexivity]. }
  split; [|split; [|split; [|split; [|split; [|split; [|split; [|split; [|split]]]]]]]].
  - intros from data st. destruct from; apply forEach_total.
  - intros from data before line after st Hsplit.
    destruct from; unfold Current.onData, Current.processOutput;
      rewrite Hsplit, forEach_app; reflexivity.
  - intros line. destruct (processLine_effect n line) as [[phase|e] Hf].
    + left. exists phase. intros st. now rewrite Hf.
    + right. exists e. intros st. now rewrite Hf.
  - intros line record type phase st Hp Ht Hprog Hph.
    unfold Current.processLine, Current.tryLine, bind.
    now rewrite Hp, Ht, Hprog, Hph.
  - intros line record type message st Hp Ht Hprog Hm.
    assert (Hline : Current.processLine n line st
                    = match Current.entryOf n message type with
                      | Some e => Some (Current.pushLog e st)
                      | None => Some (Current.pushLog
                                        {| Current.label := Current.LogPrefix;
                                           Current.message := line |} st)
                      end).
    { unfold Current.processLine, Current.tryLine, bind.
      rewrite Hp, Ht, Hprog, Hm, addLog_pushes.
      destruct (Current.entryOf n message type); [reflexivity|].
      cbn [option_map]. now rewrite addLog_pushes, raw_entry. }
    split.
    + rewrite Hline. destruct (Current.entryOf n message type) as [e|]; eexists;
        reflexivity.
    + intros e He. now rewrite Hline, He.
  - intros line st Hp.
    unfold Current.processLine, Current.tryLine, bind.
    now rewrite Hp, addLog_pushes, raw_entry.
  - intros data Hdata Hp. unfold Legacy.onStdout. rewrite (Hne _ Hdata).
    unfold Legacy.tryMessage. now rewrite Hp.
  - intros data record type message shown Hdata Hp Ht Hs Hm Htext.
    unfold Legacy.onStdout. rewrite (Hne _ Hdata).
    unfold Legacy.tryMessage. rewrite Hp. cbn [bind]. rewrite Ht. cbn [bind].
    assert (Hprog : Js.is_str type "progress" = false).
    { destruct type as [| | | |t| |]; try reflexivity.
      cbn [Js.is_str] in *. apply String.eqb_eq in Hs. now subst t. }
    rewrite Hprog, Hs, Hm. cbn [bind]. now rewrite Htext.
  - intros data Hdata. unfold Legacy.onStderr. now rewrite (Hne _ Hdata).
  - intros data. split.
    + unfold Legacy.onStdout.
      destruct (String.eqb (JsString.trim data) ""); [cbn; lia|].
      unfold Legacy.tryMessage.
      repeat match goal with
             | |- context [bind ?m _] => destruct m; cbn [bind]
             | |- context [if ?b then _ else _] => destruct b
             end; cbn; lia.
    + unfold Legacy.onStderr.
      destruct (String.eqb (JsString.trim data) ""); cbn; lia.
Qed.

(** C3 at a chunk of two lines in [index.js]: a progress record sets the
    phase and leaves the log empty, and a line that is not JSON is
    appended as raw text; and at a chunk of the older revision that is
    not JSON as a whole. *)
Lemma output_by_line_or_by_chunk_witness :
  JSON_parse Sample.reporting Sample.progressLine = Some Sample.progressRecord
  /\ Current.processLine Sample.reporting Sample.progressLine Current.initial
     = Some {| Current.currentPhase := Js.Str "Pass 2/3";
               Current.logMessages := [] |}
  /\ JSON_parse Sample.reporting "mkfs.ext4: done" = None
  /\ Current.processLine Sample.reporting "mkfs.ext4: done" Current.initial
     = Some {| Current.currentPhase := Js.Str "Initializing...";
               Current.logMessages :=
                 [ {| Current.label := Current.LogPrefix;
                      Current.message := "mkfs.ext4: done" |} ] |}
  /\ Legacy.onStdout Sample.reporting "mkfs.ext4: done"
     = [Legacy.ShowEngine "mkfs.ext4: done"].
Proof.
  pose proof (output_by_line_or_by_chunk Sample.reporting)
    as (_ & _ & _ & H4 & _ & H6 & H7 & _).
  split; [reflexivity|]. split.
  - exact (H4 Sample.progressLine Sample.progressRecord (Js.Str "progress")
              (Js.Str "Pass 2/3") Current.initial eq_refl eq_refl eq_refl eq_refl).
  - split; [reflexivity|]. split.
    + exact (H6 "mkfs.ext4: done" Current.initial eq_refl).
    + refine (H7 "mkfs.ext4: done" _ eq_refl). discriminate.
Defined.

(** In [index.js] the same chunk pushes two entries. *)
Remark current_chunk_is_two_lines :
  Current.processOutput Sample.reporting
    (Sample.statusLine ++ String JsString.newline Sample.statusLine) Current.initial
  = Some {| Current.currentPhase := Js.Str "Initializing...";
            Current.logMessages :=
              [ {| Current.label := Current.InfoPrefix; Current.message := "pass started" |};
                {| Current.label := Current.InfoPrefix; Current.message := "pass started" |} ] |}.
Proof. reflexivity. Qed.

(** ** Drive enumeration *)

Lemma append_assoc (a b c : string) : ((a ++ b) ++ c = a ++ (b ++ c))%string.
Proof. induction a as [|x a IH]; cbn; [reflexivity|now rewrite IH]. Qed.

Section GetDrives.

Variable n : Node.

Lemma bind_Some {A B} (m : option A) (k : A -> option B) (b : B) :
  bind m k = Some b -> exists a, m = Some a /\ k a = Some b.
Proof. destruct m as [a|]; cbn; [eauto|discriminate]. Qed.

(** What the primary enumeration returns comes from one line of the
    output, the last one that is a record of type 'drives', and is not
    empty. *)
Lemma primary_Some (r : exec_result) (drives : list (Inquirer.choice Js.value)) :
  Current.primary n r = Some drives ->
  drives <> []
  /\ exists stdout line payload found items,
      r = ExecOutput stdout
      /\ find (Current.isDrivesLine n)
              (rev (JsString.split JsString.newline (JsString.trim stdout))) = Some line
      /\ JSON_parse n line = Some payload
      /\ Js.get payload "items" = Some found
      /\ Js.or_else found (Js.Arr []) = Js.Arr items
      /\ mapM (Current.toChoice n) items = Some drives.
Proof.
  unfold Current.primary. destruct r as [|stdout]; [discriminate|].
  destruct (find _ _) as [line|] eqn:Hfind; [|discriminate].
  destruct (String.eqb line ""); [discriminate|].
  intros H. apply bind_Some in H. destruct H as (payload & Hp & H).
  apply bind_Some in H. destruct H as (found & Hi & H).
  destruct (Js.or_else found (Js.Arr [])) as [| | | | |items|] eqn:Hor; try discriminate.
  apply bind_Some in H. destruct H as (choices & Hm & H).
  destruct choices as [|c cs]; [discriminate|]. injection H as <-.
  split; [discriminate|].
  exists stdout, line, payload, found, items. repeat split; assumption || reflexivity.
Qed.

Lemma fallback_resolves (r : exec_result) :
  exists drives, Current.fallback n r = Resolved drives.
Proof. destruct r; cbn; eauto. Qed.

Lemma getDrives_resolves :
  exists drives, snd (Current.getDrives n) = Resolved drives.
Proof.
  unfold Current.getDrives.
  destruct (Current.primary n (exec n (Current.cmd n))) as [choices|]; cbn.
  - eauto.
  - apply fallback_resolves.
Qed.

Lemma legacy_getDrives_resolves :
  exists drives, snd (Legacy.getDrives n) = Resolved drives.
Proof.
  unfold Legacy.getDrives. cbn. destruct (exec n (Legacy.command n)); eauto.
Qed.

End GetDrives.

(** C5: [getDrives] never raises an error to its caller: in both revisions
    its promise is always resolved (1, 2). In [index.js] a listing of the
    primary enumeration is never empty and is then the only command run
    (3); the primary enumeration fails when its command fails (4), prints
    no record of type 'drives' (5) or prints one without drives (6); then
    the platform tool is run and its listing is the result (7), and when
    that tool fails too the result is the empty list (8), as in the older
    revision when its only command fails (9). A line of the fallback
    listing whose size cannot be read is left out (10). The primary
    enumeration asks the engine for a listing in a dry run (11), and the
    drives shown are those of one record of type 'drives', the last one
    printed (12). *)
Theorem getDrives_never_raises (n : Node) :
  (exists drives, snd (Current.getDrives n) = Resolved drives)
  /\ (exists drives, snd (Legacy.getDrives n) = Resolved drives)
  /\ (forall drives,
        Current.primary n (exec n (Current.cmd n)) = Some drives ->
        drives <> [] /\ Current.getDrives n = ([Current.cmd n], Resolved drives))
  /\ (exec n (Current.cmd n) = ExecError ->
      Current.primary n (exec n (Current.cmd n)) = None)
  /\ (forall stdout,
        exec n (Current.cmd n) = ExecOutput stdout ->
        find (Current.isDrivesLine n)
             (rev (JsString.split JsString.newline (JsString.trim stdout))) = None ->
        Current.primary n (exec n (Current.cmd n)) = None)
  /\ (forall stdout line payload,
        exec n (Current.cmd n) = ExecOutput stdout ->
        find (Current.isDrivesLine n)
             (rev (JsString.split JsString.newline (JsString.trim stdout))) = Some line ->
        JSON_parse n line = Some payload ->
        Js.get payload "items" = Some (Js.Arr []) ->
        Current.primary n (exec n (Current.cmd n)) = None)
  /\ (Current.primary n (exec n (Current.cmd n)) = None ->
      Current.getDrives n
      = ([Current.cmd n; Current.fallbackCmd n],
         Current.fallback n (exec n (Current.fallbackCmd n))))
  /\ (Current.primary n (exec n (Current.cmd n)) = None ->
      exec n (Current.fallbackCmd n) = ExecError ->
      snd (Current.getDrives n) = Resolved [])
  /\ (exec n (Legacy.command n) = ExecError ->
      snd (Legacy.getDrives n) = Resolved [])
  /\ (forall line,
        Js.isNaN (Js.parseInt (nth_error (JsString.split_ws (JsString.trim line)) 2)) = true ->
        Current.posixLine n line = [])
  /\ (exists front, Current.cmd n = front ++ " --list-drives --dry-run")
  /\ (forall drives,
        snd (Current.getDrives n) = Resolved drives ->
        fst (Current.getDrives n) = [Current.cmd n] ->
        exists stdout line payload found items,
          exec n (Current.cmd n) = ExecOutput stdout
          /\ find (Current.isDrivesLine n)
                  (rev (JsString.split JsString.newline (JsString.trim stdout))) = Some line
          /\ JSON_parse n line = Some payload
          /\ Js.get payload "items" = Some found
          /\ Js.or_else found (Js.Arr []) = Js.Arr items
          /\ mapM (Current.toChoice n) items = Some drives).
Proof.
  split; [apply getDrives_resolves|].
  split; [apply legacy_getDrives_resolves|].
  split.
  { intros drives H. split.
    - apply (primary_Some n _ _ H).
    - unfold Current.getDrives. now rewrite H. }
  split.
  { intros H. now rewrite H. }
  split.
  { intros stdout H Hfind. rewrite H. unfold Current.primary. now rewrite Hfind. }
  split.
  { intros stdout line payload H Hfind Hp Hitems. rewrite H.
    unfold Current.primary. rewrite Hfind.
    destruct (String.eqb line ""); [reflexivity|].
    cbn. rewrite Hp. cbn. rewrite Hitems. reflexivity. }
  split.
  { intros H. unfold Current.getDrives. now rewrite H. }
  split.
  { intros H Hf. unfold Current.getDrives. rewrite H. cbn. now rewrite Hf. }
  split.
  { intros H. unfold Legacy.getDrives. cbn. now rewrite H. }
  split.
  { intros line H. unfold Current.posixLine. rewrite H.
    now rewrite andb_false_r. }
  split.
  { unfold Current.cmd.
    exists (dquote ++ pythonExecutable n ++ dquote ++ " " ++ dquote ++ main_py n ++ dquote
            ++ " -p " ++ Current.placeholderPath n ++ " -m secure -f "
            ++ Current.placeholderFs n).
    rewrite !append_assoc. reflexivity. }
  intros drives Hres Hcmds. unfold Current.getDrives in *.
  destruct (Current.primary n (exec n (Current.cmd n))) as [choices|] eqn:Hprim.
  - cbn in Hres. injection Hres as ->.
    destruct (primary_Some n _ _ Hprim) as (_ & stdout & line & payload & found & items & H).
    exists stdout, line, payload, found, items. exact H.
  - cbn in Hcmds. discriminate.
Qed.

(** C5 at a host on which only [lsblk] works: the listing comes from it. *)
Lemma getDrives_never_raises_witness :
  Current.primary (Sample.linux 0)
                  (exec (Sample.linux 0) (Current.cmd (Sample.linux 0))) = None
  /\ Current.getDrives (Sample.linux 0)
     = ([Current.cmd (Sample.linux 0); Current.fallbackCmd (Sample.linux 0)],
        Current.fallback (Sample.linux 0)
          (exec (Sample.linux 0) (Current.fallbackCmd (Sample.linux 0)))).
Proof.
  split.
  - reflexivity.
  - apply (getDrives_never_raises (Sample.linux 0)). reflexivity.
Defined.

(** ** The menus of [index.js] *)

Section CurrentSequence.

Variable n : Node.

Lemma eqb_false_neq (a b : string) : String.eqb a b = false -> a <> b.
Proof. intros H ->. now rewrite String.eqb_refl in H. Qed.

Lemma neq_eqb_false (a b : string) : a <> b -> String.eqb a b = false.
Proof. intros H. destruct (String.eqb_spec a b); [contradiction|reflexivity]. Qed.

(** From the final confirmation on, the sequence is decided by the typed
    line and by the user id. *)
Lemma sequence_at_confirmation (op : Operator) (target mode fs : string)
      (passesArg : list string) :
  atConfirmation n op target mode fs passesArg ->
  Current.startWipeSequence n op
  = if Current.confirmed n (confirmationLine op) target then
      if Current.lacksRoot n then BackToMain (Some 3000)
      else Current.startWipeProcess n (engineArgs target mode fs passesArg)
    else BackToMain (Some 2000).
Proof.
  intros (drives & Hd & Hne & Ht & Htc & Hm & Hmc & Hf & Hfc & Hp).
  unfold Current.startWipeSequence. rewrite Hd.
  destruct drives as [|d0 drives']; [contradiction|].
  cbn [List.length Nat.eqb].
  rewrite Ht.
  unfold answered at 1. unfold cancelValue, Js.is_str.
  rewrite (neq_eqb_false _ _ Htc). cbn [andThen].
  rewrite Hm. unfold answered at 1. unfold cancelText.
  rewrite (neq_eqb_false _ _ Hmc). cbn [andThen].
  rewrite Hf. unfold answered at 1.
  rewrite (neq_eqb_false _ _ Hfc). cbn [andThen].
  destruct Hp as [(-> & passes & Hpr & ->)|(Hnp & ->)].
  - cbn [String.eqb Ascii.eqb Bool.eqb]. rewrite Hpr. cbn [andThen]. reflexivity.
  - rewrite (neq_eqb_false _ _ Hnp). cbn [andThen]. reflexivity.
Qed.

(** The engine is only started from the final confirmation. *)
Lemma spawn_at_confirmation (op : Operator) (exe : string) (args : list string) :
  Current.startWipeSequence n op = SpawnEngine exe args ->
  exists target mode fs passesArg, atConfirmation n op target mode fs passesArg.
Proof.
  unfold Current.startWipeSequence.
  destruct (snd (Current.getDrives n)) as [drives|] eqn:Hd; [|discriminate].
  destruct drives as [|d0 drives']; [discriminate|].
  cbn [List.length Nat.eqb].
  destruct (Inquirer.list_prompt (Current.targetChoices (d0 :: drives')) (pickTarget op))
    as [tv|] eqn:Ht; [|discriminate].
  unfold answered at 1.
  destruct (cancelValue tv) eqn:Htc; [discriminate|]. cbn [andThen].
  destruct (Inquirer.list_prompt (Current.modeChoices n) (pickMode op))
    as [mode|] eqn:Hm; [|discriminate].
  unfold answered at 1.
  destruct (cancelText mode) eqn:Hmc; [discriminate|]. cbn [andThen].
  destruct (Inquirer.list_prompt (Current.filesystemChoices n) (pickFilesystem op))
    as [fs|] eqn:Hf; [|discriminate].
  unfold answered at 1.
  destruct (cancelText fs) eqn:Hfc; [discriminate|]. cbn [andThen].
  intros H.
  assert (Hp : exists passesArg, passesFor n op mode passesArg
                                 /\ exists target, tv = Js.Str target).
  { destruct (String.eqb_spec mode "paranoid") as [->|Hnp].
    - destruct (Inquirer.number_prompt (Js.ofZ 3) Current.validate (passesLines op))
        as [passes|] eqn:Hpr; [|discriminate].
      cbn [andThen] in H.
      exists ["--passes"; numberString n passes]. split.
      + left. split; [reflexivity|]. now exists passes.
      + destruct tv; try discriminate. eauto.
    - cbn [andThen] in H. exists []. split.
      + right. now split.
      + destruct tv; try discriminate. eauto. }
  destruct Hp as (passesArg & Hp & target & ->).
  exists target, mode, fs, passesArg, (d0 :: drives').
  repeat split; try assumption; try discriminate.
  - now apply eqb_false_neq.
  - now apply eqb_false_neq.
  - now apply eqb_false_neq.
Qed.

End CurrentSequence.

(** ** The number of passes *)

Lemma integral_Some (v : Js.number) (z : Z) :
  Js.integral v = Some z <-> exists q, v = Js.Fin q /\ Qred q = inject_Z z.
Proof.
  unfold Js.integral. split.
  - destruct v as [| |q]; try discriminate.
    destruct (Qred q) as [num den] eqn:Hr. cbn [Qden Qnum].
    destruct (Pos.eqb_spec den 1) as [->|]; [|discriminate].
    intros [= <-]. exists q. split; [reflexivity|]. exact Hr.
  - intros (q & -> & Hr). rewrite Hr. reflexivity.
Qed.

Lemma validate_spec (v : Js.number) :
  Current.validate v = true <-> exists z, Js.integral v = Some z /\ 1 <= z <= 10.
Proof.
  unfold Current.validate, Js.isInteger. split.
  - destruct (Js.integral v) as [z|] eqn:Hz; [|discriminate].
    cbn [andb]. intros Hb. exists z. split; [reflexivity|].
    apply integral_Some in Hz. destruct Hz as (q & -> & Hr).
    unfold Js.between in Hb. apply andb_true_iff in Hb. destruct Hb as [Hlo Hhi].
    apply Qle_bool_iff in Hlo, Hhi.
    rewrite <- (Qred_correct q), Hr in Hlo, Hhi.
    rewrite <- Zle_Qle in Hlo, Hhi. lia.
  - intros (z & Hz & Hlo & Hhi). rewrite Hz. cbn [andb].
    apply integral_Some in Hz. destruct Hz as (q & -> & Hr).
    unfold Js.between. apply andb_true_iff.
    split; apply Qle_bool_iff; rewrite <- (Qred_correct q), Hr, <- Zle_Qle; lia.
Qed.

Lemma number_prompt_valid (default : Js.number) (validate : Js.number -> bool)
      (lines : list (option Js.number)) (v : Js.number) :
  Inquirer.number_prompt default validate lines = Some v -> validate v = true.
Proof.
  induction lines as [|l lines IH]; cbn; [discriminate|].
  destruct (validate (match l with Some v0 => v0 | None => default end)) eqn:Hv.
  - now intros [= <-].
  - exact IH.
Qed.

Lemma numberString_integral (n : Node) (v : Js.number) (z : Z) :
  Js.integral v = Some z -> 1 <= z <= 10 -> numberString n v = JsString.decimal z.
Proof.
  intros Hz Hr. unfold numberString. rewrite Hz.
  destruct (Z.ltb_spec (Z.abs z) (10 ^ 21)) as [_|Hge]; [reflexivity|].
  exfalso. change (10 ^ 21) with 1000000000000000000000 in Hge. lia.
Qed.

Lemma spawn_inversion (n : Node) (op : Operator) (exe : string) (args : list string) :
  Current.startWipeSequence n op = SpawnEngine exe args ->
  exists target mode fs passesArg,
    atConfirmation n op target mode fs passesArg
    /\ Current.confirmed n (confirmationLine op) target = true
    /\ Current.lacksRoot n = false
    /\ exe = pythonExecutable n
    /\ args = main_py n :: engineArgs target mode fs passesArg.
Proof.
  intros H.
  destruct (spawn_at_confirmation n op exe args H) as (target & mode & fs & passesArg & Hat).
  exists target, mode, fs, passesArg. split; [exact Hat|].
  rewrite (sequence_at_confirmation n op target mode fs passesArg Hat) in H.
  destruct (Current.confirmed n (confirmationLine op) target); [|discriminate].
  destruct (Current.lacksRoot n); [discriminate|].
  unfold Current.startWipeProcess in H. injection H as <- <-. auto.
Qed.

Lemma number_prompt_first_valid (lines refused : list (option Js.number))
      (l : option Js.number) (rest : list (option Js.number)) :
  lines = (refused ++ l :: rest)%list ->
  Forall (fun r => Current.validate (passesTyped r) = false) refused ->
  Current.validate (passesTyped l) = true ->
  Inquirer.number_prompt (Js.ofZ 3) Current.validate lines = Some (passesTyped l).
Proof.
  intros -> Href Hl. induction Href as [|r refused Hr _ IH].
  - cbn [app Inquirer.number_prompt]. fold (passesTyped l). now rewrite Hl.
  - cbn [app Inquirer.number_prompt]. fold (passesTyped r). now rewrite Hr.
Qed.

Lemma number_prompt_open (lines : list (option Js.number)) :
  Forall (fun r => Current.validate (passesTyped r) = false) lines ->
  Inquirer.number_prompt (Js.ofZ 3) Current.validate lines = None.
Proof.
  induction 1 as [|r lines Hr _ IH]; [reflexivity|].
  cbn [Inquirer.number_prompt]. fold (passesTyped r). now rewrite Hr.
Qed.

(** C7: the number of passes is accepted only as an integer from 1 to 10
    (1, 2); the prompt answers with the first line submitted that stands
    for such an integer, which is the number typed or 3 for an empty line,
    and stays open while there is none (3, 4, 5); the engine gets
    [--passes] with the very integer the prompt answered in mode
    'paranoid' and no such argument in any other mode (6); and in any
    other mode the prompt for the passes is not shown: what would be typed
    there changes nothing (7). *)
Theorem passes_only_for_paranoid (n : Node) :
  (forall v, Current.validate v = true
             <-> exists z, Js.integral v = Some z /\ 1 <= z <= 10)
  /\ (forall lines v,
        Inquirer.number_prompt (Js.ofZ 3) Current.validate lines = Some v ->
        Current.validate v = true)
  /\ (forall refused l rest,
        Forall (fun r => Current.validate (passesTyped r) = false) refused ->
        Current.validate (passesTyped l) = true ->
        Inquirer.number_prompt (Js.ofZ 3) Current.validate (refused ++ l :: rest)
        = Some (passesTyped l))
  /\ (forall lines,
        Forall (fun r => Current.validate (passesTyped r) = false) lines ->
        Inquirer.number_prompt (Js.ofZ 3) Current.validate lines = None)
  /\ (forall rest,
        Inquirer.number_prompt (Js.ofZ 3) Current.validate (None :: rest)
        = Some (Js.ofZ 3))
  /\ (forall op exe args,
        Current.startWipeSequence n op = SpawnEngine exe args ->
        exists target mode fs,
          (mode = "paranoid"
           /\ exists passes z,
              Inquirer.number_prompt (Js.ofZ 3) Current.validate (passesLines op)
              = Some passes
              /\ Js.integral passes = Some z
              /\ 1 <= z <= 10
              /\ args = [main_py n; "--path"; target; "--mode"; mode;
                         "--filesystem"; fs; "--passes"; JsString.decimal z])
          \/ (mode <> "paranoid"
              /\ args = [main_py n; "--path"; target; "--mode"; mode;
                         "--filesystem"; fs]))
  /\ (forall op lines,
        Inquirer.list_prompt (Current.modeChoices n) (pickMode op) <> Some "paranoid" ->
        Current.startWipeSequence n (withPasses op lines)
        = Current.startWipeSequence n op).
Proof.
  split; [exact validate_spec|].
  split; [intros lines v; apply number_prompt_valid|].
  split; [intros refused l rest; exact (number_prompt_first_valid _ refused l rest eq_refl)|].
  split; [exact number_prompt_open|].
  split; [reflexivity|].
  split.
  - intros op exe args H.
    destruct (spawn_inversion n op exe args H)
      as (target & mode & fs & passesArg & Hat & _ & _ & _ & ->).
    exists target, mode, fs.
    destruct Hat as (drives & _ & _ & _ & _ & _ & _ & _ & _ & Hp).
    destruct Hp as [(-> & passes & Hpr & ->)|(Hnp & ->)].
    + left. split; [reflexivity|].
      pose proof (number_prompt_valid _ _ _ _ Hpr) as Hv.
      apply validate_spec in Hv.
      destruct Hv as (z & Hz & Hr). exists passes, z.
      split; [exact Hpr|]. split; [exact Hz|]. split; [exact Hr|].
      cbn. now rewrite (numberString_integral n passes z Hz Hr).
    + right. split; [exact Hnp|reflexivity].
  - intros op lines Hmode.
    unfold Current.startWipeSequence.
    destruct (snd (Current.getDrives n)) as [drives|]; [|reflexivity].
    destruct (List.length drives =? 0)%nat; [reflexivity|].
    cbn [pickTarget pickMode pickFilesystem passesLines confirmationLine withPasses].
    destruct (answered cancelValue _ _) as [tv|]; [|reflexivity]. cbn [andThen].
    destruct (Inquirer.list_prompt (Current.modeChoices n) (pickMode op))
      as [mode|] eqn:Hm; [|reflexivity].
    unfold answered at 1 3.
    destruct (cancelText mode); [reflexivity|]. cbn [andThen].
    destruct (answered cancelText _ _) as [fs|]; [|reflexivity]. cbn [andThen].
    destruct (String.eqb_spec mode "paranoid") as [->|Hnp]; [congruence|].
    reflexivity.
Qed.

(** C7 at a Linux host run by root: a paranoid wipe where the operator
    first types 11, which is refused, and then 7, which the engine gets. *)
Lemma passes_only_for_paranoid_witness :
  Inquirer.number_prompt (Js.ofZ 3) Current.validate [Some (Js.ofZ 11); Some (Js.ofZ 7)]
  = Some (Js.ofZ 7)
  /\ Current.startWipeSequence (Sample.linux 0)
       (Sample.operator 1 1 0 [Some (Js.ofZ 11); Some (Js.ofZ 7)] "/dev/sdb1")
     = SpawnEngine "python3" ["/opt/scrubber/main.py"; "--path"; "/dev/sdb1";
                              "--mode"; "paranoid"; "--filesystem"; "ext4";
                              "--passes"; "7"]
  /\ exists target mode fs,
      (mode = "paranoid"
       /\ exists passes z,
          Inquirer.number_prompt (Js.ofZ 3) Current.validate
            [Some (Js.ofZ 11); Some (Js.ofZ 7)] = Some passes
          /\ Js.integral passes = Some z
          /\ 1 <= z <= 10
          /\ ["/opt/scrubber/main.py"; "--path"; "/dev/sdb1"; "--mode"; "paranoid";
              "--filesystem"; "ext4"; "--passes"; "7"]
             = [main_py (Sample.linux 0); "--path"; target; "--mode"; mode;
                "--filesystem"; fs; "--passes"; JsString.decimal z])
      \/ (mode <> "paranoid"
          /\ ["/opt/scrubber/main.py"; "--path"; "/dev/sdb1"; "--mode"; "paranoid";
              "--filesystem"; "ext4"; "--passes"; "7"]
             = [main_py (Sample.linux 0); "--path"; target; "--mode"; mode;
                "--filesystem"; fs]).
Proof.
  pose proof (passes_only_for_paranoid (Sample.linux 0))
    as (_ & _ & H3 & _ & _ & H6 & _).
  split; [|split].
  - refine (H3 [Some (Js.ofZ 11)] (Some (Js.ofZ 7)) [] _ eq_refl).
    constructor; [reflexivity|constructor].
  - reflexivity.
  - apply (H6 (Sample.operator 1 1 0 [Some (Js.ofZ 11); Some (Js.ofZ 7)] "/dev/sdb1")
              "python3").
    reflexivity.
Defined.

(** ** The menus of the older revision *)

Section LegacySequence.

Variable n : Node.

Lemma legacy_sequence_at_confirmation (op : Operator) (target mode : string) :
  legacyAtConfirmation n op target mode ->
  Legacy.startWipeSequence n op
  = if Legacy.confirmed n (confirmationLine op) (path_resolve n target)
    then Legacy.startWipeProcess n (path_resolve n target) mode
    else BackToMain (Some 2000).
Proof.
  intros (drives & Hd & Hne & Ht & Htc & Hm & Hmc).
  unfold Legacy.startWipeSequence. rewrite Hd.
  destruct drives as [|d0 drives']; [contradiction|].
  cbn [List.length Nat.eqb].
  rewrite Ht.
  unfold answered at 1. unfold cancelText.
  rewrite (neq_eqb_false _ _ Htc). cbn [andThen].
  rewrite Hm. unfold answered at 1.
  rewrite (neq_eqb_false _ _ Hmc). cbn [andThen]. reflexivity.
Qed.

Lemma legacy_spawn_at_confirmation (op : Operator) (exe : string) (args : list string) :
  Legacy.startWipeSequence n op = SpawnEngine exe args ->
  exists target mode, legacyAtConfirmation n op target mode.
Proof.
  unfold Legacy.startWipeSequence.
  destruct (snd (Legacy.getDrives n)) as [drives|] eqn:Hd; [|discriminate].
  destruct drives as [|d0 drives']; [discriminate|].
  cbn [List.length Nat.eqb].
  destruct (Inquirer.list_prompt (Legacy.targetChoices (d0 :: drives')) (pickTarget op))
    as [target|] eqn:Ht; [|discriminate].
  unfold answered at 1.
  destruct (cancelText target) eqn:Htc; [discriminate|]. cbn [andThen].
  destruct (Inquirer.list_prompt (Legacy.modeChoices n) (pickMode op))
    as [mode|] eqn:Hm; [|discriminate].
  unfold answered at 1.
  destruct (cancelText mode) eqn:Hmc; [discriminate|]. cbn [andThen].
  intros _. exists target, mode, (d0 :: drives').
  repeat split; try assumption; try discriminate.
  - now apply eqb_false_neq.
  - now apply eqb_false_neq.
Qed.

Lemma legacy_spawn_inversion (op : Operator) (exe : string) (args : list string) :
  Legacy.startWipeSequence n op = SpawnEngine exe args ->
  exists target mode,
    legacyAtConfirmation n op target mode
    /\ Legacy.confirmed n (confirmationLine op) (path_resolve n target) = true
    /\ exe = pythonExecutable n
    /\ args = [main_py n; "--path"; path_resolve n target; "--mode"; mode].
Proof.
  intros H.
  destruct (legacy_spawn_at_confirmation op exe args H) as (target & mode & Hat).
  exists target, mode. split; [exact Hat|].
  rewrite (legacy_sequence_at_confirmation op target mode Hat) in H.
  destruct (Legacy.confirmed n (confirmationLine op) (path_resolve n target)); [|discriminate].
  unfold Legacy.startWipeProcess in H. injection H as <- <-. auto.
Qed.

End LegacySequence.

(** The values of a list prompt over the modes of [index.js]. *)
Lemma current_modes (n : Node) (pick : nat) (mode : string) :
  Inquirer.list_prompt (Current.modeChoices n) pick = Some mode ->
  In mode ["secure"; "paranoid"; "legacy-fast"; "cancel"].
Proof.
  destruct pick as [|[|[|[|[|k]]]]]; cbn; intros [= <-]; auto 6.
Qed.

Lemma legacy_modes (n : Node) (pick : nat) (mode : string) :
  Inquirer.list_prompt (Legacy.modeChoices n) pick = Some mode ->
  In mode ["quick"; "secure"; "paranoid"; "cancel"].
Proof.
  destruct pick as [|[|[|[|[|k]]]]]; cbn; intros [= <-]; auto 6.
Qed.

Lemma current_filesystems (n : Node) (pick : nat) (fs : string) :
  Inquirer.list_prompt (Current.filesystemChoices n) pick = Some fs ->
  In fs (if isWindows n then ["NTFS"; "exFAT"; "cancel"]
         else ["ext4"; "exfat"; "vfat"; "cancel"]).
Proof.
  unfold Current.filesystemChoices, Current.fsChoices. destruct (isWindows n).
  - destruct pick as [|[|[|[|k]]]]; cbn; intros [= <-]; auto 6.
  - destruct pick as [|[|[|[|[|k]]]]]; cbn; intros [= <-]; auto 6.
Qed.

(** ** The filesystem *)

(** C8: whenever [index.js] starts the engine, the operator has picked an
    entry of the list of filesystems that is not Cancel, the value picked
    is one of the filesystems offered on the platform, and it is passed
    right after [--filesystem]. *)
Theorem filesystem_always_passed (n : Node) (op : Operator)
        (exe : string) (args : list string) :
  Current.startWipeSequence n op = SpawnEngine exe args ->
  exists target mode fs passesArg,
    Inquirer.list_prompt (Current.filesystemChoices n) (pickFilesystem op) = Some fs
    /\ In fs (if isWindows n then ["NTFS"; "exFAT"] else ["ext4"; "exfat"; "vfat"])
    /\ args = ([main_py n; "--path"; target; "--mode"; mode; "--filesystem"; fs]
               ++ passesArg)%list.
Proof.
  intros H.
  destruct (spawn_inversion n op exe args H)
    as (target & mode & fs & passesArg & Hat & _ & _ & _ & ->).
  exists target, mode, fs, passesArg.
  destruct Hat as (drives & _ & _ & _ & _ & _ & _ & Hf & Hfc & _).
  split; [exact Hf|]. split; [|reflexivity].
  pose proof (current_filesystems n _ _ Hf) as Hin.
  destruct (isWindows n); cbn in Hin |- *; intuition congruence.
Qed.

(** C8 at a Linux host run by root: a secure wipe of /dev/sdb1 to exFAT. *)
Lemma filesystem_always_passed_witness :
  Current.startWipeSequence (Sample.linux 0) (Sample.operator 1 0 1 [] "/dev/sdb1")
  = SpawnEngine "python3" ["/opt/scrubber/main.py"; "--path"; "/dev/sdb1";
                           "--mode"; "secure"; "--filesystem"; "exfat"]
  /\ exists target mode fs passesArg,
      Inquirer.list_prompt (Current.filesystemChoices (Sample.linux 0)) 1 = Some fs
      /\ In fs (if isWindows (Sample.linux 0)
                then ["NTFS"; "exFAT"] else ["ext4"; "exfat"; "vfat"])
      /\ ["/opt/scrubber/main.py"; "--path"; "/dev/sdb1";
          "--mode"; "secure"; "--filesystem"; "exfat"]
         = ([main_py (Sample.linux 0); "--path"; target; "--mode"; mode;
             "--filesystem"; fs] ++ passesArg)%list.
Proof.
  split.
  - reflexivity.
  - apply (filesystem_always_passed (Sample.linux 0)
             (Sample.operator 1 0 1 [] "/dev/sdb1") "python3").
    reflexivity.
Defined.


(** ** The final confirmation *)

(** C9: in both revisions the engine is started only when the typed line
    and the target picked are the same once normalized and put in lower
    case (1, 3), and from the final confirmation a line that is not the
    same sends the operator back to the main menu, two seconds later,
    without any engine (2, 4). *)
Theorem confirmation_gates_spawn (n : Node) :
  (forall op exe args,
      Current.startWipeSequence n op = SpawnEngine exe args ->
      exists target mode fs passesArg,
        atConfirmation n op target mode fs passesArg
        /\ args = main_py n :: engineArgs target mode fs passesArg
        /\ JsString.toLowerCase (JsString.trim (path_normalize n (confirmationLine op)))
           = JsString.toLowerCase (JsString.trim (path_normalize n target)))
  /\ (forall op target mode fs passesArg,
        atConfirmation n op target mode fs passesArg ->
        JsString.toLowerCase (JsString.trim (path_normalize n (confirmationLine op)))
        <> JsString.toLowerCase (JsString.trim (path_normalize n target)) ->
        Current.startWipeSequence n op = BackToMain (Some 2000))
  /\ (forall op exe args,
        Legacy.startWipeSequence n op = SpawnEngine exe args ->
        exists target mode,
          legacyAtConfirmation n op target mode
          /\ args = [main_py n; "--path"; path_resolve n target; "--mode"; mode]
          /\ JsString.toLowerCase
               (JsString.dropTrailingBackslash (path_normalize n (confirmationLine op)))
             = JsString.toLowerCase
                 (JsString.dropTrailingBackslash
                    (path_normalize n (path_resolve n target))))
  /\ (forall op target mode,
        legacyAtConfirmation n op target mode ->
        JsString.toLowerCase
          (JsString.dropTrailingBackslash (path_normalize n (confirmationLine op)))
        <> JsString.toLowerCase
             (JsString.dropTrailingBackslash (path_normalize n (path_resolve n target))) ->
        Legacy.startWipeSequence n op = BackToMain (Some 2000)).
Proof.
  split; [|split; [|split]].
  - intros op exe args H.
    destruct (spawn_inversion n op exe args H)
      as (target & mode & fs & passesArg & Hat & Hc & _ & _ & ->).
    exists target, mode, fs, passesArg. split; [exact Hat|]. split; [reflexivity|].
    unfold Current.confirmed in Hc. now apply String.eqb_eq in Hc.
  - intros op target mode fs passesArg Hat Hne.
    rewrite (sequence_at_confirmation n op target mode fs passesArg Hat).
    unfold Current.confirmed. now rewrite (neq_eqb_false _ _ Hne).
  - intros op exe args H.
    destruct (legacy_spawn_inversion n op exe args H)
      as (target & mode & Hat & Hc & _ & ->).
    exists target, mode. split; [exact Hat|]. split; [reflexivity|].
    unfold Legacy.confirmed in Hc. now apply String.eqb_eq in Hc.
  - intros op target mode Hat Hne.
    rewrite (legacy_sequence_at_confirmation n op target mode Hat).
    unfold Legacy.confirmed. now rewrite (neq_eqb_false _ _ Hne).
Qed.

(** The operator of the samples stands at the final confirmation of a
    secure wipe of /dev/sdb1 whatever the line typed there. *)
Lemma sample_at_confirmation (typed : string) :
  atConfirmation (Sample.linux 0) (Sample.operator 1 0 0 [] typed)
                 "/dev/sdb1" "secure" "ext4" [].
Proof.
  eexists. split; [reflexivity|].
  split; [discriminate|]. split; [reflexivity|]. split; [discriminate|].
  split; [reflexivity|]. split; [discriminate|]. split; [reflexivity|].
  split; [discriminate|]. right. split; [discriminate|reflexivity].
Defined.

(** C9 at a Linux host: the name of another device typed at the final
    confirmation leads back to the main menu. *)
Lemma confirmation_gates_spawn_witness :
  JsString.toLowerCase
    (JsString.trim (path_normalize (Sample.linux 0) "/dev/sdc1"))
  <> JsString.toLowerCase
       (JsString.trim (path_normalize (Sample.linux 0) "/dev/sdb1"))
  /\ Current.startWipeSequence (Sample.linux 0) (Sample.operator 1 0 0 [] "/dev/sdc1")
     = BackToMain (Some 2000).
Proof.
  assert (Hne : JsString.toLowerCase
                  (JsString.trim (path_normalize (Sample.linux 0) "/dev/sdc1"))
                <> JsString.toLowerCase
                     (JsString.trim (path_normalize (Sample.linux 0) "/dev/sdb1")))
    by discriminate.
  split.
  - exact Hne.
  - exact (proj1 (proj2 (confirmation_gates_spawn (Sample.linux 0)))
             (Sample.operator 1 0 0 [] "/dev/sdc1") "/dev/sdb1" "secure" "ext4" []
             (sample_at_confirmation "/dev/sdc1") Hne).
Defined.

(** ** Root *)

(** C10 as stated fails: where [process.getuid] is not defined, as on
    Android, the test for root is skipped, and [index.js] starts the engine
    for a user who is not root. *)
Lemma root_check_skipped_without_getuid :
  isWindows (Sample.android 10123) = false
  /\ uid (Sample.android 10123) <> 0
  /\ Current.startWipeSequence (Sample.android 10123)
       (Sample.operator 1 0 0 [] "/dev/sdb1")
     = SpawnEngine "python3" ["/opt/scrubber/main.py"; "--path"; "/dev/sdb1";
                              "--mode"; "secure"; "--filesystem"; "ext4"].
Proof.
  split; [reflexivity|]. split; [discriminate|reflexivity].
Qed.

(** C10, amended: on a platform other than Windows where [process.getuid]
    is defined, [index.js] starts the engine only for root (1); there a
    user who is not root and types the right confirmation is sent back to
    the main menu, without any engine (2); the drives listed and the
    prompts up to the final confirmation are the same for every user id
    (3, 4). *)
Theorem root_required_where_getuid (n : Node) :
  (forall op exe args,
      isWindows n = false -> getuid_defined n = true ->
      Current.startWipeSequence n op = SpawnEngine exe args ->
      uid n = 0)
  /\ (forall op target mode fs passesArg,
        isWindows n = false -> getuid_defined n = true -> uid n <> 0 ->
        atConfirmation n op target mode fs passesArg ->
        Current.confirmed n (confirmationLine op) target = true ->
        Current.startWipeSequence n op = BackToMain (Some 3000))
  /\ (forall u, Current.getDrives (withUid n u) = Current.getDrives n)
  /\ (forall u op target mode fs passesArg,
        atConfirmation n op target mode fs passesArg ->
        atConfirmation (withUid n u) op target mode fs passesArg).
Proof.
  split; [|split; [|split]].
  - intros op exe args Hw Hg H.
    destruct (spawn_inversion n op exe args H)
      as (target & mode & fs & passesArg & _ & _ & Hroot & _).
    unfold Current.lacksRoot in Hroot. rewrite Hw, Hg in Hroot. cbn in Hroot.
    apply negb_false_iff in Hroot. now apply Z.eqb_eq.
  - intros op target mode fs passesArg Hw Hg Hu Hat Hc.
    rewrite (sequence_at_confirmation n op target mode fs passesArg Hat), Hc.
    unfold Current.lacksRoot. rewrite Hw, Hg.
    destruct (Z.eqb_spec (uid n) 0); [contradiction|reflexivity].
  - intros u. destruct n. reflexivity.
  - intros u op target mode fs passesArg. destruct n. exact (fun H => H).
Qed.

(** C10, amended, at a Linux host run by user 1000: the right confirmation
    leads back to the main menu. *)
Lemma root_required_where_getuid_witness :
  uid (Sample.linux 1000) <> 0
  /\ Current.confirmed (Sample.linux 1000) "/dev/sdb1" "/dev/sdb1" = true
  /\ Current.startWipeSequence (Sample.linux 1000) (Sample.operator 1 0 0 [] "/dev/sdb1")
     = BackToMain (Some 3000).
Proof.
  assert (Hu : uid (Sample.linux 1000) <> 0) by discriminate.
  split; [exact Hu|]. split; [reflexivity|].
  refine (proj1 (proj2 (root_required_where_getuid (Sample.linux 1000)))
            (Sample.operator 1 0 0 [] "/dev/sdb1") "/dev/sdb1" "secure" "ext4" []
            eq_refl eq_refl Hu _ eq_refl).
  eexists. split; [reflexivity|].
  split; [discriminate|]. split; [reflexivity|]. split; [discriminate|].
  split; [reflexivity|]. split; [discriminate|]. split; [reflexivity|].
  split; [discriminate|]. right. split; [discriminate|reflexivity].
Defined.

(** ** The modes *)

(** C6 as stated fails: there is a mode among the four, 'quick', that no
    run of [index.js] passes to the engine as [--mode]. *)
Lemma quick_mode_not_offered :
  exists mode,
    In mode ["quick"; "secure"; "paranoid"; "legacy-fast"]
    /\ forall n op exe args,
        Current.startWipeSequence n op = SpawnEngine exe args ->
        forall target rest,
          args <> (main_py n :: "--path" :: target :: "--mode" :: mode :: rest).
Proof.
  exists "quick". split; [cbn; auto|].
  intros n op exe args H target rest Heq.
  destruct (spawn_inversion n op exe args H)
    as (target' & mode & fs & passesArg & Hat & _ & _ & _ & Hargs).
  rewrite Hargs in Heq. unfold engineArgs in Heq. cbn in Heq.
  injection Heq as _ Hmode _.
  destruct Hat as (drives & _ & _ & _ & _ & Hm & _).
  apply current_modes in Hm. subst mode. cbn in Hm.
  intuition discriminate.
Qed.

(** C6, amended: each revision offers three of the four modes and passes
    the one picked as [--mode]: [index.js] passes 'secure', 'paranoid' or
    'legacy-fast' (1), the older revision 'quick', 'secure' or 'paranoid'
    (2); and wherever a revision starts the engine at all, each of its
    three modes can be picked and is then the one passed (3, 4). *)
Theorem three_modes_per_revision (n : Node) :
  (forall op exe args,
      Current.startWipeSequence n op = SpawnEngine exe args ->
      exists target mode rest,
        args = (main_py n :: "--path" :: target :: "--mode" :: mode :: rest)
        /\ In mode ["secure"; "paranoid"; "legacy-fast"])
  /\ (forall op exe args,
        Legacy.startWipeSequence n op = SpawnEngine exe args ->
        exists target mode,
          args = [main_py n; "--path"; target; "--mode"; mode]
          /\ In mode ["quick"; "secure"; "paranoid"])
  /\ (forall op exe args mode,
        Current.startWipeSequence n op = SpawnEngine exe args ->
        In mode ["secure"; "paranoid"; "legacy-fast"] ->
        exists op' target rest,
          Current.startWipeSequence n op'
          = SpawnEngine exe (main_py n :: "--path" :: target :: "--mode" :: mode :: rest))
  /\ (forall op exe args mode,
        Legacy.startWipeSequence n op = SpawnEngine exe args ->
        In mode ["quick"; "secure"; "paranoid"] ->
        exists op' target,
          Legacy.startWipeSequence n op'
          = SpawnEngine exe [main_py n; "--path"; target; "--mode"; mode]).
Proof.
  split; [|split; [|split]].
  - intros op exe args H.
    destruct (spawn_inversion n op exe args H)
      as (target & mode & fs & passesArg & Hat & _ & _ & _ & ->).
    exists target, mode, ("--filesystem" :: fs :: passesArg). split; [reflexivity|].
    destruct Hat as (drives & _ & _ & _ & _ & Hm & Hmc & _).
    apply current_modes in Hm. cbn in Hm |- *. intuition congruence.
  - intros op exe args H.
    destruct (legacy_spawn_inversion n op exe args H)
      as (target & mode & Hat & _ & _ & ->).
    exists (path_resolve n target), mode. split; [reflexivity|].
    destruct Hat as (drives & _ & _ & _ & _ & Hm & Hmc).
    apply legacy_modes in Hm. cbn in Hm |- *. intuition congruence.
  - intros op exe args mode H Hin.
    destruct (spawn_inversion n op exe args H)
      as (target & mode0 & fs & passesArg & Hat & Hc & Hroot & -> & _).
    destruct Hat as (drives & Hd & Hne & Ht & Htc & _ & _ & Hf & Hfc & _).
    assert (Hpick : exists pick passesArg',
               Inquirer.list_prompt (Current.modeChoices n) pick = Some mode
               /\ mode <> "cancel"
               /\ passesFor n (withPasses (withMode op pick) [None]) mode passesArg').
    { cbn in Hin. destruct Hin as [<-|[<-|[<-|[]]]].
      - exists 0%nat, []. split; [reflexivity|]. split; [discriminate|].
        right. split; [discriminate|reflexivity].
      - exists 1%nat, ["--passes"; numberString n (Js.ofZ 3)].
        split; [reflexivity|]. split; [discriminate|].
        left. split; [reflexivity|]. exists (Js.ofZ 3). split; reflexivity.
      - exists 2%nat, []. split; [reflexivity|]. split; [discriminate|].
        right. split; [discriminate|reflexivity]. }
    destruct Hpick as (pick & passesArg' & Hm & Hmc & Hp).
    exists (withPasses (withMode op pick) [None]), target,
           ("--filesystem" :: fs :: passesArg').
    rewrite (sequence_at_confirmation n _ target mode fs passesArg').
    + cbn [confirmationLine withPasses withMode]. rewrite Hc, Hroot. reflexivity.
    + exists drives. repeat split; assumption.
  - intros op exe args mode H Hin.
    destruct (legacy_spawn_inversion n op exe args H)
      as (target & mode0 & Hat & Hc & -> & _).
    destruct Hat as (drives & Hd & Hne & Ht & Htc & _ & _).
    assert (Hpick : exists pick,
               Inquirer.list_prompt (Legacy.modeChoices n) pick = Some mode
               /\ mode <> "cancel").
    { cbn in Hin. destruct Hin as [<-|[<-|[<-|[]]]].
      - exists 0%nat. split; [reflexivity|discriminate].
      - exists 1%nat. split; [reflexivity|discriminate].
      - exists 2%nat. split; [reflexivity|discriminate]. }
    destruct Hpick as (pick & Hm & Hmc).
    exists (withMode op pick), (path_resolve n target).
    rewrite (legacy_sequence_at_confirmation n _ target mode).
    + cbn [confirmationLine withMode]. rewrite Hc. reflexivity.
    + exists drives. repeat split; assumption.
Qed.

(** C6, amended, at a Linux host run by root: from a secure wipe the
    operator can get a legacy-fast one. *)
Lemma three_modes_per_revision_witness :
  Current.startWipeSequence (Sample.linux 0) (Sample.operator 1 0 0 [] "/dev/sdb1")
  = SpawnEngine "python3" ["/opt/scrubber/main.py"; "--path"; "/dev/sdb1";
                           "--mode"; "secure"; "--filesystem"; "ext4"]
  /\ In "legacy-fast" ["secure"; "paranoid"; "legacy-fast"]
  /\ exists op' target rest,
      Current.startWipeSequence (Sample.linux 0) op'
      = SpawnEngine "python3"
          (main_py (Sample.linux 0) :: "--path" :: target :: "--mode"
           :: "legacy-fast" :: rest).
Proof.
  assert (Hin : In "legacy-fast" ["secure"; "paranoid"; "legacy-fast"])
    by (cbn; auto).
  split; [reflexivity|]. split; [exact Hin|].
  exact (proj1 (proj2 (proj2 (three_modes_per_revision (Sample.linux 0))))
           (Sample.operator 1 0 0 [] "/dev/sdb1") "python3" _ "legacy-fast"
           eq_refl Hin).
Defined.

(** ** System volumes *)

(** Whatever a list prompt answers is the value of an entry that is not
    disabled. *)
Lemma list_prompt_enabled {A} (es : list (Inquirer.entry A)) (pick : nat) (v : A) :
  Inquirer.list_prompt es pick = Some v ->
  exists c, In (Inquirer.Choice c) es
            /\ Inquirer.disabled c = None /\ Inquirer.value c = v.
Proof.
  unfold Inquirer.list_prompt.
  revert pick. induction es as [|e es IH]; intros pick; cbn.
  - destruct pick; discriminate.
  - destruct e as [c|].
    + destruct (Inquirer.disabled c) eqn:Hdis.
      * intros H. destruct (IH pick H) as (c' & Hin & Hd & Hv). exists c'. auto.
      * destruct pick as [|pick]; cbn.
        -- intros [= <-]. exists c. auto.
        -- intros H. destruct (IH pick H) as (c' & Hin & Hd & Hv). exists c'. auto.
    + intros H. destruct (IH pick H) as (c' & Hin & Hd & Hv). exists c'. auto.
Qed.

Lemma toChoice_disabled (n : Node) (item : Js.value) (c : Inquirer.choice Js.value) :
  Current.toChoice n item = Some c ->
  exists is_system,
    Js.get item "is_system" = Some is_system
    /\ Inquirer.disabled c
       = if Js.truthy is_system then Some "System volume (blocked)" else None.
Proof.
  unfold Current.toChoice. intros H.
  apply bind_Some in H. destruct H as (is_system & Hs & H).
  exists is_system. split; [exact Hs|].
  repeat (apply bind_Some in H; destruct H as (? & _ & H)).
  injection H as <-. reflexivity.
Qed.

Lemma mapM_In {A B} (f : A -> option B) (l : list A) (bs : list B) (b : B) :
  mapM f l = Some bs -> In b bs -> exists a, In a l /\ f a = Some b.
Proof.
  revert bs. induction l as [|a l IH]; intros bs; cbn.
  - intros [= <-] [].
  - intros H. apply bind_Some in H. destruct H as (b0 & Hb0 & H).
    apply bind_Some in H. destruct H as (bs0 & Hbs0 & H). injection H as <-.
    intros [<-|Hin].
    + exists a. auto.
    + destruct (IH bs0 Hbs0 Hin) as (a' & Ha' & Hf). exists a'. auto.
Qed.

(** C1: a request whose target resolves to a system volume is refused by
    the engine before any operation: the run ends in Failed with an exit
    code that is not 0, its only event is the error "refused: system
    volume", and nothing is written, whatever the mode, the passes, the
    device and the requests for cancellation (1). In the menus of [index.js] every choice of
    the inventory comes from one of its items and is disabled exactly when
    the [is_system] of that item is set (2), a list prompt never answers
    with a disabled choice (3), and so the target the operator stands with
    at the final confirmation is the value of a choice that is not
    disabled (4). *)
Theorem system_volume_refused :
  (forall d records requests req r,
      Engine.listDrives req = false ->
      Engine.resolve req records = Some r ->
      Engine.isSystemVolume r = true ->
      Engine.final (Engine.run d records requests req) = Engine.Failed
      /\ Engine.emitted (Engine.run d records requests req)
         = [Engine.Error "refused: system volume"]
      /\ (exists code, Engine.exitCode (Engine.run d records requests req) = Some code
                       /\ code <> 0)
      /\ Engine.written (Engine.run d records requests req) = 0
      /\ Engine.completedOperations (Engine.run d records requests req) = 0%nat
      /\ Engine.interrupted (Engine.run d records requests req) = false)
  /\ (forall n r drives c,
        Current.primary n r = Some drives ->
        In c drives ->
        exists item is_system,
          Current.toChoice n item = Some c
          /\ Js.get item "is_system" = Some is_system
          /\ Inquirer.disabled c
             = if Js.truthy is_system then Some "System volume (blocked)" else None)
  /\ (forall (entries : list (Inquirer.entry Js.value)) pick v,
        Inquirer.list_prompt entries pick = Some v ->
        exists c, In (Inquirer.Choice c) entries
                  /\ Inquirer.disabled c = None /\ Inquirer.value c = v)
  /\ (forall n op target mode fs passesArg,
        atConfirmation n op target mode fs passesArg ->
        exists drives c,
          snd (Current.getDrives n) = Resolved drives
          /\ In c drives
          /\ Inquirer.disabled c = None
          /\ Inquirer.value c = Js.Str target).
Proof.
  split; [|split; [|split]].
  - intros d records requests req r Hl Hr Hs.
    unfold Engine.run, Engine.validate. rewrite Hl, Hr, Hs. cbn.
    repeat split. exists 1. split; [reflexivity|discriminate].
  - intros n r drives c Hp Hin.
    destruct (primary_Some n r drives Hp)
      as (_ & stdout & line & payload & found & items & _ & _ & _ & _ & _ & Hm).
    destruct (mapM_In _ _ _ _ Hm Hin) as (item & _ & Hc).
    destruct (toChoice_disabled n item c Hc) as (is_system & Hs & Hd).
    exists item, is_system. auto.
  - intros entries pick v. apply list_prompt_enabled.
  - intros n op target mode fs passesArg (drives & Hd & _ & Ht & Htc & _).
    destruct (list_prompt_enabled _ _ _ Ht) as (c & Hin & Hdis & Hv).
    exists drives, c. split; [exact Hd|]. split; [|auto].
    unfold Current.targetChoices in Hin. apply in_app_or in Hin. destruct Hin as [Hin|Hin].
    + apply in_map_iff in Hin. destruct Hin as (c' & [= ->] & Hin). exact Hin.
    + exfalso. cbn in Hin. destruct Hin as [Hin|[Hin|[]]]; [discriminate|].
      injection Hin as <-. cbn in Hv. injection Hv as <-. now apply Htc.
Qed.

(** C1 at a request for a paranoid wipe of the system volume of a host with
    two drives. *)
Lemma system_volume_refused_witness :
  Engine.resolve Sample.systemRequest Sample.inventory = Some Sample.systemDisk
  /\ Engine.isSystemVolume Sample.systemDisk = true
  /\ Engine.emitted
       (Engine.run Sample.device Sample.inventory (fun _ => false) Sample.systemRequest)
     = [Engine.Error "refused: system volume"]
  /\ Engine.written
       (Engine.run Sample.device Sample.inventory (fun _ => false) Sample.systemRequest)
     = 0.
Proof.
  split; [reflexivity|]. split; [reflexivity|].
  pose proof (proj1 system_volume_refused Sample.device Sample.inventory (fun _ => false)
                Sample.systemRequest Sample.systemDisk eq_refl eq_refl eq_refl) as H.
  split; [exact (proj1 (proj2 H))|exact (proj1 (proj2 (proj2 (proj2 H))))].
Defined.

(** On a host whose engine lists a system volume and a USB stick, the
    first entry a list prompt can answer with is the stick, and the second
    is Cancel. *)
Remark system_volume_is_skipped :
  option_map (map (fun c => (Inquirer.value c, Inquirer.disabled c)))
             (match snd (Current.getDrives (Sample.linuxEngine 0)) with
              | Resolved drives => Some drives
              | Raised => None
              end)
  = Some [ (Js.Str "/dev/sda1", Some "System volume (blocked)");
           (Js.Str "/dev/sdb1", None) ]
  /\ Current.startWipeSequence (Sample.linuxEngine 0)
       (Sample.operator 0 0 0 [] "/dev/sdb1")
     = SpawnEngine "python3" ["/opt/scrubber/main.py"; "--path"; "/dev/sdb1";
                              "--mode"; "secure"; "--filesystem"; "ext4"]
  /\ Current.startWipeSequence (Sample.linuxEngine 0)
       (Sample.operator 1 0 0 [] "/dev/sda1")
     = BackToMain None.
Proof. repeat split. Qed.

(** In listing mode the engine emits the inventory in one event and
    performs no operation. *)
Remark listing_mode_writes_nothing (d : Engine.Device)
       (records : list Engine.DriveRecord) (requests : nat -> bool)
       (req : Engine.WipeRequest) :
  Engine.listDrives req = true ->
  Engine.emitted (Engine.run d records requests req) = [Engine.Drives records]
  /\ Engine.written (Engine.run d records requests req) = 0
  /\ Engine.exitCode (Engine.run d records requests req) = Some 0.
Proof. intros H. unfold Engine.run. rewrite H. repeat split. Qed.

(** ** Cancellation *)

(** The older wrapper sends SIGTERM on Ctrl+C while it holds an engine, and
    nothing otherwise. *)
Lemma onStdinData_signals (pythonProcess : bool) (key : string) :
  snd (Legacy.onStdinData pythonProcess key)
  = if String.eqb key Legacy.ctrlC && pythonProcess then [SIGTERM] else [].
Proof.
  unfold Legacy.onStdinData.
  destruct (String.eqb key Legacy.ctrlC), pythonProcess; reflexivity.
Qed.

(** C4 at its failing input: the [stdin] listener of the older revision
    calls [kill('SIGTERM')] when it reads a chunk that is exactly Ctrl+C
    while it holds an engine, and asks for nothing else (1); it never asks
    for SIGKILL (2). On Windows that call ends the engine forcefully and
    at once, inside whatever operation it is in (3); on the other
    platforms it delivers SIGTERM to the engine (4). *)
Theorem ctrl_c_ends_the_engine_on_windows (n : Node) :
  (forall pythonProcess key,
      snd (Legacy.onStdinData pythonProcess key)
      = if String.eqb key Legacy.ctrlC && pythonProcess then [SIGTERM] else [])
  /\ (forall pythonProcess key,
        ~ In SIGKILL (snd (Legacy.onStdinData pythonProcess key)))
  /\ (isWindows n = true ->
      map (kill n) (snd (Legacy.onStdinData true Legacy.ctrlC)) = [EndedAtOnce])
  /\ (isWindows n = false ->
      map (kill n) (snd (Legacy.onStdinData true Legacy.ctrlC))
      = [Delivered SIGTERM]).
Proof.
  split; [exact onStdinData_signals|]. split; [|split].
  - intros pythonProcess key. rewrite onStdinData_signals.
    destruct (String.eqb key Legacy.ctrlC && pythonProcess); cbn; intuition discriminate.
  - intros Hw. rewrite onStdinData_signals. cbn [String.eqb andb map].
    change (String.eqb Legacy.ctrlC Legacy.ctrlC) with true. cbn [andb map].
    unfold kill. now rewrite Hw.
  - intros Hw. rewrite onStdinData_signals.
    change (String.eqb Legacy.ctrlC Legacy.ctrlC) with true. cbn [andb map].
    unfold kill. now rewrite Hw.
Qed.

(** C4 on a Windows host: Ctrl+C during a wipe ends the engine at once. *)
Lemma ctrl_c_ends_the_engine_on_windows_witness :
  isWindows Sample.windows = true
  /\ map (kill Sample.windows) (snd (Legacy.onStdinData true Legacy.ctrlC))
     = [EndedAtOnce].
Proof.
  split; [reflexivity|].
  exact (proj1 (proj2 (proj2 (ctrl_c_ends_the_engine_on_windows Sample.windows)))
               eq_refl).
Defined.

(* ------------------------------------------------------------------ *)
(** * Further properties of index.js *)

(** ** The listings of getDrives *)

Lemma append_not_empty (a : string) (c : ascii) : (a ++ String c "")%string <> "".
Proof. destruct a; discriminate. Qed.

Lemma backslash_not_cancel (caption : string) :
  (caption ++ String JsString.backslash "")%string <> "cancel".
Proof.
  destruct caption as [|c1 [|c2 [|c3 [|c4 [|c5 [|c6 [|c7 rest]]]]]]];
    cbn; discriminate.
Qed.

Lemma windowsLine_value (n : Node) (line : string) (c : Inquirer.choice Js.value) :
  In c (Current.windowsLine n line) ->
  exists caption,
    Inquirer.value c = Js.Str (caption ++ String JsString.backslash "").
Proof.
  unfold Current.windowsLine.
  destruct (List.length _ <? 2)%nat; [intros []|].
  destruct (negb _ && negb _); [|intros []].
  intros [<-|[]]. eexists. reflexivity.
Qed.

Lemma windowsLine_choice (n : Node) (line : string) (c : Inquirer.choice Js.value) :
  In c (Current.windowsLine n line) ->
  Inquirer.disabled c = None /\ exists s, Inquirer.value c = Js.Str s /\ s <> "".
Proof.
  unfold Current.windowsLine.
  destruct (List.length _ <? 2)%nat; [intros []|].
  destruct (negb _ && negb _); [|intros []].
  intros [<-|[]]. split; [reflexivity|].
  eexists. split; [reflexivity|]. apply append_not_empty.
Qed.

Lemma posixLine_choice (n : Node) (line : string) (c : Inquirer.choice Js.value) :
  In c (Current.posixLine n line) ->
  Inquirer.disabled c = None /\ exists s, Inquirer.value c = Js.Str s /\ s <> "".
Proof.
  unfold Current.posixLine.
  destruct (String.eqb_spec (nth 0 (JsString.split_ws (JsString.trim line)) "") "")
    as [He|Hne]; [intros []|].
  cbn [negb andb].
  destruct (negb _); [|intros []].
  intros [<-|[]]. split; [reflexivity|].
  eexists. split; [reflexivity|exact Hne].
Qed.

Lemma fallback_choice (n : Node) (r : exec_result)
      (drives : list (Inquirer.choice Js.value)) (c : Inquirer.choice Js.value) :
  Current.fallback n r = Resolved drives ->
  In c drives ->
  Inquirer.disabled c = None /\ exists s, Inquirer.value c = Js.Str s /\ s <> "".
Proof.
  unfold Current.fallback. destruct r as [|stdout2].
  - intros [= <-] [].
  - intros [= <-]. destruct (isWindows n); intros Hin;
      apply in_flat_map in Hin; destruct Hin as (line & _ & Hin).
    + exact (windowsLine_choice n line c Hin).
    + exact (posixLine_choice n line c Hin).
Qed.

Lemma realChoices_app {A} (a b : list (Inquirer.entry A)) :
  Inquirer.realChoices (a ++ b) = (Inquirer.realChoices a ++ Inquirer.realChoices b)%list.
Proof.
  induction a as [|[c|] a IH]; cbn; [reflexivity| |exact IH].
  destruct (Inquirer.disabled c); [exact IH|]. cbn. now rewrite IH.
Qed.

Lemma realChoices_enabled {A} (drives : list (Inquirer.choice A)) :
  (forall c, In c drives -> Inquirer.disabled c = None) ->
  Inquirer.realChoices (map Inquirer.Choice drives) = drives.
Proof.
  induction drives as [|c drives IH]; intros H; cbn; [reflexivity|].
  rewrite (H c (or_introl eq_refl)). rewrite IH; [reflexivity|].
  intros c' Hin. apply H. now right.
Qed.

(** X1: the fallback listing of [getDrives] marks no drive as a system
    volume: every choice is enabled and carries a text that is not empty
    (1). The target prompt answers with the value of the drive the
    operator points at (2), and that drive becomes the target of the
    sequence unless its value is the text 'cancel' (3). A drive listed
    under the value 'cancel' is taken for the Cancel entry: picking it
    leads back to the main menu (4). On Windows no drive is listed under
    that value (5). *)
Theorem fallback_blocks_nothing (n : Node) (r : exec_result)
        (drives : list (Inquirer.choice Js.value)) :
  Current.fallback n r = Resolved drives ->
  (forall c, In c drives ->
             Inquirer.disabled c = None
             /\ exists s, Inquirer.value c = Js.Str s /\ s <> "")
  /\ (forall i c, nth_error drives i = Some c ->
                  Inquirer.list_prompt (Current.targetChoices drives) i
                  = Some (Inquirer.value c))
  /\ (forall i c, nth_error drives i = Some c ->
                  Inquirer.value c <> Js.Str "cancel" ->
                  answered cancelValue (BackToMain None)
                           (Inquirer.list_prompt (Current.targetChoices drives) i)
                  = Next (Inquirer.value c))
  /\ (forall op c,
        Current.primary n (exec n (Current.cmd n)) = None ->
        r = exec n (Current.fallbackCmd n) ->
        nth_error drives (pickTarget op) = Some c ->
        Inquirer.value c = Js.Str "cancel" ->
        Current.startWipeSequence n op = BackToMain None)
  /\ (isWindows n = true ->
      forall c, In c drives -> Inquirer.value c <> Js.Str "cancel").
Proof.
  intros Hf.
  assert (Hpick : forall i c, nth_error drives i = Some c ->
                    Inquirer.list_prompt (Current.targetChoices drives) i
                    = Some (Inquirer.value c)).
  { intros i c Hi.
    unfold Inquirer.list_prompt, Current.targetChoices.
    rewrite realChoices_app, realChoices_enabled.
    + rewrite nth_error_app1; [now rewrite Hi|].
      apply nth_error_Some. now rewrite Hi.
    + intros c' Hin. apply (fallback_choice n r drives c' Hf Hin). }
  split; [|split; [|split; [|split]]].
  - intros c. apply (fallback_choice n r drives c Hf).
  - exact Hpick.
  - intros i c Hi Hv. rewrite (Hpick i c Hi). cbn [answered]. unfold cancelValue.
    destruct (fallback_choice n r drives c Hf (nth_error_In _ _ Hi))
      as (_ & t & Ht & _).
    rewrite Ht in *. cbn [Js.is_str].
    destruct (String.eqb_spec t "cancel") as [->|]; [contradiction|reflexivity].
  - intros op c Hprim -> Hi Hv.
    unfold Current.startWipeSequence, Current.getDrives.
    rewrite Hprim. cbn [snd]. rewrite Hf.
    destruct drives as [|d0 drives']; [destruct (pickTarget op); discriminate|].
    cbn [List.length Nat.eqb].
    rewrite (Hpick _ c Hi), Hv. reflexivity.
  - intros Hw c Hin. unfold Current.fallback in Hf.
    destruct r as [|stdout2]; [injection Hf as <-; destruct Hin|].
    rewrite Hw in Hf. injection Hf as <-.
    apply in_flat_map in Hin. destruct Hin as (line & _ & Hin).
    destruct (windowsLine_value n line c Hin) as (caption & ->).
    intros [= H]. now apply backslash_not_cancel in H.
Qed.

(** X1 at a Linux host on which only [lsblk] works: the volume mounted on
    / is the first entry the operator can pick; and at a host on which
    [lsblk] names a device by the word cancel: picking that device leads
    back to the main menu. *)
Lemma fallback_blocks_nothing_witness :
  Current.fallback (Sample.linux 0) (ExecOutput Sample.lsblk)
  = Resolved Listing.lsblkDrives
  /\ answered cancelValue (BackToMain None)
              (Inquirer.list_prompt (Current.targetChoices Listing.lsblkDrives) 0)
     = Next (Js.Str "/dev/sda1")
  /\ Current.fallback Listing.cancelHost
       (exec Listing.cancelHost (Current.fallbackCmd Listing.cancelHost))
     = Resolved [Listing.cancelDrive]
  /\ Current.startWipeSequence Listing.cancelHost
       (Sample.operator 0 0 0 [] "cancel")
     = BackToMain None.
Proof.
  assert (H : Current.fallback (Sample.linux 0) (ExecOutput Sample.lsblk)
              = Resolved Listing.lsblkDrives) by (vm_compute; reflexivity).
  assert (H' : Current.fallback Listing.cancelHost
                 (exec Listing.cancelHost (Current.fallbackCmd Listing.cancelHost))
               = Resolved [Listing.cancelDrive]) by (vm_compute; reflexivity).
  split; [exact H|]. split; [|split; [exact H'|]].
  - refine (proj1 (proj2 (proj2 (fallback_blocks_nothing (Sample.linux 0)
                                   (ExecOutput Sample.lsblk) Listing.lsblkDrives H)))
                  0%nat Listing.rootVolume eq_refl _).
    discriminate.
  - exact (proj1 (proj2 (proj2 (proj2
             (fallback_blocks_nothing Listing.cancelHost _ [Listing.cancelDrive] H'))))
             (Sample.operator 0 0 0 [] "cancel") Listing.cancelDrive
             eq_refl eq_refl eq_refl eq_refl).
Defined.

Lemma find_none_app {A} (f : A -> bool) (a b : list A) :
  Forall (fun x => f x = false) a -> find f (a ++ b) = find f b.
Proof.
  induction 1 as [|x a Hx _ IH]; cbn; [reflexivity|]. now rewrite Hx.
Qed.

Lemma find_rev_last {A} (f : A -> bool) (before after : list A) (l : A) :
  f l = true ->
  Forall (fun x => f x = false) after ->
  find f (rev (before ++ l :: after)) = Some l.
Proof.
  intros Hl Hafter.
  rewrite rev_app_distr. cbn [rev]. rewrite <- app_assoc.
  rewrite find_none_app.
  - cbn. now rewrite Hl.
  - apply Forall_rev. exact Hafter.
Qed.

(** X2: when the engine prints several records of type 'drives', the
    primary enumeration reads the last one: whatever stands on the lines
    before it, other records of type 'drives' included, does not change the
    drives listed. *)
Theorem last_drives_record_wins (n : Node) (stdout stdout' : string)
        (before before' after : list string) (l : string) :
  JsString.split JsString.newline (JsString.trim stdout) = (before ++ l :: after)%list ->
  JsString.split JsString.newline (JsString.trim stdout') = (before' ++ l :: after)%list ->
  Current.isDrivesLine n l = true ->
  Forall (fun x => Current.isDrivesLine n x = false) after ->
  find (Current.isDrivesLine n)
       (rev (JsString.split JsString.newline (JsString.trim stdout))) = Some l
  /\ Current.primary n (ExecOutput stdout) = Current.primary n (ExecOutput stdout').
Proof.
  intros H H' Hl Hafter.
  assert (Hf : find (Current.isDrivesLine n) (rev (before ++ l :: after)) = Some l)
    by now apply find_rev_last.
  assert (Hf' : find (Current.isDrivesLine n) (rev (before' ++ l :: after)) = Some l)
    by now apply find_rev_last.
  split.
  - now rewrite H.
  - unfold Current.primary. now rewrite H, H', Hf, Hf'.
Qed.

(** X2 at an engine that scans twice: the drives are those of the second
    record, as if the first had not been printed. *)
Lemma last_drives_record_wins_witness :
  Current.isDrivesLine (Listing.printing Listing.twoScans) Sample.drivesLine = true
  /\ Current.primary (Listing.printing Listing.twoScans) (ExecOutput Listing.twoScans)
     = Current.primary (Listing.printing Listing.twoScans) (ExecOutput Listing.oneScan).
Proof.
  assert (Hl : Current.isDrivesLine (Listing.printing Listing.twoScans)
                 Sample.drivesLine = true) by (vm_compute; reflexivity).
  split; [exact Hl|].
  refine (proj2 (last_drives_record_wins (Listing.printing Listing.twoScans)
                   Listing.twoScans Listing.oneScan
                   [Listing.staleLine] [] ["done"] Sample.drivesLine _ _ Hl _)).
  - vm_compute; reflexivity.
  - vm_compute; reflexivity.
  - constructor; [vm_compute; reflexivity|constructor].
Defined.

Lemma mapM_Forall2 {A B} (f : A -> option B) (l : list A) (bs : list B) :
  mapM f l = Some bs -> Forall2 (fun a b => f a = Some b) l bs.
Proof.
  revert bs. induction l as [|a l IH]; intros bs; cbn.
  - intros [= <-]. constructor.
  - intros H. apply bind_Some in H. destruct H as (b & Hb & H).
    apply bind_Some in H. destruct H as (bs0 & Hbs & H). injection H as <-.
    constructor; [exact Hb|now apply IH].
Qed.

Lemma mapM_None {A B} (f : A -> option B) (l : list A) (a : A) :
  In a l -> f a = None -> mapM f l = None.
Proof.
  induction l as [|x l IH]; cbn; [intros []|].
  intros [->|Hin] Hf.
  - now rewrite Hf.
  - destruct (f x); cbn; [|reflexivity]. now rewrite (IH Hin Hf).
Qed.

Lemma toChoice_value (n : Node) (item : Js.value) (c : Inquirer.choice Js.value) :
  Current.toChoice n item = Some c ->
  Js.get item (if isWindows n then "path" else "device") = Some (Inquirer.value c).
Proof.
  unfold Current.toChoice. intros H.
  do 7 (apply bind_Some in H; destruct H as (? & _ & H)).
  apply bind_Some in H. destruct H as (dpath & Hd & H).
  do 2 (apply bind_Some in H; destruct H as (? & _ & H)).
  injection H as <-. exact Hd.
Qed.

(** X3: the primary enumeration makes one choice of every item of the
    record it reads, in the order of the record, and the value of a choice
    is the [device] of its item ([path] on Windows), whatever that is. *)
Theorem inventory_kept_in_order (n : Node) (r : exec_result)
        (drives : list (Inquirer.choice Js.value)) :
  Current.primary n r = Some drives ->
  exists stdout line payload found items,
    r = ExecOutput stdout
    /\ find (Current.isDrivesLine n)
            (rev (JsString.split JsString.newline (JsString.trim stdout))) = Some line
    /\ JSON_parse n line = Some payload
    /\ Js.get payload "items" = Some found
    /\ Js.or_else found (Js.Arr []) = Js.Arr items
    /\ List.length drives = List.length items
    /\ Forall2 (fun item c =>
                  Js.get item (if isWindows n then "path" else "device")
                  = Some (Inquirer.value c))
               items drives.
Proof.
  intros H.
  destruct (primary_Some n r drives H)
    as (_ & stdout & line & payload & found & items & Hr & Hf & Hp & Hi & Ho & Hm).
  exists stdout, line, payload, found, items.
  repeat (split; [assumption|]).
  apply mapM_Forall2 in Hm. split.
  - symmetry. exact (Forall2_length Hm).
  - eapply Forall2_impl; [|exact Hm]. intros item c. apply toChoice_value.
Qed.

(** X3 at a host whose engine lists a system volume and a USB stick. *)
Lemma inventory_kept_in_order_witness :
  exists drives,
    Current.primary (Sample.linuxEngine 0)
                    (exec (Sample.linuxEngine 0) (Current.cmd (Sample.linuxEngine 0)))
    = Some drives
    /\ map Inquirer.value drives = [Js.Str "/dev/sda1"; Js.Str "/dev/sdb1"]
    /\ exists stdout line payload found items,
        exec (Sample.linuxEngine 0) (Current.cmd (Sample.linuxEngine 0))
        = ExecOutput stdout
        /\ find (Current.isDrivesLine (Sample.linuxEngine 0))
                (rev (JsString.split JsString.newline (JsString.trim stdout))) = Some line
        /\ JSON_parse (Sample.linuxEngine 0) line = Some payload
        /\ Js.get payload "items" = Some found
        /\ Js.or_else found (Js.Arr []) = Js.Arr items
        /\ List.length drives = List.length items
        /\ Forall2 (fun item c =>
                      Js.get item (if isWindows (Sample.linuxEngine 0)
                                   then "path" else "device")
                      = Some (Inquirer.value c))
                   items drives.
Proof.
  eexists. split; [vm_compute; reflexivity|]. split; [reflexivity|].
  apply (inventory_kept_in_order (Sample.linuxEngine 0)).
  vm_compute; reflexivity.
Defined.

(** X4: one item the primary enumeration cannot read, such as [null],
    discards the whole record: no drive of it is listed, and the fallback
    listing, which blocks no system volume, is shown instead. *)
Theorem unreadable_item_discards_inventory (n : Node) :
  Current.toChoice n Js.Null = None
  /\ (forall stdout line payload items item,
        exec n (Current.cmd n) = ExecOutput stdout ->
        find (Current.isDrivesLine n)
             (rev (JsString.split JsString.newline (JsString.trim stdout))) = Some line ->
        JSON_parse n line = Some payload ->
        Js.get payload "items" = Some (Js.Arr items) ->
        In item items ->
        Current.toChoice n item = None ->
        Current.getDrives n
        = ([Current.cmd n; Current.fallbackCmd n],
           Current.fallback n (exec n (Current.fallbackCmd n)))).
Proof.
  split; [reflexivity|].
  intros stdout line payload items item He Hf Hp Hi Hin Hnone.
  unfold Current.getDrives.
  assert (Hprim : Current.primary n (exec n (Current.cmd n)) = None).
  { rewrite He. unfold Current.primary. rewrite Hf.
    destruct (String.eqb line ""); [reflexivity|].
    cbn [bind]. rewrite Hp. cbn [bind]. rewrite Hi.
    cbn [bind Js.or_else Js.truthy].
    now rewrite (mapM_None _ _ _ Hin Hnone). }
  now rewrite Hprim.
Qed.

(** X4 at a host whose engine lists the system volume and [null]: the
    listing of [lsblk] is shown, with the system volume open to choice. *)
Lemma unreadable_item_discards_inventory_witness :
  snd (Current.getDrives (Listing.printing Listing.brokenLine))
  = Resolved Listing.lsblkDrives.
Proof.
  rewrite (proj2 (unreadable_item_discards_inventory
                    (Listing.printing Listing.brokenLine))
             Listing.brokenLine Listing.brokenLine Listing.brokenPayload
             [ Js.Obj [ ("device", Js.Str "/dev/sda1"); ("is_system", Js.Boolean true) ];
               Js.Null ]
             Js.Null).
  - vm_compute; reflexivity.
  - vm_compute; reflexivity.
  - vm_compute; reflexivity.
  - reflexivity.
  - reflexivity.
  - right; left; reflexivity.
  - reflexivity.
Defined.

(** ** The header and the log box of startWipeProcess *)

Lemma indexOf_absent (x : string) (args : list string) :
  ~ In x args -> Screen.indexOf x args = -1.
Proof.
  induction args as [|a args IH]; cbn; [reflexivity|].
  intros H. destruct (String.eqb_spec a x) as [->|_].
  - exfalso. apply H. now left.
  - rewrite IH; [reflexivity|]. intros Hin. apply H. now right.
Qed.

(** X5: the header of [startWipeProcess] reads the target and the mode
    back out of the arguments [startWipeSequence] has built: the target
    shown is always the one passed (1) and the mode shown is the one passed
    unless the target is the text '--mode' itself, which is then shown as
    the mode (2, 3); from arguments without '--path' the first argument is
    shown as the target (4). *)
Theorem header_reads_arguments_back (target mode fs : string) (passesArg : list string) :
  Screen.targetPath (engineArgs target mode fs passesArg) = Some target
  /\ (target <> "--mode" ->
      Screen.mode (engineArgs target mode fs passesArg) = Some mode)
  /\ (target = "--mode" ->
      Screen.mode (engineArgs target mode fs passesArg) = Some "--mode")
  /\ (forall args, ~ In "--path" args ->
                   Screen.targetPath args = nth_error args 0).
Proof.
  split; [reflexivity|]. split; [|split].
  - intros Hne. unfold Screen.mode, engineArgs. cbn [Screen.indexOf app].
    cbn [String.eqb Ascii.eqb Bool.eqb].
    rewrite (neq_eqb_false _ _ Hne). reflexivity.
  - intros ->. reflexivity.
  - intros args H. unfold Screen.targetPath. now rewrite (indexOf_absent _ _ H).
Qed.

(** X5 at the arguments of a secure wipe of /dev/sdb1. *)
Lemma header_reads_arguments_back_witness :
  "/dev/sdb1" <> "--mode"
  /\ Screen.mode (engineArgs "/dev/sdb1" "secure" "ext4" []) = Some "secure".
Proof.
  assert (H : "/dev/sdb1" <> "--mode") by discriminate.
  split; [exact H|].
  exact (proj1 (proj2 (header_reads_arguments_back "/dev/sdb1" "secure" "ext4" [])) H).
Defined.

Lemma length_append (a b : string) :
  String.length (a ++ b) = (String.length a + String.length b)%nat.
Proof. induction a as [|c a IH]; cbn; [reflexivity|now rewrite IH]. Qed.

Lemma length_blanks (k : nat) : String.length (String.concat "" (repeat " " k)) = k.
Proof.
  induction k as [|k IH]; [reflexivity|].
  cbn [repeat]. destruct k as [|k]; [reflexivity|].
  change (String.concat "" (" " :: repeat " " (S k)))
    with (" " ++ "" ++ String.concat "" (repeat " " (S k)))%string.
  cbn [append String.length]. now rewrite IH.
Qed.

Lemma prefix_append (a b : string) : String.prefix a (a ++ b) = true.
Proof.
  induction a as [|c a IH]; cbn.
  - now destruct b.
  - destruct (ascii_dec c c); [exact IH|contradiction].
Qed.

(** X6: the log box of [renderUI] always has ten rows (1); they show the
    newest ten messages, oldest first, and all of them while there are no
    more than ten (2, 3), followed by blank rows (4); a message is padded
    to 70 characters and never cut, so that a longer one makes its row
    longer (5). *)
Theorem log_box_shows_newest_ten (n : Node) (logMessages : list string) :
  List.length (Screen.boxRows n logMessages) = 10%nat
  /\ (exists older,
        logMessages = (older ++ Screen.displayedLogs logMessages)%list
        /\ List.length (Screen.displayedLogs logMessages)
           = Nat.min 10 (List.length logMessages))
  /\ (forall i l,
        nth_error (Screen.displayedLogs logMessages) i = Some l ->
        nth_error (Screen.boxRows n logMessages) i
        = Some (chalk n "yellow" "| " ++ Screen.padEnd 70 l ++ chalk n "yellow" " |"))
  /\ (forall i,
        (List.length logMessages <= i < 10)%nat ->
        nth_error (Screen.boxRows n logMessages) i
        = Some (chalk n "yellow" "| " ++ Screen.padEnd 70 "" ++ chalk n "yellow" " |"))
  /\ (forall l,
        String.length (Screen.padEnd 70 l) = Nat.max 70 (String.length l)
        /\ String.prefix l (Screen.padEnd 70 l) = true).
Proof.
  assert (Hlen : List.length (Screen.displayedLogs logMessages)
                 = Nat.min 10 (List.length logMessages)).
  { unfold Screen.displayedLogs, Screen.logBoxHeight. rewrite length_skipn. lia. }
  assert (Hrow : forall i, (i < 10)%nat ->
            nth_error (Screen.boxRows n logMessages) i
            = Some (chalk n "yellow" "| "
                    ++ Screen.padEnd 70
                         (Screen.logLine (Screen.displayedLogs logMessages) i)
                    ++ chalk n "yellow" " |")).
  { intros i Hi. unfold Screen.boxRows.
    rewrite nth_error_map, nth_error_nth' with (d := 0%nat)
      by (rewrite length_seq; exact Hi).
    rewrite seq_nth by exact Hi. reflexivity. }
  split; [unfold Screen.boxRows; now rewrite length_map, length_seq|].
  split; [|split; [|split]].
  - exists (firstn (List.length logMessages - Screen.logBoxHeight) logMessages).
    split; [|exact Hlen].
    unfold Screen.displayedLogs. now rewrite firstn_skipn.
  - intros i l Hi.
    assert (Hlt : (i < 10)%nat).
    { assert (i < List.length (Screen.displayedLogs logMessages))%nat
        by (apply nth_error_Some; now rewrite Hi).
      lia. }
    rewrite (Hrow i Hlt). unfold Screen.logLine. now rewrite Hi.
  - intros i [Hge Hlt]. rewrite (Hrow i Hlt). unfold Screen.logLine.
    assert (Hn : nth_error (Screen.displayedLogs logMessages) i = None)
      by (apply nth_error_None; lia).
    now rewrite Hn.
  - intros l. unfold Screen.padEnd. split.
    + rewrite length_append, length_blanks. lia.
    + apply prefix_append.
Qed.

(** X6 at twelve messages: the first row shows the third message. *)
Lemma log_box_shows_newest_ten_witness :
  nth_error (Screen.displayedLogs
               ["m1"; "m2"; "m3"; "m4"; "m5"; "m6"; "m7"; "m8"; "m9"; "m10"; "m11"; "m12"])
            0 = Some "m3"
  /\ nth_error
       (Screen.boxRows Sample.reporting
          ["m1"; "m2"; "m3"; "m4"; "m5"; "m6"; "m7"; "m8"; "m9"; "m10"; "m11"; "m12"])
       0
     = Some (chalk Sample.reporting "yellow" "| " ++ Screen.padEnd 70 "m3"
             ++ chalk Sample.reporting "yellow" " |").
Proof.
  split; [reflexivity|].
  exact (proj1 (proj2 (proj2 (log_box_shows_newest_ten Sample.reporting
           ["m1"; "m2"; "m3"; "m4"; "m5"; "m6"; "m7"; "m8"; "m9"; "m10"; "m11"; "m12"])))
           0%nat "m3" eq_refl).
Defined.

(** X7: the spinner of [startWipeProcess] never reads past its four
    frames: after any number of ticks of the interval the index is that
    number modulo 4, so the frame shown is defined and the first frame
    comes back every four ticks. *)
Theorem spinner_stays_on_its_frames (k : nat) :
  Nat.iter k Screen.tick 0%nat = (k mod 4)%nat
  /\ (exists frame, Screen.spinner (Nat.iter k Screen.tick 0%nat) = Some frame)
  /\ Nat.iter (k + 4) Screen.tick 0%nat = Nat.iter k Screen.tick 0%nat.
Proof.
  assert (H : forall j, Nat.iter j Screen.tick 0%nat = (j mod 4)%nat).
  { induction j as [|j IH]; [reflexivity|].
    change (Nat.iter (S j) Screen.tick 0%nat)
      with (Screen.tick (Nat.iter j Screen.tick 0%nat)).
    rewrite IH. unfold Screen.tick.
    change (List.length Screen.spinnerFrames) with 4%nat.
    rewrite Nat.Div0.add_mod_idemp_l. f_equal. lia. }
  split; [apply H|]. split.
  - rewrite H.
    assert (Hlt : (k mod 4 < 4)%nat) by (apply Nat.mod_upper_bound; discriminate).
    unfold Screen.spinner.
    destruct (nth_error Screen.spinnerFrames (k mod 4)) as [frame|] eqn:E; [eauto|].
    apply nth_error_None in E.
    change (List.length Screen.spinnerFrames) with 4%nat in E. lia.
  - rewrite !H. replace (k + 4)%nat with (k + 1 * 4)%nat by lia.
    now rewrite Nat.Div0.mod_add.
Qed.

(** ** The log and the phase of startWipeProcess *)

Lemma get_defined (j : Js.value) (k k' : string) (v : Js.value) :
  Js.get j k = Some v -> exists w, Js.get j k' = Some w.
Proof. destruct j; cbn; intros H; try discriminate; eauto. Qed.

Lemma processLine_progress (n : Node) (line : string) :
  isProgress n line = true ->
  exists record phase,
    JSON_parse n line = Some record
    /\ Js.get record "phase" = Some phase
    /\ forall st, Current.processLine n line st = Some (Current.setPhase phase st).
Proof.
  unfold isProgress.
  destruct (JSON_parse n line) as [record|] eqn:Hp; [|discriminate].
  destruct (Js.get record "type") as [type|] eqn:Ht; [|discriminate].
  intros Hprog.
  destruct (get_defined record "type" "phase" type Ht) as (phase & Hph).
  exists record, phase. split; [reflexivity|]. split; [exact Hph|].
  intros st. unfold Current.processLine, Current.tryLine, bind.
  now rewrite Hp, Ht, Hprog, Hph.
Qed.

Lemma processLine_other (n : Node) (line : string) :
  isProgress n line = false ->
  exists e, forall st, Current.processLine n line st = Some (Current.pushLog e st).
Proof.
  intros Hnot.
  assert (Hraw : forall st,
             Current.addLog n (Js.Str line) (Js.Str "raw") st
             = Some (Current.pushLog {| Current.label := Current.LogPrefix;
                                        Current.message := line |} st)).
  { intros st. now rewrite addLog_pushes, raw_entry. }
  unfold isProgress in Hnot. unfold Current.processLine, Current.tryLine, bind.
  destruct (JSON_parse n line) as [record|]; [|now eexists].
  destruct (Js.get record "type") as [type|]; [|now eexists].
  rewrite Hnot.
  destruct (Js.get record "message") as [message|]; [|now eexists].
  destruct (Current.entryOf n message type) as [e|] eqn:He.
  - exists e. intros st. now rewrite addLog_pushes, He.
  - eexists. intros st. rewrite addLog_pushes, He. cbn [option_map]. apply Hraw.
Qed.

Lemma forEach_log (n : Node) (lines : list string) (st st' : Current.ui) :
  Current.forEach n lines st = Some st' ->
  exists added,
    Current.logMessages st' = (Current.logMessages st ++ added)%list
    /\ List.length added
       = List.length (filter (fun l => negb (isProgress n l)) lines).
Proof.
  revert st. induction lines as [|l lines IH]; intros st; cbn [Current.forEach].
  - intros [= <-]. exists []. now rewrite app_nil_r.
  - destruct (isProgress n l) eqn:Hl.
    + destruct (processLine_progress n l Hl) as (record & phase & _ & _ & Hline).
      rewrite Hline. cbn [bind]. intros H.
      destruct (IH _ H) as (added & Hlog & Hlen).
      exists added. cbn [filter]. rewrite Hl. cbn [negb]. auto.
    + destruct (processLine_other n l Hl) as (e & Hline).
      rewrite Hline. cbn [bind]. intros H.
      destruct (IH _ H) as (added & Hlog & Hlen).
      exists (e :: added). cbn [filter]. rewrite Hl. cbn [negb List.length].
      split; [|now rewrite Hlen].
      rewrite Hlog. cbn [Current.pushLog Current.logMessages].
      now rewrite <- app_assoc.
Qed.

Lemma forEach_keeps_phase (n : Node) (lines : list string) (st st' : Current.ui) :
  Forall (fun l => isProgress n l = false) lines ->
  Current.forEach n lines st = Some st' ->
  Current.currentPhase st' = Current.currentPhase st.
Proof.
  intros Hall. revert st. induction Hall as [|l lines Hl _ IH]; intros st;
    cbn [Current.forEach].
  - now intros [= <-].
  - destruct (processLine_other n l Hl) as (e & Hline).
    rewrite Hline. cbn [bind]. intros H. now rewrite (IH _ H).
Qed.

(** X8: whatever a chunk of output holds, the log of [startWipeProcess]
    only grows: the entries it had stay in place, and one entry is added
    for every line that is not a progress record (1). The phase is the
    [phase] of the last progress record of the chunk (3) and stays as it
    was when the chunk has none (2). *)
Theorem log_only_grows (n : Node) (from : stream) (data : string)
        (st st' : Current.ui) :
  Current.onData n from data st = Some st' ->
  (exists added,
      Current.logMessages st' = (Current.logMessages st ++ added)%list
      /\ List.length added
         = List.length (filter (fun l => negb (isProgress n l))
                               (JsString.split JsString.newline (JsString.trim data))))
  /\ (Forall (fun l => isProgress n l = false)
             (JsString.split JsString.newline (JsString.trim data)) ->
      Current.currentPhase st' = Current.currentPhase st)
  /\ (forall before l after,
        JsString.split JsString.newline (JsString.trim data)
        = (before ++ l :: after)%list ->
        isProgress n l = true ->
        Forall (fun x => isProgress n x = false) after ->
        exists record,
          JSON_parse n l = Some record
          /\ Js.get record "phase" = Some (Current.currentPhase st')).
Proof.
  intros H.
  assert (Hrun : Current.forEach n (JsString.split JsString.newline (JsString.trim data)) st
                 = Some st') by (destruct from; exact H).
  clear H. split; [now apply forEach_log|]. split.
  - intros Hall. exact (forEach_keeps_phase n _ st st' Hall Hrun).
  - intros before l after Hsplit Hl Hafter.
    rewrite Hsplit, forEach_app in Hrun.
    destruct (Current.forEach n before st) as [s1|]; [|discriminate].
    cbn [bind Current.forEach] in Hrun.
    destruct (processLine_progress n l Hl) as (record & phase & Hp & Hph & Hline).
    rewrite Hline in Hrun. cbn [bind] in Hrun.
    exists record. split; [exact Hp|].
    now rewrite (forEach_keeps_phase n after _ st' Hafter Hrun).
Qed.

(** X8 at a chunk of a progress record and a status record. *)
Lemma log_only_grows_witness :
  exists st',
    Current.onData Sample.reporting Stdout
      (Sample.progressLine ++ String JsString.newline Sample.statusLine)
      Current.initial = Some st'
    /\ Current.currentPhase st' = Js.Str "Pass 2/3"
    /\ exists added,
        Current.logMessages st'
        = (Current.logMessages Current.initial ++ added)%list
        /\ List.length added
           = List.length
               (filter (fun l => negb (isProgress Sample.reporting l))
                  (JsString.split JsString.newline
                     (JsString.trim
                        (Sample.progressLine
                         ++ String JsString.newline Sample.statusLine)))).
Proof.
  eexists. split; [vm_compute; reflexivity|]. split; [reflexivity|].
  apply (log_only_grows Sample.reporting Stdout
           (Sample.progressLine ++ String JsString.newline Sample.statusLine)
           Current.initial).
  vm_compute; reflexivity.
Defined.

(** X9: a chunk of nothing but white space is not skipped by
    [processOutput]: its one empty line is not JSON, so one raw entry
    without text is pushed to the log. *)
Theorem blank_chunk_logs_blank_entry (n : Node) (from : stream) (data : string)
        (st : Current.ui) :
  JSON_parse n "" = None ->
  JsString.trim data = "" ->
  Current.onData n from data st
  = Some (Current.pushLog {| Current.label := Current.LogPrefix;
                             Current.message := "" |} st).
Proof.
  intros Hp Ht.
  assert (H : Current.processOutput n data st
              = Some (Current.pushLog {| Current.label := Current.LogPrefix;
                                         Current.message := "" |} st)).
  { unfold Current.processOutput. rewrite Ht.
    cbn [JsString.split Current.forEach].
    unfold Current.processLine, Current.tryLine. rewrite Hp. cbn [bind].
    now rewrite addLog_pushes, raw_entry. }
  destruct from; exact H.
Qed.

(** X9 at a chunk of two blanks and a line end. *)
Lemma blank_chunk_logs_blank_entry_witness :
  JsString.trim ("  " ++ String JsString.newline "") = ""
  /\ Current.onData Sample.reporting Stderr ("  " ++ String JsString.newline "")
       Current.initial
     = Some (Current.pushLog {| Current.label := Current.LogPrefix;
                                Current.message := "" |} Current.initial).
Proof.
  split; [reflexivity|].
  exact (blank_chunk_logs_blank_entry Sample.reporting Stderr
           ("  " ++ String JsString.newline "") Current.initial eq_refl eq_refl).
Defined.

(** X10: what [processOutput] makes of a line that is JSON but not a
    record with a type: an object without [type] is logged as INFO with
    its message (1); a number, a text, a boolean or an array is logged as
    INFO with the text "undefined" (2); [null] is logged as raw text, the
    line itself (3). *)
Theorem untyped_json_is_logged (n : Node) (line : string) (st : Current.ui) :
  (forall fields message,
      JSON_parse n line = Some (Js.Obj fields) ->
      Js.lookup "type" fields = Js.Undefined ->
      Js.lookup "message" fields = Js.Str message ->
      Current.processLine n line st
      = Some (Current.pushLog {| Current.label := Current.InfoPrefix;
                                 Current.message := message |} st))
  /\ (forall v,
        JSON_parse n line = Some v ->
        (exists b, v = Js.Boolean b) \/ (exists x, v = Js.Num x)
        \/ (exists s, v = Js.Str s) \/ (exists items, v = Js.Arr items) ->
        Current.processLine n line st
        = Some (Current.pushLog {| Current.label := Current.InfoPrefix;
                                   Current.message := "undefined" |} st))
  /\ (JSON_parse n line = Some Js.Null ->
      Current.processLine n line st
      = Some (Current.pushLog {| Current.label := Current.LogPrefix;
                                 Current.message := line |} st)).
Proof.
  split; [|split].
  - intros fields message Hp Ht Hm.
    unfold Current.processLine, Current.tryLine. rewrite Hp.
    cbn [bind Js.get]. rewrite Ht, Hm. reflexivity.
  - intros v Hp Hv.
    unfold Current.processLine, Current.tryLine. rewrite Hp.
    destruct Hv as [[b ->]|[[x ->]|[[s ->]|[items ->]]]]; reflexivity.
  - intros Hp.
    unfold Current.processLine, Current.tryLine. rewrite Hp.
    cbn [bind Js.get]. now rewrite addLog_pushes, raw_entry.
Qed.

(** X10 at a line that holds the number 42. *)
Lemma untyped_json_is_logged_witness :
  JSON_parse (Sample.host "linux" 0 true [] [("42", Js.Num (Js.ofZ 42))]) "42"
  = Some (Js.Num (Js.ofZ 42))
  /\ Current.processLine (Sample.host "linux" 0 true [] [("42", Js.Num (Js.ofZ 42))])
       "42" Current.initial
     = Some (Current.pushLog {| Current.label := Current.InfoPrefix;
                                Current.message := "undefined" |} Current.initial).
Proof.
  split; [reflexivity|].
  refine (proj1 (proj2 (untyped_json_is_logged
                          (Sample.host "linux" 0 true [] [("42", Js.Num (Js.ofZ 42))])
                          "42" Current.initial))
            (Js.Num (Js.ofZ 42)) eq_refl _).
  right. left. now exists (Js.ofZ 42).
Defined.

(* ------------------------------------------------------------------ *)
(** * Further properties of the older revision *)

(** ** The progress bar *)




(** ** The stdout listener *)

Lemma tryMessage_length (n : Node) (message : string) (shown : list Legacy.display) :
  Legacy.tryMessage n message = Some shown -> (List.length shown <= 1)%nat.
Proof.
  unfold Legacy.tryMessage. intros H.
  apply bind_Some in H. destruct H as (record & _ & H).
  apply bind_Some in H. destruct H as (type & _ & H).
  destruct (Js.is_str type "progress").
  - do 7 (apply bind_Some in H; destruct H as (? & _ & H)).
    injection H as <-. cbn. lia.
  - destruct (Js.is_str type "status").
    + apply bind_Some in H. destruct H as (? & _ & H). injection H as <-. cbn. lia.
    + destruct (Js.is_str type "error").
      * apply bind_Some in H. destruct H as (? & _ & H). injection H as <-. cbn. lia.
      * injection H as <-. cbn. lia.
Qed.

(** X12: the [stdout] listener of the older revision shows at most one
    item for a chunk, however many lines the chunk has (1); a chunk of
    nothing but white space shows nothing (2); and a record whose type is
    none of 'progress', 'status' and 'error', such as a record of type
    'drives' or one without type, is dropped without a trace (3). *)
Theorem stdout_chunk_shows_at_most_one (n : Node) (data : string) :
  (List.length (Legacy.onStdout n data) <= 1)%nat
  /\ (JsString.trim data = "" -> Legacy.onStdout n data = [])
  /\ (forall record type,
        JsString.trim data <> "" ->
        JSON_parse n (JsString.trim data) = Some record ->
        Js.get record "type" = Some type ->
        Js.is_str type "progress" = false ->
        Js.is_str type "status" = false ->
        Js.is_str type "error" = false ->
        Legacy.onStdout n data = []).
Proof.
  split; [|split].
  - unfold Legacy.onStdout.
    destruct (String.eqb (JsString.trim data) ""); [cbn; lia|].
    destruct (Legacy.tryMessage n (JsString.trim data)) as [shown|] eqn:E.
    + exact (tryMessage_length n _ _ E).
    + cbn. lia.
  - intros H. unfold Legacy.onStdout. now rewrite H.
  - intros record type Hne Hp Ht H1 H2 H3.
    unfold Legacy.onStdout. rewrite (neq_eqb_false _ _ Hne).
    unfold Legacy.tryMessage. rewrite Hp. cbn [bind]. rewrite Ht. cbn [bind].
    now rewrite H1, H2, H3.
Qed.

(** X12 at a record of type 'drives'. *)
Lemma stdout_chunk_shows_at_most_one_witness :
  JSON_parse Listing.drivesRecordHost (JsString.trim Sample.drivesLine)
  = Some Sample.drivesPayload
  /\ Legacy.onStdout Listing.drivesRecordHost Sample.drivesLine = [].
Proof.
  split; [reflexivity|].
  refine (proj2 (proj2 (stdout_chunk_shows_at_most_one Listing.drivesRecordHost
                          Sample.drivesLine))
            Sample.drivesPayload (Js.Str "drives") _ eq_refl eq_refl eq_refl eq_refl
            eq_refl).
  discriminate.
Defined.

(** ** The listing of the older getDrives *)

Lemma legacy_posixLine_choice (line : string) (c : Inquirer.choice string) :
  In c (Legacy.posixLine line) ->
  Inquirer.disabled c = None
  /\ JsString.startsWith "/" (Inquirer.value c) = true.
Proof.
  unfold Legacy.posixLine.
  destruct (negb _); cbn [andb]; [|intros []].
  destruct (JsString.startsWith "/" _) eqn:Hs; [|intros []].
  intros [<-|[]]. split; [reflexivity|exact Hs].
Qed.

Lemma legacy_windowsLine_choice (n : Node) (line : string) (c : Inquirer.choice string) :
  In c (Legacy.windowsLine n line) ->
  Inquirer.disabled c = None
  /\ exists caption,
      caption <> ""
      /\ Inquirer.value c = (caption ++ String JsString.backslash "")%string.
Proof.
  unfold Legacy.windowsLine.
  destruct (List.length _ <? 2)%nat; [intros []|].
  destruct (String.eqb_spec (nth 0 (JsString.split_ws (JsString.trim line)) "") "")
    as [He|Hne]; [intros []|].
  cbn [negb andb]. destruct (negb _); [|intros []].
  intros [<-|[]]. split; [reflexivity|].
  eexists. split; [exact Hne|reflexivity].
Qed.

Lemma legacy_drive (n : Node) (drives : list (Inquirer.choice string))
      (c : Inquirer.choice string) :
  snd (Legacy.getDrives n) = Resolved drives ->
  In c drives ->
  Inquirer.disabled c = None
  /\ Inquirer.value c <> "" /\ Inquirer.value c <> "cancel"
  /\ (isWindows n = true ->
      exists caption,
        caption <> ""
        /\ Inquirer.value c = (caption ++ String JsString.backslash "")%string)
  /\ (isWindows n = false ->
      JsString.startsWith "/" (Inquirer.value c) = true).
Proof.
  unfold Legacy.getDrives. cbn [snd].
  destruct (exec n (Legacy.command n)) as [|stdout]; [intros [= <-] []|].
  intros [= <-] Hin. destruct (isWindows n).
  - apply in_flat_map in Hin. destruct Hin as (line & _ & Hin).
    destruct (legacy_windowsLine_choice n line c Hin) as (Hd & caption & Hne & Hv).
    split; [exact Hd|]. rewrite Hv.
    split; [apply append_not_empty|].
    split; [apply backslash_not_cancel|].
    split; [|discriminate]. intros _. exists caption. now rewrite <- Hv.
  - apply in_flat_map in Hin. destruct Hin as (line & _ & Hin).
    destruct (legacy_posixLine_choice line c Hin) as (Hd & Hs).
    split; [exact Hd|].
    split; [intros Hv; rewrite Hv in Hs; discriminate|].
    split; [intros Hv; rewrite Hv in Hs; discriminate|].
    split; [discriminate|now intros _].
Qed.

(** X13: every drive the older [getDrives] lists is enabled, and its value
    is not empty and is not the text 'cancel'; on Windows the value is a
    caption followed by a backslash, elsewhere it starts with a slash (1).
    So the target prompt of the older revision answers with the drive the
    operator points at, and never takes a drive for the Cancel entry
    (2). *)
Theorem legacy_drives_are_never_cancel (n : Node)
        (drives : list (Inquirer.choice string)) :
  snd (Legacy.getDrives n) = Resolved drives ->
  (forall c, In c drives ->
     Inquirer.disabled c = None
     /\ Inquirer.value c <> "" /\ Inquirer.value c <> "cancel"
     /\ (isWindows n = true ->
         exists caption,
           caption <> ""
           /\ Inquirer.value c = (caption ++ String JsString.backslash "")%string)
     /\ (isWindows n = false ->
         JsString.startsWith "/" (Inquirer.value c) = true))
  /\ (forall i c, nth_error drives i = Some c ->
        answered cancelText (BackToMain (Some 1500))
                 (Inquirer.list_prompt (Legacy.targetChoices drives) i)
        = Next (Inquirer.value c)).
Proof.
  intros Hd. split.
  - intros c. apply (legacy_drive n drives c Hd).
  - intros i c Hi.
    unfold Inquirer.list_prompt, Legacy.targetChoices.
    rewrite realChoices_app, realChoices_enabled.
    + rewrite nth_error_app1; [|apply nth_error_Some; now rewrite Hi].
      rewrite Hi. cbn [option_map answered]. unfold cancelText.
      destruct (String.eqb_spec (Inquirer.value c) "cancel") as [He|]; [|reflexivity].
      exfalso. revert He.
      apply (legacy_drive n drives c Hd (nth_error_In _ _ Hi)).
    + intros c' Hin. apply (legacy_drive n drives c' Hd Hin).
Qed.

(** X13 at a Linux host: the root volume listed by [df -h] is the first
    entry, and picking it answers with its mount point. *)
Lemma legacy_drives_are_never_cancel_witness :
  snd (Legacy.getDrives Listing.dfHost) = Resolved Listing.dfDrives
  /\ answered cancelText (BackToMain (Some 1500))
              (Inquirer.list_prompt (Legacy.targetChoices Listing.dfDrives) 0)
     = Next "/".
Proof.
  assert (H : snd (Legacy.getDrives Listing.dfHost) = Resolved Listing.dfDrives)
    by (vm_compute; reflexivity).
  split; [exact H|].
  exact (proj2 (legacy_drives_are_never_cancel Listing.dfHost Listing.dfDrives H)
               0%nat Listing.rootMount eq_refl).
Defined.

(** ** The listeners of the older revision, event by event *)

Lemma run_cons (n : Node) (tty : bool) (p : LegacyProcess.phase)
      (e : LegacyProcess.event) (es : list LegacyProcess.event) :
  LegacyProcess.run n tty p (e :: es)
  = (fst (LegacyProcess.run n tty (fst (LegacyProcess.step n tty p e)) es),
     (snd (LegacyProcess.step n tty p e)
      ++ snd (LegacyProcess.run n tty (fst (LegacyProcess.step n tty p e)) es))%list).
Proof.
  cbn [LegacyProcess.run].
  destruct (LegacyProcess.step n tty p e) as [p' done].
  cbn [fst snd]. now destruct (LegacyProcess.run n tty p' es).
Qed.

Lemma run_exited (n : Node) (tty : bool) (es : list LegacyProcess.event) :
  LegacyProcess.run n tty LegacyProcess.Exited es = (LegacyProcess.Exited, []).
Proof.
  induction es as [|e es IH]; [reflexivity|].
  rewrite run_cons.
  assert (H : LegacyProcess.step n tty LegacyProcess.Exited e
              = (LegacyProcess.Exited, []))
    by (destruct e as [|[]|]; reflexivity).
  rewrite H. cbn [fst snd]. now rewrite IH.
Qed.

Lemma sends_app (a b : list LegacyProcess.action) :
  LegacyProcess.sends (a ++ b)
  = (LegacyProcess.sends a ++ LegacyProcess.sends b)%list.
Proof. apply flat_map_app. Qed.

Lemma exits_app (a b : list LegacyProcess.action) :
  LegacyProcess.exits (a ++ b)
  = (LegacyProcess.exits a ++ LegacyProcess.exits b)%list.
Proof. apply flat_map_app. Qed.

Lemma uncaught_app (a b : list LegacyProcess.action) :
  LegacyProcess.uncaught (a ++ b)
  = LegacyProcess.uncaught a || LegacyProcess.uncaught b.
Proof. apply existsb_app. Qed.

Lemma sends_show (shown : list Legacy.display) :
  LegacyProcess.sends (map LegacyProcess.Show shown) = [].
Proof. induction shown; [reflexivity|exact IHshown]. Qed.

Lemma exits_show (shown : list Legacy.display) :
  LegacyProcess.exits (map LegacyProcess.Show shown) = [].
Proof. induction shown; [reflexivity|exact IHshown]. Qed.

Lemma uncaught_show (shown : list Legacy.display) :
  LegacyProcess.uncaught (map LegacyProcess.Show shown) = false.
Proof. induction shown; [reflexivity|exact IHshown]. Qed.

Lemma step_output (n : Node) (tty : bool) (p : LegacyProcess.phase)
      (from : stream) (data : string) :
  fst (LegacyProcess.step n tty p (LegacyProcess.Output from data)) = p
  /\ LegacyProcess.sends
       (snd (LegacyProcess.step n tty p (LegacyProcess.Output from data))) = []
  /\ LegacyProcess.exits
       (snd (LegacyProcess.step n tty p (LegacyProcess.Output from data))) = []
  /\ LegacyProcess.uncaught
       (snd (LegacyProcess.step n tty p (LegacyProcess.Output from data))) = false.
Proof.
  destruct p, from; cbn [LegacyProcess.step fst snd];
    repeat split; try reflexivity;
    try apply sends_show; try apply exits_show; try apply uncaught_show.
Qed.

(** On a terminal, after the engine has closed. *)
Lemma run_anykey (n : Node) (es : list LegacyProcess.event) :
  LegacyProcess.sends (snd (LegacyProcess.run n true LegacyProcess.AnyKey es)) = []
  /\ LegacyProcess.exits (snd (LegacyProcess.run n true LegacyProcess.AnyKey es))
     = (if existsb LegacyProcess.isKey es then [0] else [])
  /\ LegacyProcess.uncaught (snd (LegacyProcess.run n true LegacyProcess.AnyKey es))
     = false
  /\ fst (LegacyProcess.run n true LegacyProcess.AnyKey es)
     = (if existsb LegacyProcess.isKey es
        then LegacyProcess.Exited else LegacyProcess.AnyKey).
Proof.
  induction es as [|e es (IH1 & IH2 & IH3 & IH4)]; [now cbn|].
  rewrite run_cons. destruct e as [key|from data|code].
  - cbn [LegacyProcess.step fst snd existsb LegacyProcess.isKey orb].
    rewrite run_exited. now cbn.
  - destruct (step_output n true LegacyProcess.AnyKey from data) as (Hp & Hs & He & Hu).
    rewrite Hp. cbn [fst snd existsb LegacyProcess.isKey orb].
    rewrite sends_app, exits_app, uncaught_app, Hs, He, Hu, IH1, IH2, IH3, IH4.
    now cbn.
  - cbn [LegacyProcess.step fst snd existsb LegacyProcess.isKey orb].
    rewrite sends_app, exits_app, uncaught_app, IH1, IH2, IH3, IH4. now cbn.
Qed.

(** X16: from [spawn] to the [close] of the engine, the older revision
    calls [kill('SIGTERM')] once for each chunk of input that is exactly
    the one character U+0003, asks for no other signal, and calls [kill]
    no more once the engine has closed (1); a chunk that is anything else,
    two such characters together included, asks for nothing (2). Each
    call ends the engine at once on Windows and delivers SIGTERM to it
    elsewhere (3). When the input is a terminal, the wrapper leaves at
    most once, with exit code 0, exactly when a chunk of input arrives
    after the engine has closed (4); when it is not, the [close] listener
    throws, the exception is not caught, and the wrapper ends there
    without waiting for a key (5). *)
Theorem no_signal_once_engine_closed (n : Node) (tty : bool)
        (before after : list LegacyProcess.event) (code : option Z) :
  Forall (fun e => LegacyProcess.isClose e = false) before ->
  LegacyProcess.sends
    (snd (LegacyProcess.run n tty LegacyProcess.Running
            (before ++ LegacyProcess.Close code :: after)))
  = repeat SIGTERM (LegacyProcess.ctrlCs before)
  /\ (forall p key,
        key <> Legacy.ctrlC ->
        LegacyProcess.sends (snd (LegacyProcess.step n tty p (LegacyProcess.Key key)))
        = [])
  /\ map (kill n)
         (LegacyProcess.sends
            (snd (LegacyProcess.run n tty LegacyProcess.Running
                    (before ++ LegacyProcess.Close code :: after))))
     = repeat (if isWindows n then EndedAtOnce else Delivered SIGTERM)
              (LegacyProcess.ctrlCs before)
  /\ (tty = true ->
      LegacyProcess.exits
        (snd (LegacyProcess.run n tty LegacyProcess.Running
                (before ++ LegacyProcess.Close code :: after)))
      = (if existsb LegacyProcess.isKey after then [0] else [])
      /\ LegacyProcess.uncaught
           (snd (LegacyProcess.run n tty LegacyProcess.Running
                   (before ++ LegacyProcess.Close code :: after)))
         = false
      /\ fst (LegacyProcess.run n tty LegacyProcess.Running
                (before ++ LegacyProcess.Close code :: after))
         = (if existsb LegacyProcess.isKey after
            then LegacyProcess.Exited else LegacyProcess.AnyKey))
  /\ (tty = false ->
      LegacyProcess.exits
        (snd (LegacyProcess.run n tty LegacyProcess.Running
                (before ++ LegacyProcess.Close code :: after)))
      = []
      /\ LegacyProcess.uncaught
           (snd (LegacyProcess.run n tty LegacyProcess.Running
                   (before ++ LegacyProcess.Close code :: after)))
         = true
      /\ fst (LegacyProcess.run n tty LegacyProcess.Running
                (before ++ LegacyProcess.Close code :: after))
         = LegacyProcess.Exited).
Proof.
  intros Hbefore.
  assert (Hall :
    LegacyProcess.sends
      (snd (LegacyProcess.run n tty LegacyProcess.Running
              (before ++ LegacyProcess.Close code :: after)))
    = repeat SIGTERM (LegacyProcess.ctrlCs before)
    /\ LegacyProcess.exits
         (snd (LegacyProcess.run n tty LegacyProcess.Running
                 (before ++ LegacyProcess.Close code :: after)))
       = (if tty then if existsb LegacyProcess.isKey after then [0] else [] else [])
    /\ LegacyProcess.uncaught
         (snd (LegacyProcess.run n tty LegacyProcess.Running
                 (before ++ LegacyProcess.Close code :: after)))
       = negb tty
    /\ fst (LegacyProcess.run n tty LegacyProcess.Running
              (before ++ LegacyProcess.Close code :: after))
       = (if tty then if existsb LegacyProcess.isKey after
                      then LegacyProcess.Exited else LegacyProcess.AnyKey
          else LegacyProcess.Exited)).
  { induction Hbefore as [|e before He _ (IH1 & IH2 & IH3 & IH4)].
    - cbn [app]. rewrite run_cons. cbn [LegacyProcess.step].
      destruct tty; cbn [fst snd].
      + destruct (run_anykey n after) as (H1 & H2 & H3 & H4).
        rewrite sends_app, exits_app, uncaught_app, H1, H2, H3, H4. now cbn.
      + rewrite run_exited. now cbn.
    - cbn [app]. rewrite run_cons.
      destruct e as [key|from data|code']; [| |discriminate].
      + cbn [LegacyProcess.step fst snd]. unfold Legacy.onStdinData.
        unfold LegacyProcess.ctrlCs. cbn [filter].
        fold (LegacyProcess.ctrlCs before).
        rewrite !sends_app, !exits_app, !uncaught_app, IH1, IH2, IH3, IH4.
        destruct (String.eqb key Legacy.ctrlC); now cbn.
      + destruct (step_output n tty LegacyProcess.Running from data)
          as (Hp & Hs & Hx & Hu).
        rewrite Hp. cbn [fst snd].
        rewrite sends_app, exits_app, uncaught_app, Hs, Hx, Hu, IH1, IH2, IH3, IH4.
        now cbn. }
  destruct Hall as (H1 & H2 & H3 & H4).
  split; [exact H1|]. split; [|split; [|split]].
  - intros p key Hkey.
    destruct p; cbn [LegacyProcess.step snd]; try reflexivity.
    unfold Legacy.onStdinData. rewrite (neq_eqb_false _ _ Hkey). reflexivity.
  - rewrite H1. clear. induction (LegacyProcess.ctrlCs before) as [|k IH]; [reflexivity|].
    cbn [repeat map]. rewrite IH. unfold kill. now destruct (isWindows n).
  - intros ->. now rewrite H2, H3, H4.
  - intros ->. now rewrite H2, H3, H4.
Qed.

(** X16 at a run on a Windows terminal in which the chunk U+0003 arrives
    once while the engine works and once after it has closed: the first
    ends the engine at once, the second makes the wrapper leave with
    code 0. *)
Lemma no_signal_once_engine_closed_witness :
  map (kill Sample.windows)
      (LegacyProcess.sends
         (snd (LegacyProcess.run Sample.windows true LegacyProcess.Running
                 ([LegacyProcess.Key Legacy.ctrlC;
                   LegacyProcess.Output Stdout "wiping"]
                  ++ LegacyProcess.Close None
                     :: [LegacyProcess.Key Legacy.ctrlC]))))
  = [EndedAtOnce]
  /\ LegacyProcess.exits
       (snd (LegacyProcess.run Sample.windows true LegacyProcess.Running
               ([LegacyProcess.Key Legacy.ctrlC;
                 LegacyProcess.Output Stdout "wiping"]
                ++ LegacyProcess.Close None
                   :: [LegacyProcess.Key Legacy.ctrlC])))
     = [0].
Proof.
  assert (H : Forall (fun e => LegacyProcess.isClose e = false)
                     [LegacyProcess.Key Legacy.ctrlC;
                      LegacyProcess.Output Stdout "wiping"])
    by (repeat constructor).
  destruct (no_signal_once_engine_closed Sample.windows true _
              [LegacyProcess.Key Legacy.ctrlC] None H) as (_ & _ & H3 & H4 & _).
  split; [exact H3|exact (proj1 (H4 eq_refl))].
Defined.

(** * Further properties of the menus *)

(** ** Cancel *)

Lemma cancel_follows_the_drives {A} (drives : list (Inquirer.choice A))
      (rest : list (Inquirer.entry A)) :
  Inquirer.list_prompt
    (map Inquirer.Choice drives ++ rest)
    (List.length (Inquirer.realChoices (map Inquirer.Choice drives)))
  = Inquirer.list_prompt rest 0.
Proof.
  unfold Inquirer.list_prompt. rewrite realChoices_app.
  rewrite nth_error_app2; [|apply Nat.le_refl]. now rewrite Nat.sub_diag.
Qed.

(** X14: in every menu of the wipe sequence Cancel is the entry after the
    last one that can be picked, and picking it ends the pass without an
    engine and without reading the confirmation: [index.js] calls [main]
    at once from the target, mode and file system menus (1), the older
    revision calls it after 1500 ms from the target and mode menus
    (2). *)
Theorem cancel_returns_to_main (n : Node) (op : Operator) :
  (forall drives,
     snd (Current.getDrives n) = Resolved drives -> drives <> [] ->
     (pickTarget op
      = List.length (Inquirer.realChoices (map Inquirer.Choice drives)) ->
      Current.startWipeSequence n op = BackToMain None)
     /\ (forall target,
           Inquirer.list_prompt (Current.targetChoices drives) (pickTarget op)
           = Some target ->
           cancelValue target = false ->
           (pickMode op = 3%nat ->
            Current.startWipeSequence n op = BackToMain None)
           /\ (forall mode,
                 Inquirer.list_prompt (Current.modeChoices n) (pickMode op)
                 = Some mode ->
                 cancelText mode = false ->
                 pickFilesystem op = List.length (Current.fsChoices n) ->
                 Current.startWipeSequence n op = BackToMain None)))
  /\ (forall drives,
        snd (Legacy.getDrives n) = Resolved drives -> drives <> [] ->
        (pickTarget op = List.length drives ->
         Legacy.startWipeSequence n op = BackToMain (Some 1500))
        /\ (forall target,
              Inquirer.list_prompt (Legacy.targetChoices drives) (pickTarget op)
              = Some target ->
              cancelText target = false ->
              pickMode op = 3%nat ->
              Legacy.startWipeSequence n op = BackToMain (Some 1500))).
Proof.
  split.
  - intros drives Hd Hne.
    assert (Hlen : (List.length drives =? 0)%nat = false).
    { apply Nat.eqb_neq. intros H. apply Hne. now apply length_zero_iff_nil. }
    unfold Current.startWipeSequence. rewrite Hd, Hlen. split.
    + intros ->. unfold Current.targetChoices.
      now rewrite cancel_follows_the_drives.
    + intros target Ht Hc. rewrite Ht. cbn [answered]. rewrite Hc.
      cbn [andThen]. split.
      * intros ->. reflexivity.
      * intros mode Hm Hcm ->. rewrite Hm. cbn [answered]. rewrite Hcm.
        cbn [andThen].
        assert (Hfs : Inquirer.list_prompt (Current.filesystemChoices n)
                        (List.length (Current.fsChoices n)) = Some "cancel").
        { unfold Current.filesystemChoices, Current.fsChoices.
          destruct (isWindows n); reflexivity. }
        now rewrite Hfs.
  - intros drives Hd Hne.
    assert (Hlen : (List.length drives =? 0)%nat = false).
    { apply Nat.eqb_neq. intros H. apply Hne. now apply length_zero_iff_nil. }
    unfold Legacy.startWipeSequence. rewrite Hd, Hlen. split.
    + intros ->. unfold Legacy.targetChoices.
      rewrite <- (realChoices_enabled drives) at 2.
      * now rewrite cancel_follows_the_drives.
      * intros c Hin. apply (legacy_drive n drives c Hd Hin).
    + intros target Ht Hc ->. rewrite Ht. cbn [answered]. rewrite Hc.
      cbn [andThen]. reflexivity.
Qed.

(** X14 at a Linux host on which only [lsblk] works: with two drives
    listed, the third entry is Cancel. *)
Lemma cancel_returns_to_main_witness :
  snd (Current.getDrives (Sample.linux 0)) = Resolved Listing.lsblkDrives
  /\ Current.startWipeSequence (Sample.linux 0) (Sample.operator 2 0 0 [] "/dev/sda1")
     = BackToMain None.
Proof.
  assert (H : snd (Current.getDrives (Sample.linux 0)) = Resolved Listing.lsblkDrives)
    by (vm_compute; reflexivity).
  split; [exact H|].
  refine (proj1 (proj1 (cancel_returns_to_main (Sample.linux 0)
                          (Sample.operator 2 0 0 [] "/dev/sda1"))
                       Listing.lsblkDrives H _) eq_refl).
  discriminate.
Defined.

(** ** A target that is no text *)

Lemma answered_not_thrown {A} (isCancel : A -> bool) (delay : option Z)
      (a : option A) (o : outcome) :
  answered isCancel (BackToMain delay) a = Return o -> o <> Thrown.
Proof.
  unfold answered. destruct a as [v|]; [destruct (isCancel v)|];
    intros [= <-]; discriminate.
Qed.

Lemma sequence_after_target (n : Node) (op : Operator)
      (drives : list (Inquirer.choice Js.value)) :
  snd (Current.getDrives n) = Resolved drives ->
  Current.startWipeSequence n op = Thrown ->
  exists c,
    In c drives
    /\ Inquirer.disabled c = None
    /\ (forall s, Inquirer.value c <> Js.Str s)
    /\ Inquirer.list_prompt (Current.targetChoices drives) (pickTarget op)
       = Some (Inquirer.value c).
Proof.
  intros Hd. unfold Current.startWipeSequence. rewrite Hd.
  destruct (List.length drives =? 0)%nat; [discriminate|].
  destruct (Inquirer.list_prompt (Current.targetChoices drives) (pickTarget op))
    as [target|] eqn:Ht; [|discriminate].
  cbn [answered]. destruct (cancelValue target); [discriminate|].
  cbn [andThen].
  destruct (answered cancelText (BackToMain None)
              (Inquirer.list_prompt (Current.modeChoices n) (pickMode op)))
    as [mode|o] eqn:Hm;
    [|intros H; cbn [andThen] in H; now destruct (answered_not_thrown _ _ _ _ Hm)].
  cbn [andThen].
  destruct (answered cancelText (BackToMain None)
              (Inquirer.list_prompt (Current.filesystemChoices n) (pickFilesystem op)))
    as [fs|o] eqn:Hfs;
    [|intros H; cbn [andThen] in H; now destruct (answered_not_thrown _ _ _ _ Hfs)].
  cbn [andThen].
  destruct (if String.eqb mode "paranoid"
            then match Inquirer.number_prompt (Js.ofZ 3) (Current.validate)
                         (passesLines op) with
                 | Some passes => Next ["--passes"; numberString n passes]
                 | None => Return PromptOpen
                 end
            else Next []) as [passesArg|o] eqn:Hp.
  - cbn [andThen]. intros Hthrown.
    destruct (list_prompt_enabled _ _ _ Ht) as (c & Hin & Hdis & Hv).
    unfold Current.targetChoices in Hin. apply in_app_or in Hin.
    destruct Hin as [Hin|Hin].
    + apply in_map_iff in Hin. destruct Hin as (c' & [= ->] & Hin).
      exists c. repeat split; [exact Hin|exact Hdis| |now rewrite Hv].
      intros s Hs. rewrite Hv in Hs. subst target.
      revert Hthrown. rewrite Hs. unfold Current.startWipeProcess.
      destruct (Current.confirmed n (confirmationLine op) s);
        [destruct (Current.lacksRoot n)|]; discriminate.
    + exfalso. destruct Hin as [Hin|[Hin|[]]]; [discriminate|].
      injection Hin as <-. cbn in Hv. subst target.
      revert Hthrown. cbv beta iota. unfold Current.startWipeProcess.
      destruct (Current.confirmed n (confirmationLine op) "cancel");
        [destruct (Current.lacksRoot n)|]; discriminate.
  - cbn [andThen]. intros ->. exfalso.
    destruct (String.eqb mode "paranoid"); [|discriminate].
    destruct (Inquirer.number_prompt _ _ _); discriminate.
Qed.

(** X15: a pass through [startWipeSequence] of [index.js] ends with an
    exception only in one way: the listing came from the engine, and the
    operator picked an enabled drive whose device the engine gave as
    something other than a text (1). With the fallback listing no pass
    ends with an exception (2). *)
Theorem sequence_throws_only_on_non_text_target (n : Node) (op : Operator) :
  (Current.startWipeSequence n op = Thrown ->
   exists drives c,
     Current.primary n (exec n (Current.cmd n)) = Some drives
     /\ In c drives
     /\ Inquirer.disabled c = None
     /\ (forall s, Inquirer.value c <> Js.Str s)
     /\ Inquirer.list_prompt (Current.targetChoices drives) (pickTarget op)
        = Some (Inquirer.value c))
  /\ (Current.primary n (exec n (Current.cmd n)) = None ->
      Current.startWipeSequence n op <> Thrown).
Proof.
  assert (Hfall : forall drives,
            Current.primary n (exec n (Current.cmd n)) = None ->
            snd (Current.getDrives n) = Resolved drives ->
            Current.startWipeSequence n op <> Thrown).
  { intros drives Hp Hd Hthrown.
    destruct (sequence_after_target n op drives Hd Hthrown)
      as (c & Hin & _ & Hs & _).
    unfold Current.getDrives in Hd. rewrite Hp in Hd. cbn [snd] in Hd.
    destruct (fallback_choice n _ drives c Hd Hin) as (_ & s & Hv & _).
    exact (Hs s Hv). }
  split.
  - intros Hthrown.
    destruct (Current.primary n (exec n (Current.cmd n))) as [drives|] eqn:Hp.
    + assert (Hd : snd (Current.getDrives n) = Resolved drives).
      { unfold Current.getDrives. now rewrite Hp. }
      destruct (sequence_after_target n op drives Hd Hthrown) as (c & H).
      exists drives, c. split; [reflexivity|exact H].
    + exfalso.
      destruct (Current.fallback n (exec n (Current.fallbackCmd n)))
        as [drives|] eqn:Hf.
      * refine (Hfall drives eq_refl _ Hthrown).
        unfold Current.getDrives. now rewrite Hp.
      * destruct (exec n (Current.fallbackCmd n)); discriminate.
  - intros Hp.
    destruct (Current.fallback n (exec n (Current.fallbackCmd n)))
      as [drives|] eqn:Hf.
    + apply (Hfall drives Hp). unfold Current.getDrives. now rewrite Hp.
    + destruct (exec n (Current.fallbackCmd n)); discriminate.
Qed.

(** X15 at a host whose engine lists a volume under the number 5: the
    operator picks it, and the pass ends with an exception. *)
Lemma sequence_throws_only_on_non_text_target_witness :
  Current.startWipeSequence Listing.numbered (Sample.operator 0 0 0 [] "5") = Thrown
  /\ exists drives c,
       Current.primary Listing.numbered
         (exec Listing.numbered (Current.cmd Listing.numbered)) = Some drives
       /\ In c drives
       /\ Inquirer.value c = Js.Num (Js.ofZ 5).
Proof.
  assert (H : Current.startWipeSequence Listing.numbered
                (Sample.operator 0 0 0 [] "5") = Thrown)
    by (vm_compute; reflexivity).
  split; [exact H|].
  destruct (proj1 (sequence_throws_only_on_non_text_target Listing.numbered
                     (Sample.operator 0 0 0 [] "5")) H)
    as (drives & c & Hp & Hin & _ & _ & _).
  exists drives, c. split; [exact Hp|]. split; [exact Hin|].
  vm_compute in Hp. injection Hp as <-. destruct Hin as [<-|[]]. reflexivity.
Defined.

(** * Further properties of the parsers of listings *)

Lemma string_app_nil (a : string) : (a ++ "")%string = a.
Proof. induction a as [|c a IH]; cbn; [reflexivity|now rewrite IH]. Qed.

Lemma string_app_assoc (a b c : string) :
  ((a ++ b) ++ c)%string = (a ++ b ++ c)%string.
Proof. induction a as [|x a IH]; cbn; [reflexivity|now rewrite IH]. Qed.

Lemma all_app (f : ascii -> bool) (a b : string) :
  Fields.all f (a ++ b) = Fields.all f a && Fields.all f b.
Proof.
  induction a as [|c a IH]; cbn; [reflexivity|]. rewrite IH. apply andb_assoc.
Qed.

Lemma word_parts (w : string) :
  Fields.isWord w = true ->
  exists c r, w = String c r /\ JsString.is_space c = false
              /\ Fields.noSpace r = true.
Proof.
  unfold Fields.isWord, Fields.noSpace. destruct w as [|c r]; [discriminate|].
  cbn. intros H. apply andb_prop in H. destruct H as [Hc Hr].
  exists c, r. split; [reflexivity|]. split; [now apply negb_true_iff|exact Hr].
Qed.

Lemma word_noSpace (w : string) : Fields.isWord w = true -> Fields.noSpace w = true.
Proof. unfold Fields.isWord. intros H. now apply andb_prop in H. Qed.

Lemma word_not_empty (w : string) : Fields.isWord w = true -> w <> "".
Proof. intros H ->. discriminate. Qed.

Lemma blank_parts (sp : string) :
  Fields.isBlank sp = true ->
  Fields.all JsString.is_space sp = true /\ (1 <=? String.length sp)%nat = true.
Proof.
  unfold Fields.isBlank. destruct sp as [|c r]; [discriminate|].
  intros H. apply andb_prop in H. now destruct H.
Qed.

Lemma split_word (w rest tok : string) :
  Fields.noSpace w = true ->
  JsString.split_runs 1 (w ++ rest) tok "" = JsString.split_runs 1 rest (tok ++ w) "".
Proof.
  unfold Fields.noSpace. revert tok.
  induction w as [|c w IH]; intros tok H.
  - now rewrite string_app_nil.
  - cbn [Fields.all] in H. apply andb_prop in H. destruct H as [Hc Hw].
    apply negb_true_iff in Hc.
    cbn [append JsString.split_runs]. rewrite Hc.
    cbn [String.length Nat.leb andb append].
    rewrite (IH _ Hw). now rewrite string_app_assoc.
Qed.

Lemma split_blank (sp rest tok run : string) :
  Fields.all JsString.is_space sp = true ->
  JsString.split_runs 1 (sp ++ rest) tok run
  = JsString.split_runs 1 rest tok (run ++ sp).
Proof.
  revert run. induction sp as [|c sp IH]; intros run H.
  - now rewrite string_app_nil.
  - cbn [Fields.all] in H. apply andb_prop in H. destruct H as [Hc Hs].
    cbn [append JsString.split_runs]. rewrite Hc.
    rewrite (IH _ Hs). now rewrite string_app_assoc.
Qed.

(** [split(/\s+/)] of a line of words gives the words. *)
Lemma split_spaced (fields : list (string * string)) (tok : string) :
  Fields.wellFormed fields = true ->
  JsString.split_runs 1 (Fields.spaced fields) tok "" = tok :: map snd fields.
Proof.
  revert tok. induction fields as [|[sp w] fields IH]; intros tok H.
  - cbn. now rewrite string_app_nil.
  - cbn [Fields.wellFormed forallb fst snd] in H.
    apply andb_prop in H. destruct H as [H Hrest].
    apply andb_prop in H. destruct H as [Hsp Hw].
    destruct (blank_parts sp Hsp) as [Hall Hlen].
    destruct (word_parts w Hw) as (c & r & -> & Hc & Hr).
    cbn [Fields.spaced map snd].
    rewrite (split_blank sp _ tok "" Hall).
    cbn [append JsString.split_runs]. rewrite Hc, Hlen. cbn [andb].
    rewrite (split_word r _ _ Hr). cbn [append].
    now rewrite (IH _ Hrest).
Qed.

Lemma split_ws_line (first : string) (fields : list (string * string)) :
  Fields.isWord first = true ->
  Fields.wellFormed fields = true ->
  JsString.split_ws (first ++ Fields.spaced fields) = first :: map snd fields.
Proof.
  intros Hf Hw. unfold JsString.split_ws.
  rewrite (split_word first _ "" (word_noSpace _ Hf)). cbn [append].
  now apply split_spaced.
Qed.

Lemma trimEnd_word (w : string) :
  Fields.isWord w = true -> JsString.trimEnd w = w.
Proof.
  intros H. destruct (word_parts w H) as (c & r & -> & Hc & Hr). clear H.
  revert c Hc. unfold Fields.noSpace in Hr.
  induction r as [|d r IH]; intros c Hc.
  - cbn [JsString.trimEnd]. now rewrite Hc.
  - cbn [Fields.all] in Hr. apply andb_prop in Hr. destruct Hr as [Hd Hr].
    apply negb_true_iff in Hd.
    cbn [JsString.trimEnd]. cbn [JsString.trimEnd] in IH.
    now rewrite (IH Hr d Hd).
Qed.

Lemma trimEnd_app (a b : string) :
  b <> "" -> JsString.trimEnd b = b -> JsString.trimEnd (a ++ b) = (a ++ b)%string.
Proof.
  intros Hne Hb. induction a as [|c a IH]; [exact Hb|].
  cbn [append JsString.trimEnd]. rewrite IH.
  destruct (a ++ b)%string eqn:E; [|reflexivity].
  destruct a; [now cbn in E|discriminate].
Qed.

Lemma trimEnd_spaced (fields : list (string * string)) :
  Fields.wellFormed fields = true ->
  fields <> [] ->
  Fields.spaced fields <> ""
  /\ JsString.trimEnd (Fields.spaced fields) = Fields.spaced fields.
Proof.
  induction fields as [|[sp w] fields IH]; intros H Hne; [contradiction|].
  cbn [Fields.wellFormed forallb fst snd] in H.
  apply andb_prop in H. destruct H as [H Hrest].
  apply andb_prop in H. destruct H as [Hsp Hw].
  assert (Htail : (w ++ Fields.spaced fields)%string <> ""
                  /\ JsString.trimEnd (w ++ Fields.spaced fields)
                     = (w ++ Fields.spaced fields)%string).
  { destruct fields as [|f fields].
    - cbn [Fields.spaced]. rewrite string_app_nil.
      split; [now apply word_not_empty|now apply trimEnd_word].
    - destruct (IH Hrest) as [Hne' Hfix]; [discriminate|].
      split; [|now apply trimEnd_app].
      destruct (word_parts w Hw) as (c & r & -> & _). discriminate. }
  destruct Htail as [Hne' Hfix]. cbn [Fields.spaced]. split.
  - destruct (blank_parts sp Hsp) as [_ Hlen]. destruct sp; discriminate.
  - now apply trimEnd_app.
Qed.

Lemma trim_line (first : string) (fields : list (string * string)) :
  Fields.isWord first = true ->
  Fields.wellFormed fields = true ->
  JsString.trim (first ++ Fields.spaced fields) = (first ++ Fields.spaced fields)%string.
Proof.
  intros Hf Hw. unfold JsString.trim.
  assert (Hstart : JsString.trimStart (first ++ Fields.spaced fields)
                   = (first ++ Fields.spaced fields)%string).
  { destruct (word_parts first Hf) as (c & r & -> & Hc & _).
    cbn [append JsString.trimStart]. now rewrite Hc. }
  rewrite Hstart. destruct fields as [|f fields].
  - cbn [Fields.spaced]. rewrite string_app_nil. now apply trimEnd_word.
  - destruct (trimEnd_spaced (f :: fields) Hw) as [Hne Hfix]; [discriminate|].
    now apply trimEnd_app.
Qed.

(** What the parsers read from a line of words. *)
Lemma parts_of_line (first : string) (fields : list (string * string)) :
  Fields.isWord first = true ->
  Fields.wellFormed fields = true ->
  JsString.split_ws (JsString.trim (first ++ Fields.spaced fields))
  = first :: map snd fields.
Proof.
  intros Hf Hw. rewrite (trim_line first fields Hf Hw).
  now apply split_ws_line.
Qed.

Lemma parseInt_of_path (mount : string) :
  JsString.startsWith "/" mount = true -> Js.parseInt (Some mount) = Js.NaN.
Proof.
  destruct mount as [|c r]; [discriminate|].
  unfold JsString.startsWith. cbn [String.prefix].
  destruct (ascii_dec "/" c) as [<-|]; [|discriminate].
  intros _. reflexivity.
Qed.

(** [parseInt] gives the integer read itself up to 2^53, and a double near
    it above. *)
Lemma fromInteger_exact (z : Z) :
  Z.abs z < 2 ^ 53 -> Js.fromInteger z = Js.ofZ z.
Proof.
  intros Hz. unfold Js.fromInteger, Js.nearestDouble, Js.ofZ.
  assert (Hbits : (Z.log2 (Z.abs z) + 1 <=? 53) = true).
  { apply Z.leb_le. destruct (Z.eq_dec (Z.abs z) 0) as [->|Hne]; [cbn; lia|].
    assert (Z.log2 (Z.abs z) < 53) by (apply Z.log2_lt_pow2; lia). lia. }
  rewrite Hbits.
  assert (Hbig : (2 ^ 1024 <=? Z.abs z) = false).
  { apply Z.leb_gt. apply Z.lt_trans with (2 ^ 53); [exact Hz|].
    apply Z.pow_lt_mono_r; lia. }
  rewrite Hbig. f_equal. f_equal.
  destruct (Z.ltb_spec z 0); lia.
Qed.

Remark fromInteger_rounds :
  Js.fromInteger (2 ^ 53 + 1) = Js.ofZ (2 ^ 53)
  /\ Js.fromInteger (2 ^ 53 + 3) = Js.ofZ (2 ^ 53 + 4).
Proof. split; vm_compute; reflexivity. Qed.

(** ** The lines of lsblk *)

(** X17: the fallback of [getDrives] reads the size from the third field
    of a line of [lsblk]. A device without file system has a blank FSTYPE
    column, so its size is the second field: the device is left out of
    the listing whether it is mounted or not (1, 2). A device with a file
    system and a size is listed under its name, as not mounted when the
    line ends after the size (3), under its mount point otherwise (4). *)
Theorem lsblk_line_needs_a_file_system (n : Node)
        (dev fstype size mount sp1 sp2 sp3 : string) :
  Fields.isWord dev = true -> Fields.isWord fstype = true ->
  Fields.isWord size = true -> Fields.isWord mount = true ->
  Fields.isBlank sp1 = true -> Fields.isBlank sp2 = true ->
  Fields.isBlank sp3 = true ->
  Current.posixLine n (dev ++ sp1 ++ size) = []
  /\ (JsString.startsWith "/" mount = true ->
      Current.posixLine n (dev ++ sp1 ++ size ++ sp2 ++ mount) = [])
  /\ (Js.isNaN (Js.parseInt (Some size)) = false ->
      Current.posixLine n (dev ++ sp1 ++ fstype ++ sp2 ++ size)
      = [ {| Inquirer.name :=
               chalk n "cyan" dev ++ " @ " ++ chalk n "white" "[Not Mounted]"
               ++ " (" ++ gigabytes n (Js.parseInt (Some size)) ++ "GB)";
             Inquirer.value := Js.Str dev;
             Inquirer.disabled := None |} ])
  /\ (Js.isNaN (Js.parseInt (Some size)) = false ->
      Current.posixLine n (dev ++ sp1 ++ fstype ++ sp2 ++ size ++ sp3 ++ mount)
      = [ {| Inquirer.name :=
               chalk n "cyan" dev ++ " @ " ++ chalk n "white" mount
               ++ " (" ++ gigabytes n (Js.parseInt (Some size)) ++ "GB)";
             Inquirer.value := Js.Str dev;
             Inquirer.disabled := None |} ]).
Proof.
  intros Hdev Hfs Hsize Hmount H1 H2 H3.
  assert (Hparts : forall fields,
            Fields.wellFormed fields = true ->
            JsString.split_ws (JsString.trim (dev ++ Fields.spaced fields))
            = dev :: map snd fields)
    by (intros fields; now apply parts_of_line).
  assert (Hd : String.eqb dev "" = false)
    by (apply neq_eqb_false; now apply word_not_empty).
  assert (Hm : String.eqb mount "" = false)
    by (apply neq_eqb_false; now apply word_not_empty).
  split; [|split; [|split]].
  - pose proof (Hparts [(sp1, size)]) as E.
    cbn [Fields.spaced Fields.wellFormed forallb fst snd map] in E.
    rewrite string_app_nil, H1, Hsize in E.
    unfold Current.posixLine. rewrite (E eq_refl).
    cbn [nth_error nth Js.parseInt Js.isNaN negb andb]. now rewrite andb_false_r.
  - intros Hpath. pose proof (Hparts [(sp1, size); (sp2, mount)]) as E.
    cbn [Fields.spaced Fields.wellFormed forallb fst snd map] in E.
    rewrite string_app_nil, H1, H2, Hsize, Hmount in E.
    unfold Current.posixLine. rewrite (E eq_refl).
    cbn [nth_error nth]. rewrite (parseInt_of_path mount Hpath).
    cbn [Js.isNaN negb]. now rewrite andb_false_r.
  - intros Hnum. pose proof (Hparts [(sp1, fstype); (sp2, size)]) as E.
    cbn [Fields.spaced Fields.wellFormed forallb fst snd map] in E.
    rewrite string_app_nil, H1, H2, Hsize, Hfs in E.
    unfold Current.posixLine. rewrite (E eq_refl).
    cbn [nth_error nth]. now rewrite Hd, Hnum.
  - intros Hnum.
    pose proof (Hparts [(sp1, fstype); (sp2, size); (sp3, mount)]) as E.
    cbn [Fields.spaced Fields.wellFormed forallb fst snd map] in E.
    rewrite string_app_nil, H1, H2, H3, Hsize, Hfs, Hmount in E.
    unfold Current.posixLine. rewrite (E eq_refl).
    cbn [nth_error nth]. now rewrite Hd, Hm, Hnum.
Qed.

(** X17 at a disk without file system: its line is left out. *)
Lemma lsblk_line_needs_a_file_system_witness :
  Current.posixLine (Sample.linux 0) "/dev/sdb 32000000000" = [].
Proof.
  exact (proj1 (lsblk_line_needs_a_file_system (Sample.linux 0)
                  "/dev/sdb" "vfat" "32000000000" "/media/usb" " " " " " "
                  eq_refl eq_refl eq_refl eq_refl eq_refl eq_refl eq_refl)).
Defined.

(** ** The lines of df *)

Lemma split_fields_noSpace (s tok run : string) (x : string) :
  Fields.noSpace tok = true ->
  In x (JsString.split_runs 1 s tok run) ->
  Fields.noSpace x = true.
Proof.
  unfold Fields.noSpace. revert tok run.
  induction s as [|c s IH]; intros tok run Htok.
  - cbn [JsString.split_runs]. destruct run as [|r run].
    + cbn. rewrite string_app_nil. intros [<-|[]]. exact Htok.
    + cbn. intros [<-|[<-|[]]]; [exact Htok|reflexivity].
  - cbn [JsString.split_runs]. destruct (JsString.is_space c) eqn:Hc.
    + apply IH. exact Htok.
    + destruct run as [|r run].
      * cbn [String.length Nat.leb andb append]. apply IH.
        rewrite all_app, Htok. cbn [Fields.all andb]. now rewrite Hc.
      * cbn [String.length Nat.leb andb]. intros [<-|Hin]; [exact Htok|].
        revert Hin. apply IH. cbn [Fields.all]. now rewrite Hc.
Qed.

Lemma nth_last {A} (l : list A) (b d : A) :
  nth (List.length (l ++ [b]) - 1) (l ++ [b])%list d = b.
Proof.
  rewrite length_app. cbn [List.length].
  replace (List.length l + 1 - 1)%nat with (List.length l) by lia.
  rewrite app_nth2; [|apply Nat.le_refl]. now rewrite Nat.sub_diag.
Qed.

(** X18: the older [getDrives] takes the last field of a line of [df] for
    the mount point, so on a host other than Windows no value it lists
    has white space in it (1). A volume mounted on a path with a blank,
    the words [a] and [b], is listed under [b] alone when [b] starts with
    a slash and is left out otherwise: it is never offered under its
    path (2). *)
Theorem mount_point_is_one_word (n : Node) :
  (forall drives c,
     isWindows n = false ->
     snd (Legacy.getDrives n) = Resolved drives ->
     In c drives ->
     Fields.noSpace (Inquirer.value c) = true)
  /\ (forall first fields sp a sp' b,
        Fields.isWord first = true ->
        Fields.wellFormed fields = true ->
        Fields.isBlank sp = true -> Fields.isWord a = true ->
        Fields.isBlank sp' = true -> Fields.isWord b = true ->
        map Inquirer.value
            (Legacy.posixLine
               (first ++ Fields.spaced (fields ++ [(sp, a); (sp', b)])))
        = if JsString.startsWith "/" b then [b] else []).
Proof.
  split.
  - intros drives c Hw. unfold Legacy.getDrives. cbn [snd]. rewrite Hw.
    destruct (exec n (Legacy.command n)) as [|stdout]; [intros [= <-] []|].
    intros [= <-] Hin. apply in_flat_map in Hin. destruct Hin as (line & _ & Hin).
    unfold Legacy.posixLine in Hin.
    destruct (negb _ && _); [|destruct Hin].
    destruct Hin as [<-|[]]. cbn [Inquirer.value].
    destruct (nth_in_or_default
                (List.length (JsString.split_ws (JsString.trim line)) - 1)
                (JsString.split_ws (JsString.trim line)) "") as [Hin | ->];
      [|reflexivity].
    exact (split_fields_noSpace _ "" "" _ eq_refl Hin).
  - intros first fields sp a sp' b Hf Hfields Hsp Ha Hsp' Hb.
    assert (Hall : Fields.wellFormed (fields ++ [(sp, a); (sp', b)]) = true).
    { unfold Fields.wellFormed. rewrite forallb_app.
      fold (Fields.wellFormed fields). rewrite Hfields.
      cbn [forallb fst snd]. now rewrite Hsp, Ha, Hsp', Hb. }
    unfold Legacy.posixLine. rewrite (parts_of_line first _ Hf Hall).
    rewrite map_app. cbn [map snd].
    change (first :: (map snd fields ++ [a; b])%list)
      with (((first :: map snd fields) ++ [a; b])%list).
    change [a; b] with ([a] ++ [b])%list. rewrite app_assoc.
    rewrite nth_last.
    rewrite (neq_eqb_false b "" (word_not_empty b Hb)). cbn [negb andb].
    now destruct (JsString.startsWith "/" b).
Qed.

(** X18 at a line of [df] for a volume mounted on [/media/My Disk]: it is
    left out. *)
Lemma mount_point_is_one_word_witness :
  map Inquirer.value
      (Legacy.posixLine "/dev/sdb1 29G 1.2G 28G 5% /media/My Disk")
  = [].
Proof.
  exact (proj2 (mount_point_is_one_word Listing.dfHost)
               "/dev/sdb1" [(" ", "29G"); (" ", "1.2G"); (" ", "28G"); (" ", "5%")]
               " " "/media/My" " " "Disk"
               eq_refl eq_refl eq_refl eq_refl eq_refl eq_refl).
Defined.
